(** * Notebook service: registries, model lifecycle and mime-type resolution

    A shallow embedding of
    [src/vs/workbench/contrib/notebook/browser/notebookServiceImpl.ts]:
    the three registration stores ([NotebookKernelProviderInfoStore],
    [NotebookProviderInfoStore], [NotebookOutputRendererInfoStore]), the
    model index of [NotebookService] with its add/remove events, the
    controller registry, the kernel enumeration join and the mime-type
    resolution of [getMimeTypeInfo].

    JavaScript [Map]s iterate in insertion order and the code relies on it
    ([values()] feeds [filter] and [Array.from]), so a map is an association
    list in insertion order.  Service methods that mutate [this] or throw
    are written in a state-and-exception monad over the service record. *)

From Stdlib Require Import String List Bool Arith Lia Permutation.
Import ListNotations.

(* ================================================================== *)
(** ** JavaScript [Map<string, V>] *)

Module JsMap.
Section WithValue.
Context {V : Type}.

Definition t : Type := list (string * V).

Definition empty : t := [].

Fixpoint get (m : t) (k : string) : option V :=
  match m with
  | [] => None
  | (k', v) :: rest => if String.eqb k' k then Some v else get rest k
  end.

Definition has (m : t) (k : string) : bool :=
  match get m k with Some _ => true | None => false end.

(** [set] overwrites in place when the key is present (the entry keeps
    its position) and appends otherwise. *)
Fixpoint set (m : t) (k : string) (v : V) : t :=
  match m with
  | [] => [(k, v)]
  | (k', v') :: rest =>
      if String.eqb k' k then (k, v) :: rest else (k', v') :: set rest k v
  end.

(** A key occurs at most once in a [Map]; [delete] leaves no entry
    under the key. *)
Definition delete (m : t) (k : string) : t :=
  filter (fun entry => negb (String.eqb (fst entry) k)) m.

Definition keys (m : t) : list string := map fst m.

Definition values (m : t) : list V := map snd m.
End WithValue.
Arguments t : clear implicits.
End JsMap.

(* ================================================================== *)
(** ** Values shared with the rest of the workbench *)

(** The components of [vs/base/common/uri]'s [URI]. *)
Record URI : Type := {
  scheme : string;
  authority : string;
  path : string;
  query : string;
  fragment : string
}.

(** JavaScript truthiness of a [string | undefined]. *)
Definition truthy (s : option string) : bool :=
  match s with
  | None => false
  | Some EmptyString => false
  | Some _ => true
  end.

(** [a || b] for an optional string [a]. *)
Definition or_else (a : option string) (b : string) : string :=
  match a with
  | Some (String c s) => String c s
  | _ => b
  end.

(** What this file imports from [notebookCommon], [notebookProvider],
    [glob] and [map] and never defines itself: the two reserved renderer
    ids, the two mime-type tables, the selector and document-filter types
    with their match predicates, the accessible display order, the
    document options carried by a controller, and the key under which a
    [ResourceMap] files a [URI]. *)
Class NotebookCommon : Type := {
  BUILTIN_RENDERER_ID : string;
  RENDERER_NOT_AVAILABLE : string;
  mimeTypeSupportedByCore : string -> bool;
  mimeTypeIsAlwaysSecure : string -> bool;
  ACCESSIBLE_NOTEBOOK_DISPLAY_ORDER : list string;
  NotebookSelector : Type;
  selectorMatches : NotebookSelector -> URI -> bool;
  INotebookDocumentFilter : Type;
  notebookDocumentFilterMatch : INotebookDocumentFilter -> string -> URI -> bool;
  INotebookDocumentOptions : Type;
  toKey : URI -> string
}.

(** Modelled from the spec: the enum [NotebookEditorPriority] of
    [notebookCommon] is missing from the sources; the spec gives its two
    values, [default] and [option], each spelled by its own token. *)
Module NotebookEditorPriority.
Inductive t : Type := default | option.

Definition token (p : t) : string :=
  match p with
  | default => "default"%string
  | option => "option"%string
  end.
End NotebookEditorPriority.

(** An extension's description, as far as this file reads it. *)
Record IExtensionDescription : Type := {
  identifier : string;
  description : option string;
  extDisplayName : option string;
  isBuiltin : bool;
  enableProposedApi : bool;
  extensionLocation : URI
}.

(** What an extension point hands its handler for one extension. *)
Record IExtensionPointUser (A : Type) : Type := {
  ext_description : IExtensionDescription;
  value : A
}.

Arguments ext_description {_} _.
Arguments value {_} _.

Section ProviderInfo.
Context `{NotebookCommon}.

(** Modelled from the spec: the class [NotebookProviderInfo] of
    [notebookProvider] is missing from the sources; the record has the
    fields the constructor calls of this file pass, [matches] holds when
    some selector of the entry matches the resource, and [update]
    replaces the selectors or the options it is given. *)
Record NotebookProviderInfo : Type := {
  id : string;
  displayName : string;
  selectors : list NotebookSelector;
  priority : NotebookEditorPriority.t;
  providerExtensionId : option string;
  providerDescription : option string;
  providerDisplayName : string;
  providerExtensionLocation : URI;
  dynamicContribution : bool;
  exclusive : bool;
  options : option INotebookDocumentOptions
}.

Definition matches (info : NotebookProviderInfo) (resource : URI) : bool :=
  existsb (fun selector => selectorMatches selector resource) (selectors info).

Definition update (sel : option (list NotebookSelector))
    (opts : option INotebookDocumentOptions)
    (info : NotebookProviderInfo) : NotebookProviderInfo :=
  {| id := id info;
     displayName := displayName info;
     selectors := match sel with Some l => l | None => selectors info end;
     priority := priority info;
     providerExtensionId := providerExtensionId info;
     providerDescription := providerDescription info;
     providerDisplayName := providerDisplayName info;
     providerExtensionLocation := providerExtensionLocation info;
     dynamicContribution := dynamicContribution info;
     exclusive := exclusive info;
     options := match opts with Some o => Some o | None => options info end |}.

(** One entry of the [notebookProvider] extension point. *)
Record INotebookEditorContribution : Type := {
  viewType : string;
  contribDisplayName : string;
  selector : option (list NotebookSelector);
  contribPriority : option string
}.

End ProviderInfo.

(* ================================================================== *)
(** ** [NotebookProviderInfoStore] *)

Module NotebookProviderInfoStore.
Section Store.
Context `{NotebookCommon}.

(** [memento] is the array last written under the [editors] key of the
    memento object; [viewTypes] and [viewTypeDescriptions] are the two
    arrays of [NotebookViewTypesExtensionRegistry] that
    [_updateProviderExtensionsInfo] rebuilds. *)
Record t : Type := {
  _handled : bool;
  _contributedEditors : JsMap.t NotebookProviderInfo;
  memento : list NotebookProviderInfo;
  viewTypes : list string;
  viewTypeDescriptions : list string
}.

Definition with_editors (s : t) (m : JsMap.t NotebookProviderInfo) : t :=
  {| _handled := _handled s;
     _contributedEditors := m;
     memento := memento s;
     viewTypes := viewTypes s;
     viewTypeDescriptions := viewTypeDescriptions s |}.

Definition with_memento (s : t) (l : list NotebookProviderInfo) : t :=
  {| _handled := _handled s;
     _contributedEditors := _contributedEditors s;
     memento := l;
     viewTypes := viewTypes s;
     viewTypeDescriptions := viewTypeDescriptions s |}.

Definition with_handled (s : t) (b : bool) : t :=
  {| _handled := b;
     _contributedEditors := _contributedEditors s;
     memento := memento s;
     viewTypes := viewTypes s;
     viewTypeDescriptions := viewTypeDescriptions s |}.

Definition _convertPriority (priority : option string)
  : NotebookEditorPriority.t :=
  if negb (truthy priority) then NotebookEditorPriority.default
  else match priority with
       | Some p =>
           if String.eqb p (NotebookEditorPriority.token NotebookEditorPriority.default)
           then NotebookEditorPriority.default
           else NotebookEditorPriority.option
       | None => NotebookEditorPriority.default
       end.

Definition clear (s : t) : t := with_editors s JsMap.empty.

Definition get (s : t) (viewType : string) : option NotebookProviderInfo :=
  JsMap.get (_contributedEditors s) viewType.

Definition add (info : NotebookProviderInfo) (s : t) : t :=
  if JsMap.has (_contributedEditors s) (id info) then s
  else
    let s1 := with_editors s (JsMap.set (_contributedEditors s) (id info) info) in
    with_memento s1 (JsMap.values (_contributedEditors s1)).

Definition _updateProviderExtensionsInfo (s : t) : t :=
  let published :=
    filter (fun contribute => truthy (providerExtensionId contribute))
           (JsMap.values (_contributedEditors s)) in
  {| _handled := _handled s;
     _contributedEditors := _contributedEditors s;
     memento := memento s;
     viewTypes := map id published;
     viewTypeDescriptions := map displayName published |}.

(** The [NotebookProviderInfo] that [setupHandler] builds for one
    contribution of one extension. *)
Definition contributedInfo
    (extension : IExtensionPointUser (list INotebookEditorContribution))
    (notebookContribution : INotebookEditorContribution)
  : NotebookProviderInfo :=
  let d := ext_description extension in
  {| id := viewType notebookContribution;
     displayName := contribDisplayName notebookContribution;
     selectors := match selector notebookContribution with
                  | Some l => l
                  | None => []
                  end;
     priority := _convertPriority (contribPriority notebookContribution);
     providerExtensionId := Some (identifier d);
     providerDescription := description d;
     providerDisplayName :=
       if isBuiltin d then "Built-in"%string
       else or_else (extDisplayName d) (identifier d);
     providerExtensionLocation := extensionLocation d;
     dynamicContribution := false;
     exclusive := false;
     options := None |}.

Definition setupHandler
    (extensions : list (IExtensionPointUser (list INotebookEditorContribution)))
    (s : t) : t :=
  let s1 := clear (with_handled s true) in
  let s2 :=
    fold_left
      (fun acc extension =>
         fold_left
           (fun acc' notebookContribution =>
              add (contributedInfo extension notebookContribution) acc')
           (value extension) acc)
      extensions s1 in
  let s3 := with_memento s2 (JsMap.values (_contributedEditors s2)) in
  _updateProviderExtensionsInfo s3.

Definition getContributedNotebook (s : t) (resource : URI)
  : list NotebookProviderInfo :=
  filter
    (fun customEditor =>
       String.eqb (scheme resource) "untitled" || matches customEditor resource)
    (JsMap.values (_contributedEditors s)).

(** [[Symbol.iterator]()]. *)
Definition iterator (s : t) : list NotebookProviderInfo :=
  JsMap.values (_contributedEditors s).

(** The constructor, given [persisted], the array an earlier session left
    under the [editors] key of the memento (empty when there is none): each
    persisted descriptor is added, then the registry is republished.  The
    loop runs over the array it started with; [add] replaces the memento's
    array, not that one. *)
Definition construct (persisted : list NotebookProviderInfo) : t :=
  _updateProviderExtensionsInfo
    (fold_left (fun acc info => add info acc) persisted
       {| _handled := false;
          _contributedEditors := JsMap.empty;
          memento := persisted;
          viewTypes := [];
          viewTypeDescriptions := [] |}).

(** The listener the constructor registers on [onDidRegisterExtensions]. *)
Definition onDidRegisterExtensions (s : t) : t :=
  if negb (_handled s)
  then _updateProviderExtensionsInfo (with_memento (clear s) [])
  else s.
End Store.
End NotebookProviderInfoStore.

(* ================================================================== *)
(** ** [NotebookOutputRendererInfoStore] *)

(** Modelled from the spec: the class [NotebookOutputRendererInfo] of
    [notebookOutputRenderer] is missing from the sources; the spec gives a
    renderer an id, an owning extension, an entry point, a display name and
    a set of supported mime types, matched by exact membership. *)
Record NotebookOutputRendererInfo : Type := {
  renderer_id : string;
  renderer_extension : string;
  entrypoint : string;
  renderer_displayName : string;
  mimeTypes : list string
}.

Definition renderer_matches (r : NotebookOutputRendererInfo) (mimeType : string)
  : bool :=
  existsb (fun pattern => String.eqb pattern mimeType) (mimeTypes r).

Module NotebookOutputRendererInfoStore.
Record t : Type := {
  contributedRenderers : JsMap.t NotebookOutputRendererInfo
}.

Definition empty : t := {| contributedRenderers := JsMap.empty |}.

Definition clear (s : t) : t := empty.

Definition get (s : t) (viewType : string) : option NotebookOutputRendererInfo :=
  JsMap.get (contributedRenderers s) viewType.

Definition add (info : NotebookOutputRendererInfo) (s : t) : t :=
  if JsMap.has (contributedRenderers s) (renderer_id info) then s
  else {| contributedRenderers :=
            JsMap.set (contributedRenderers s) (renderer_id info) info |}.

Definition getContributedRenderer (s : t) (mimeType : string)
  : list NotebookOutputRendererInfo :=
  filter (fun customEditor => renderer_matches customEditor mimeType)
         (JsMap.values (contributedRenderers s)).
End NotebookOutputRendererInfoStore.

(* ================================================================== *)
(** ** [NotebookKernelProviderInfoStore] *)

(** A kernel, as far as the join of [getNotebookKernels] handles it. *)
Record INotebookKernel : Type := {
  friendlyId : string;
  label : string
}.

Section KernelProvider.
Context `{NotebookCommon}.

(** A kernel provider without its [provideKernels] capability, which is
    asynchronous and lives in the extension host: its results reach the
    service as the settlements of [getNotebookKernels] below. *)
Record INotebookKernelProvider : Type := {
  kp_providerExtensionId : string;
  kp_providerDescription : option string;
  kp_selector : INotebookDocumentFilter
}.
End KernelProvider.

Module NotebookKernelProviderInfoStore.
Section Store.
Context `{NotebookCommon}.

(** [extensionIds] and [extensionDescriptions] are the two arrays of
    [NotebookKernelProviderAssociationRegistry]. *)
Record t : Type := {
  _notebookKernelProviders : list INotebookKernelProvider;
  extensionIds : list string;
  extensionDescriptions : list string
}.

Definition empty : t :=
  {| _notebookKernelProviders := [];
     extensionIds := [];
     extensionDescriptions := [] |}.

Definition _updateProviderExtensionsInfo (s : t) : t :=
  {| _notebookKernelProviders := _notebookKernelProviders s;
     extensionIds := map kp_providerExtensionId (_notebookKernelProviders s);
     extensionDescriptions :=
       map (fun provider =>
              match kp_providerDescription provider with
              | Some (String c d) => String c d
              | _ => EmptyString
              end)
           (_notebookKernelProviders s) |}.

(** [add] pushes the provider and republishes; the handle it returns
    (which splices the provider out again) is not needed below. *)
Definition add (provider : INotebookKernelProvider) (s : t) : t :=
  _updateProviderExtensionsInfo
    {| _notebookKernelProviders := _notebookKernelProviders s ++ [provider];
       extensionIds := extensionIds s;
       extensionDescriptions := extensionDescriptions s |}.

Definition get (s : t) (viewType : string) (resource : URI)
  : list INotebookKernelProvider :=
  filter (fun provider =>
            notebookDocumentFilterMatch (kp_selector provider) viewType resource)
         (_notebookKernelProviders s).

Definition getContributedKernelProviders (s : t) : list INotebookKernelProvider :=
  _notebookKernelProviders s.
End Store.
End NotebookKernelProviderInfoStore.

(* ================================================================== *)
(** ** Documents, outputs and controllers *)

Record NotebookDocumentMetadata : Type := {
  trusted : bool;
  editable : bool
}.

Record ICellDto : Type := {
  source : string;
  language : string
}.

Record NotebookDataDto : Type := {
  dto_cells : list ICellDto;
  dto_metadata : NotebookDocumentMetadata
}.

Record TransientOptions : Type := {
  transientOutputs : bool
}.

(** Modelled from the spec: the class [NotebookTextModel] is missing from
    the sources; the spec gives a model its URI, view type, cells, metadata
    with the [trusted] flag and transient options.  [nb_handle] is the
    identity of the object: two models created for the same URI at
    different times are different objects. *)
Record NotebookTextModel : Type := {
  nb_handle : nat;
  nb_viewType : string;
  nb_uri : URI;
  nb_cells : list ICellDto;
  nb_metadata : NotebookDocumentMetadata;
  nb_transientOptions : TransientOptions
}.

(** One item of an output: a mime type and its payload. *)
Record IOutputItemDto : Type := {
  mime : string;
  item_value : string
}.

Record IOutputDto : Type := {
  outputId : string;
  outputs : list IOutputItemDto
}.

Record IOrderedMimeType : Type := {
  mimeType : string;
  rendererId : string;
  isTrusted : bool
}.

Record DisplayOrder : Type := {
  userOrder : option (list string);
  defaultOrder : option (list string)
}.

Section Controller.
Context `{NotebookCommon}.

Record ViewOptions : Type := {
  vo_displayName : string;
  filenamePattern : list NotebookSelector;
  vo_exclusive : bool
}.

Record IMainNotebookController : Type := {
  viewOptions : option ViewOptions;
  controller_options : INotebookDocumentOptions
}.

Record NotebookExtensionDescription : Type := {
  ext_id : string;
  ext_location : URI;
  ext_description_text : option string
}.

Record INotebookProviderData : Type := {
  controller : IMainNotebookController;
  extensionData : NotebookExtensionDescription
}.
End Controller.

(** [ModelData] wraps a model together with the listener it attached to
    the model's [onWillDispose]; whether that listener is still attached is
    kept with the service state ([listeners] below), since the emitter
    belongs to the model object. *)
Record ModelData : Type := {
  md_model : NotebookTextModel
}.

(* ================================================================== *)
(** ** Ordering mime types by preference *)

Fixpoint indexOf (x : string) (l : list string) : option nat :=
  match l with
  | [] => None
  | y :: rest =>
      if String.eqb y x then Some 0
      else match indexOf x rest with
           | Some i => Some (S i)
           | None => None
           end
  end.

(** The rank of a mime type: its position in the user's list, else its
    position in the default list counted after the user's, else past both. *)
Definition mimeTypeOrder (userDisplayOrder defaultOrder : list string)
    (mimeType : string) : nat :=
  match indexOf mimeType userDisplayOrder with
  | Some i => i
  | None =>
      match indexOf mimeType defaultOrder with
      | Some j => length userDisplayOrder + j
      | None => length userDisplayOrder + length defaultOrder
      end
  end.

Fixpoint insertByOrder (order : string -> nat) (x : string) (l : list string)
  : list string :=
  match l with
  | [] => [x]
  | y :: rest =>
      if order x <=? order y then x :: y :: rest
      else y :: insertByOrder order x rest
  end.

(** Modelled from the spec: [sortMimeTypes] of [notebookCommon] is missing
    from the sources; by the spec, mime types present in a preference list
    are ordered by their position there, the user's list before the default
    one, and those absent from both keep their relative order after all
    preferred ones.  That is a stable sort by [mimeTypeOrder]. *)
Definition sortMimeTypes (mimeTypes userDisplayOrder defaultOrder : list string)
  : list string :=
  fold_right (insertByOrder (mimeTypeOrder userDisplayOrder defaultOrder)) []
             mimeTypes.

(* ================================================================== *)
(** ** [NotebookService]: state, effects and the monad of its methods *)

Module NotebookService.

(** What a method can throw. *)
Inductive Error : Type :=
| NotebookAlreadyExists (uri : URI)
| ControllerAlreadyExists (viewType : string)
| NoProvider (viewType : string).

(** What the service does that its collaborators can observe, in the
    order it does it: the events it fires, the removal of a key from the
    model index, and the two disposals of the removal path. *)
Inductive Effect : Type :=
| DidAddNotebookDocument (model : NotebookTextModel)
| DidRemoveNotebookDocument (uri : URI)
| DidChangeEditorTypes
| IndexDeleted (key : string)
| ModelDisposed (model : NotebookTextModel)
| ListenersDisposed (model : NotebookTextModel).

(** How a call ends: it returns, it throws, or it is still running when
    the recursion budget of the re-entrant disposal path is used up. *)
Inductive Outcome (A : Type) : Type :=
| Returned (a : A)
| Thrown (e : Error)
| OutOfFuel.

Arguments Returned {A} a.
Arguments Thrown {A} e.
Arguments OutOfFuel {A}.

Section Service.
Context `{NotebookCommon}.

(** [listeners] holds the handles of the models whose [onWillDispose]
    still carries the listener a [ModelData] attached; [nextHandle] is the
    identity the next created model object gets; [trace] is the sequence
    of effects so far, oldest first. *)
Record t : Type := {
  _notebookProviders : JsMap.t INotebookProviderData;
  _notebookProviderInfoStore : NotebookProviderInfoStore.t;
  _notebookRenderersInfoStore : NotebookOutputRendererInfoStore.t;
  _notebookKernelProviderInfoStore : NotebookKernelProviderInfoStore.t;
  _models : JsMap.t ModelData;
  _displayOrder : DisplayOrder;
  listeners : list nat;
  nextHandle : nat;
  trace : list Effect
}.

Definition with_providers (s : t) (p : JsMap.t INotebookProviderData) : t :=
  {| _notebookProviders := p;
     _notebookProviderInfoStore := _notebookProviderInfoStore s;
     _notebookRenderersInfoStore := _notebookRenderersInfoStore s;
     _notebookKernelProviderInfoStore := _notebookKernelProviderInfoStore s;
     _models := _models s;
     _displayOrder := _displayOrder s;
     listeners := listeners s;
     nextHandle := nextHandle s;
     trace := trace s |}.

Definition with_infoStore (s : t) (i : NotebookProviderInfoStore.t) : t :=
  {| _notebookProviders := _notebookProviders s;
     _notebookProviderInfoStore := i;
     _notebookRenderersInfoStore := _notebookRenderersInfoStore s;
     _notebookKernelProviderInfoStore := _notebookKernelProviderInfoStore s;
     _models := _models s;
     _displayOrder := _displayOrder s;
     listeners := listeners s;
     nextHandle := nextHandle s;
     trace := trace s |}.

Definition with_models (s : t) (m : JsMap.t ModelData) : t :=
  {| _notebookProviders := _notebookProviders s;
     _notebookProviderInfoStore := _notebookProviderInfoStore s;
     _notebookRenderersInfoStore := _notebookRenderersInfoStore s;
     _notebookKernelProviderInfoStore := _notebookKernelProviderInfoStore s;
     _models := m;
     _displayOrder := _displayOrder s;
     listeners := listeners s;
     nextHandle := nextHandle s;
     trace := trace s |}.

Definition with_listeners (s : t) (l : list nat) (n : nat) : t :=
  {| _notebookProviders := _notebookProviders s;
     _notebookProviderInfoStore := _notebookProviderInfoStore s;
     _notebookRenderersInfoStore := _notebookRenderersInfoStore s;
     _notebookKernelProviderInfoStore := _notebookKernelProviderInfoStore s;
     _models := _models s;
     _displayOrder := _displayOrder s;
     listeners := l;
     nextHandle := n;
     trace := trace s |}.

Definition with_trace (s : t) (tr : list Effect) : t :=
  {| _notebookProviders := _notebookProviders s;
     _notebookProviderInfoStore := _notebookProviderInfoStore s;
     _notebookRenderersInfoStore := _notebookRenderersInfoStore s;
     _notebookKernelProviderInfoStore := _notebookKernelProviderInfoStore s;
     _models := _models s;
     _displayOrder := _displayOrder s;
     listeners := listeners s;
     nextHandle := nextHandle s;
     trace := tr |}.

(** *** The monad *)

Definition M (A : Type) : Type := t -> Outcome A * t.

Definition ret {A : Type} (a : A) : M A := fun s => (Returned a, s).

Definition bind {A B : Type} (c : M A) (k : A -> M B) : M B :=
  fun s =>
    match c s with
    | (Returned a, s') => k a s'
    | (Thrown e, s') => (Thrown e, s')
    | (OutOfFuel, s') => (OutOfFuel, s')
    end.

Definition throw {A : Type} (e : Error) : M A := fun s => (Thrown e, s).

Definition stuck {A : Type} : M A := fun s => (OutOfFuel, s).

Definition read : M t := fun s => (Returned s, s).

Definition modify (f : t -> t) : M unit := fun s => (Returned tt, f s).

Definition fire (e : Effect) : M unit :=
  modify (fun s => with_trace s (trace s ++ [e])).
End Service.

Declare Scope service_scope.
Delimit Scope service_scope with service.
Notation "x <- c1 ;; c2" :=
  (bind c1 (fun x => c2))
  (at level 61, c1 at next level, right associativity) : service_scope.
Notation "c1 ;; c2" :=
  (bind c1 (fun _ => c2))
  (at level 61, right associativity) : service_scope.

Section Methods.
Context `{NotebookCommon}.
Local Open Scope service_scope.

(** *** Controllers *)

(** The entry [registerNotebookController] synthesizes for a controller
    that declares view options. *)
Definition dynamicInfo (viewType : string)
    (extensionData : NotebookExtensionDescription)
    (controller : IMainNotebookController) (vo : ViewOptions)
  : NotebookProviderInfo :=
  let info :=
    {| id := viewType;
       displayName := vo_displayName vo;
       selectors := [];
       priority := NotebookEditorPriority.default;
       providerExtensionId := Some (ext_id extensionData);
       providerDescription := ext_description_text extensionData;
       providerDisplayName := ext_id extensionData;
       providerExtensionLocation := ext_location extensionData;
       dynamicContribution := true;
       exclusive := vo_exclusive vo;
       options := None |} in
  let info := update (Some (filenamePattern vo)) None info in
  update None (Some (controller_options controller)) info.

(** [this._notebookProviderInfoStore.get(viewType)?.update(...)]: the
    entry is an object held by the store's map, so the update shows in the
    map, at the entry's position. *)
Definition updateStored (viewType : string)
    (opts : INotebookDocumentOptions) (store : NotebookProviderInfoStore.t)
  : NotebookProviderInfoStore.t :=
  match NotebookProviderInfoStore.get store viewType with
  | Some info =>
      NotebookProviderInfoStore.with_editors store
        (JsMap.set (NotebookProviderInfoStore._contributedEditors store)
                   viewType (update None (Some opts) info))
  | None => store
  end.

(** The handle [registerNotebookController] returns: running it is
    calling [dispose()] on the handle. *)
Definition unregisterNotebookController (viewType : string) : M unit :=
  modify (fun s => with_providers s (JsMap.delete (_notebookProviders s) viewType)) ;;
  fire DidChangeEditorTypes.

Definition registerNotebookController (viewType : string)
    (extensionData : NotebookExtensionDescription)
    (controller : IMainNotebookController) : M (M unit) :=
  s <- read ;;
  if JsMap.has (_notebookProviders s) viewType
  then throw (ControllerAlreadyExists viewType)
  else
    modify (fun s =>
      with_providers s
        (JsMap.set (_notebookProviders s) viewType
           {| controller := controller; extensionData := extensionData |})) ;;
    s <- read ;;
    match viewOptions controller,
          NotebookProviderInfoStore.get (_notebookProviderInfoStore s) viewType with
    | Some vo, None =>
        modify (fun s =>
          with_infoStore s
            (NotebookProviderInfoStore.add
               (dynamicInfo viewType extensionData controller vo)
               (_notebookProviderInfoStore s)))
    | _, _ => ret tt
    end ;;
    modify (fun s =>
      with_infoStore s
        (updateStored viewType (controller_options controller)
           (_notebookProviderInfoStore s))) ;;
    fire DidChangeEditorTypes ;;
    ret (unregisterNotebookController viewType).

Definition getContributedNotebookProvider (s : t) (viewType : string)
  : option NotebookProviderInfo :=
  NotebookProviderInfoStore.get (_notebookProviderInfoStore s) viewType.

Definition getContributedNotebookProviders (s : t) (resource : option URI)
  : list NotebookProviderInfo :=
  match resource with
  | Some r =>
      NotebookProviderInfoStore.getContributedNotebook (_notebookProviderInfoStore s) r
  | None => NotebookProviderInfoStore.iterator (_notebookProviderInfoStore s)
  end.

(** *** Documents: create, destroy, retrieve *)

Definition listening (s : t) (model : NotebookTextModel) : bool :=
  existsb (Nat.eqb (nb_handle model)) (listeners s).

(** [createInstance(NotebookTextModel, ...)]: a fresh object. *)
Definition createInstance (viewType : string) (uri : URI)
    (cells : list ICellDto) (metadata : NotebookDocumentMetadata)
    (transientOptions : TransientOptions) : M NotebookTextModel :=
  s <- read ;;
  modify (fun s => with_listeners s (listeners s) (S (nextHandle s))) ;;
  ret {| nb_handle := nextHandle s;
         nb_viewType := viewType;
         nb_uri := uri;
         nb_cells := cells;
         nb_metadata := metadata;
         nb_transientOptions := transientOptions |}.

(** [new ModelData(model, onWillDispose)]: attaches the forwarding
    listener to [model.onWillDispose]. *)
Definition newModelData (model : NotebookTextModel) : M ModelData :=
  modify (fun s => with_listeners s (nb_handle model :: listeners s) (nextHandle s)) ;;
  ret {| md_model := model |}.

(** [ModelData.dispose]: detaches the listener. *)
Definition ModelData_dispose (modelData : ModelData) : M unit :=
  modify (fun s =>
    with_listeners s
      (filter (fun h => negb (Nat.eqb (nb_handle (md_model modelData)) h)) (listeners s))
      (nextHandle s)) ;;
  fire (ListenersDisposed (md_model modelData)).

(** Modelled from the spec: [NotebookTextModel.dispose] is missing from
    the sources; by the spec, disposing a model raises its "about to
    dispose" signal, which reaches the registry's removal path through the
    listener of its [ModelData] for as long as that listener is attached,
    and then the model releases what it holds.  [onWillDispose] is that
    listener's target. *)
Definition NotebookTextModel_dispose
    (onWillDispose : NotebookTextModel -> M unit)
    (model : NotebookTextModel) : M unit :=
  s <- read ;;
  (if listening s model then onWillDispose model else ret tt) ;;
  fire (ModelDisposed model).

Definition createNotebookTextModel (viewType : string) (uri : URI)
    (data : NotebookDataDto) (transientOptions : TransientOptions)
  : M NotebookTextModel :=
  s <- read ;;
  if JsMap.has (_models s) (toKey uri)
  then throw (NotebookAlreadyExists uri)
  else
    notebookModel <-
      createInstance viewType uri (dto_cells data) (dto_metadata data)
        transientOptions ;;
    modelData <- newModelData notebookModel ;;
    modify (fun s => with_models s (JsMap.set (_models s) (toKey uri) modelData)) ;;
    fire (DidAddNotebookDocument notebookModel) ;;
    ret notebookModel.

Definition getNotebookTextModel (s : t) (uri : URI) : option NotebookTextModel :=
  match JsMap.get (_models s) (toKey uri) with
  | Some data => Some (md_model data)
  | None => None
  end.

Definition listNotebookDocuments (s : t) : list NotebookTextModel :=
  map (fun e => md_model (snd e)) (_models s).

(** [delete] on the index, recorded when it removed an entry. *)
Definition deleteModel (key : string) : M unit :=
  s <- read ;;
  modify (fun s => with_models s (JsMap.delete (_models s) key)) ;;
  if JsMap.has (_models s) key then fire (IndexDeleted key) else ret tt.

(** The removal path calls [model.dispose()], whose signal calls the
    removal path again: [fuel] bounds the depth of that recursion. *)
Fixpoint _onWillDisposeDocument (fuel : nat) (model : NotebookTextModel)
  : M unit :=
  match fuel with
  | O => stuck
  | S fuel' =>
      s <- read ;;
      let modelData := JsMap.get (_models s) (toKey (nb_uri model)) in
      deleteModel (toKey (nb_uri model)) ;;
      match modelData with
      | Some modelData =>
          NotebookTextModel_dispose (_onWillDisposeDocument fuel')
            (md_model modelData) ;;
          ModelData_dispose modelData ;;
          fire (DidRemoveNotebookDocument (nb_uri (md_model modelData)))
      | None => ret tt
      end
  end.

Definition destoryNotebookDocument (fuel : nat) (viewType : string)
    (notebook : NotebookTextModel) : M unit :=
  _onWillDisposeDocument fuel notebook.

(** The owner of a model calls [model.dispose()] itself. *)
Definition disposeModel (fuel : nat) (model : NotebookTextModel) : M unit :=
  NotebookTextModel_dispose (_onWillDisposeDocument fuel) model.
End Methods.

Section Resolution.
Context `{NotebookCommon}.

(** *** Mime types *)

(** The [forEach] over [output.outputs]: the pair is [mimeTypeSet] (as the
    list of its members) and [mimeTypes]. *)
Definition collectMimeTypes (items : list IOutputItemDto) : list string :=
  snd
    (fold_left
       (fun '(mimeTypeSet, mimeTypes) op =>
          if existsb (String.eqb (mime op)) mimeTypeSet
          then (mimeTypeSet, mimeTypes)
          else (mime op :: mimeTypeSet, mimeTypes ++ [mime op]))
       items ([], [])).

Definition _findBestMatchedRenderer (s : t) (mimeType : string)
  : list NotebookOutputRendererInfo :=
  NotebookOutputRendererInfoStore.getContributedRenderer
    (_notebookRenderersInfoStore s) mimeType.

Definition rendererEntry (textModel : NotebookTextModel) (mimeType : string)
    (handler : NotebookOutputRendererInfo) : IOrderedMimeType :=
  {| mimeType := mimeType;
     rendererId := renderer_id handler;
     isTrusted := trusted (nb_metadata textModel) |}.

Definition builtinEntry (textModel : NotebookTextModel) (mimeType : string)
  : IOrderedMimeType :=
  {| mimeType := mimeType;
     rendererId := BUILTIN_RENDERER_ID;
     isTrusted := mimeTypeIsAlwaysSecure mimeType || trusted (nb_metadata textModel) |}.

Definition notAvailableEntry (textModel : NotebookTextModel) (mimeType : string)
  : IOrderedMimeType :=
  {| mimeType := mimeType;
     rendererId := RENDERER_NOT_AVAILABLE;
     isTrusted := trusted (nb_metadata textModel) |}.

(** The body of the [forEach] over the sorted mime types: what one mime
    type pushes onto [orderMimeTypes]. *)
Definition pushMimeType (s : t) (textModel : NotebookTextModel)
    (orderMimeTypes : list IOrderedMimeType) (mimeType : string)
  : list IOrderedMimeType :=
  let handlers := _findBestMatchedRenderer s mimeType in
  match handlers with
  | handler :: others =>
      let orderMimeTypes := orderMimeTypes ++ [rendererEntry textModel mimeType handler] in
      let orderMimeTypes :=
        fold_left (fun acc h => acc ++ [rendererEntry textModel mimeType h])
                  others orderMimeTypes in
      if mimeTypeSupportedByCore mimeType
      then orderMimeTypes ++ [builtinEntry textModel mimeType]
      else orderMimeTypes
  | [] =>
      if mimeTypeSupportedByCore mimeType
      then orderMimeTypes ++ [builtinEntry textModel mimeType]
      else orderMimeTypes ++ [notAvailableEntry textModel mimeType]
  end.

Definition orElseEmpty (l : option (list string)) : list string :=
  match l with Some l => l | None => [] end.

Definition getMimeTypeInfo (s : t) (textModel : NotebookTextModel)
    (output : IOutputDto) : list IOrderedMimeType :=
  let mimeTypes := collectMimeTypes (outputs output) in
  let coreDisplayOrder := _displayOrder s in
  let sorted :=
    sortMimeTypes mimeTypes (orElseEmpty (userOrder coreDisplayOrder))
                  (orElseEmpty (defaultOrder coreDisplayOrder)) in
  fold_left (pushMimeType s textModel) sorted [].

(** [updateOrder] of the constructor. *)
Definition updateOrder (configured : option (list string))
    (screenReaderOptimized : bool) (s : t) : t :=
  {| _notebookProviders := _notebookProviders s;
     _notebookProviderInfoStore := _notebookProviderInfoStore s;
     _notebookRenderersInfoStore := _notebookRenderersInfoStore s;
     _notebookKernelProviderInfoStore := _notebookKernelProviderInfoStore s;
     _models := _models s;
     _displayOrder :=
       {| userOrder := configured;
          defaultOrder :=
            Some (if screenReaderOptimized
                  then ACCESSIBLE_NOTEBOOK_DISPLAY_ORDER else []) |};
     listeners := listeners s;
     nextHandle := nextHandle s;
     trace := trace s |}.
End Resolution.

(** *** Kernels *)

(** How a promise settles. *)
Inductive Settlement (A : Type) : Type :=
| Fulfilled (a : A)
| Rejected (reason : string).

Arguments Fulfilled {A} a.
Arguments Rejected {A} reason.

Section Kernels.
Context `{NotebookCommon}.

(** The state of one [getNotebookKernels] call after its synchronous
    part: [promises] are the promises of the [async] callbacks, one per
    matching provider in the order of [filteredProvider], each pending
    ([None]) or settled; [joined] is the promise the call returned. *)
Record KernelJoin : Type := {
  promises : list (option (Settlement (list INotebookKernel)));
  joined : option (Settlement (list INotebookKernel))
}.

(** [result[index]]: set by the callback of a provider whose enumeration
    fulfilled, a hole otherwise. *)
Definition resultSlot (p : option (Settlement (list INotebookKernel)))
  : option (list INotebookKernel) :=
  match p with
  | Some (Fulfilled data) => Some data
  | _ => None
  end.

Definition isFulfilled (p : option (Settlement (list INotebookKernel))) : bool :=
  match p with
  | Some (Fulfilled _) => true
  | _ => false
  end.

(** [flatten(result)]; it runs once every slot is set. *)
Definition flatten (result : list (option (list INotebookKernel)))
  : list INotebookKernel :=
  concat (map (fun slot => match slot with Some data => data | None => [] end) result).

Fixpoint setNth {A : Type} (l : list A) (n : nat) (a : A) : list A :=
  match l, n with
  | [], _ => []
  | _ :: rest, O => a :: rest
  | x :: rest, S n' => x :: setNth rest n' a
  end.

(** The enumeration of the provider at [index] settles with [r].  A
    promise settles once.  [Promise.all] rejects with the first rejection
    it sees and fulfils when every promise has fulfilled; once it has
    settled nothing changes what the call returned. *)
Definition settle (index : nat) (r : Settlement (list INotebookKernel))
    (j : KernelJoin) : KernelJoin :=
  match nth_error (promises j) index with
  | Some None =>
      let promises' := setNth (promises j) index (Some r) in
      {| promises := promises';
         joined :=
           match joined j with
           | Some settled => Some settled
           | None =>
               match r with
               | Rejected reason => Some (Rejected reason)
               | Fulfilled _ =>
                   if forallb isFulfilled promises'
                   then Some (Fulfilled (flatten (map resultSlot promises')))
                   else None
               end
           end |}
  | _ => j
  end.

(** The call up to its [await]: one pending promise per matching
    provider; [Promise.all] of no promise is fulfilled at once. *)
Definition startKernelJoin (filteredProvider : list INotebookKernelProvider)
  : KernelJoin :=
  {| promises := map (fun _ => None) filteredProvider;
     joined :=
       match filteredProvider with
       | [] => Some (Fulfilled (flatten []))
       | _ :: _ => None
       end |}.

(** [getNotebookKernels] against providers whose enumerations settle in
    the order [schedule] lists, each named by its index among the matching
    providers; an enumeration that [schedule] does not list never
    settles.  The result is how the call's promise has settled by then,
    [None] while it is pending. *)
Definition getNotebookKernels (s : t) (viewType : string) (resource : URI)
    (schedule : list (nat * Settlement (list INotebookKernel)))
  : option (Settlement (list INotebookKernel)) :=
  let filteredProvider :=
    NotebookKernelProviderInfoStore.get (_notebookKernelProviderInfoStore s)
      viewType resource in
  joined
    (fold_left (fun j ev => settle (fst ev) (snd ev) j) schedule
               (startKernelJoin filteredProvider)).

Definition registerNotebookKernelProvider (provider : INotebookKernelProvider)
    (s : t) : t :=
  {| _notebookProviders := _notebookProviders s;
     _notebookProviderInfoStore := _notebookProviderInfoStore s;
     _notebookRenderersInfoStore := _notebookRenderersInfoStore s;
     _notebookKernelProviderInfoStore :=
       NotebookKernelProviderInfoStore.add provider
         (_notebookKernelProviderInfoStore s);
     _models := _models s;
     _displayOrder := _displayOrder s;
     listeners := listeners s;
     nextHandle := nextHandle s;
     trace := trace s |}.
End Kernels.

(** A service with nothing registered. *)
Definition initial `{NotebookCommon} : t :=
  {| _notebookProviders := JsMap.empty;
     _notebookProviderInfoStore :=
       {| NotebookProviderInfoStore._handled := false;
          NotebookProviderInfoStore._contributedEditors := JsMap.empty;
          NotebookProviderInfoStore.memento := [];
          NotebookProviderInfoStore.viewTypes := [];
          NotebookProviderInfoStore.viewTypeDescriptions := [] |};
     _notebookRenderersInfoStore := NotebookOutputRendererInfoStore.empty;
     _notebookKernelProviderInfoStore := NotebookKernelProviderInfoStore.empty;
     _models := JsMap.empty;
     _displayOrder := {| userOrder := None; defaultOrder := Some [] |};
     listeners := [];
     nextHandle := 0;
     trace := [] |}.

(** *** Extension points *)

(** One entry of the [notebookRenderer] extension point. *)
Record INotebookRendererContribution : Type := {
  rc_id : option string;
  rc_viewType : option string;
  rc_displayName : string;
  rc_mimeTypes : option (list string);
  rc_entrypoint : option string
}.

(** [notebookContribution.id ?? notebookContribution.viewType]. *)
Definition rendererContributionId (c : INotebookRendererContribution)
  : option string :=
  match rc_id c with
  | Some i => Some i
  | None => rc_viewType c
  end.

(** The body of the inner loop of the renderer handler; the two
    [continue]s leave the store as it is. *)
Definition addRendererContribution
    (extension : IExtensionPointUser (list INotebookRendererContribution))
    (store : NotebookOutputRendererInfoStore.t)
    (notebookContribution : INotebookRendererContribution)
  : NotebookOutputRendererInfoStore.t :=
  if negb (truthy (rc_entrypoint notebookContribution)) then store
  else
    let id := rendererContributionId notebookContribution in
    if negb (truthy id) then store
    else
      NotebookOutputRendererInfoStore.add
        {| renderer_id := or_else id EmptyString;
           renderer_extension := identifier (ext_description extension);
           entrypoint := or_else (rc_entrypoint notebookContribution) EmptyString;
           renderer_displayName := rc_displayName notebookContribution;
           mimeTypes := match rc_mimeTypes notebookContribution with
                        | Some l => l
                        | None => []
                        end |}
        store.

(** The handler the constructor sets on [notebookRendererExtensionPoint]. *)
Definition onRendererExtensionPoint
    (renderers : list (IExtensionPointUser (list INotebookRendererContribution)))
    (store : NotebookOutputRendererInfoStore.t)
  : NotebookOutputRendererInfoStore.t :=
  fold_left
    (fun acc extension =>
       fold_left (addRendererContribution extension) (value extension) acc)
    renderers (NotebookOutputRendererInfoStore.clear store).

(** One entry of the [notebookMarkdownRenderer] extension point. *)
Record INotebookMarkdownRendererContribution : Type := {
  mc_id : option string;
  mc_displayName : string;
  mc_entrypoint : option string
}.

(** Modelled from the spec: the class [NotebookMarkdownRendererInfo] is
    missing from the sources; it keeps the four fields its constructor is
    given here. *)
Record NotebookMarkdownRendererInfo : Type := {
  mdr_id : string;
  mdr_extension : string;
  mdr_entrypoint : string;
  mdr_displayName : string
}.

(** The body of the inner loop of the markdown handler.  The infos are a
    [Set] of objects made by [new], so every [add] appends. *)
Definition addMarkdownContribution
    (extension : IExtensionPointUser (list INotebookMarkdownRendererContribution))
    (infos : list NotebookMarkdownRendererInfo)
    (notebookContribution : INotebookMarkdownRendererContribution)
  : list NotebookMarkdownRendererInfo :=
  if negb (truthy (mc_entrypoint notebookContribution)) then infos
  else
    let id := mc_id notebookContribution in
    if negb (truthy id) then infos
    else
      infos ++
      [ {| mdr_id := or_else id EmptyString;
           mdr_extension := identifier (ext_description extension);
           mdr_entrypoint := or_else (mc_entrypoint notebookContribution) EmptyString;
           mdr_displayName := mc_displayName notebookContribution |} ].

(** The outer loop of the markdown handler: an extension that neither
    enables the proposed API nor is built in makes the handler [return]. *)
Fixpoint markdownExtensions
    (renderers : list (IExtensionPointUser (list INotebookMarkdownRendererContribution)))
    (infos : list NotebookMarkdownRendererInfo)
  : list NotebookMarkdownRendererInfo :=
  match renderers with
  | [] => infos
  | extension :: rest =>
      if negb (enableProposedApi (ext_description extension)) &&
         negb (isBuiltin (ext_description extension))
      then infos
      else
        markdownExtensions rest
          (fold_left (addMarkdownContribution extension) (value extension) infos)
  end.

(** The handler the constructor sets on
    [notebookMarkdownRendererExtensionPoint]: the new content of
    [_markdownRenderersInfos], which it clears first. *)
Definition onMarkdownRendererExtensionPoint
    (renderers : list (IExtensionPointUser (list INotebookMarkdownRendererContribution)))
  : list NotebookMarkdownRendererInfo :=
  markdownExtensions renderers [].

Section Delegation.
Context `{NotebookCommon}.
Local Open Scope service_scope.

Definition _withProvider (viewType : string) : M INotebookProviderData :=
  s <- read ;;
  match JsMap.get (_notebookProviders s) viewType with
  | Some result => ret result
  | None => throw (NoProvider viewType)
  end.

Definition getNotebookProviderResourceRoots (s : t) : list URI :=
  map (fun val => ext_location (extensionData val))
      (JsMap.values (_notebookProviders s)).

(** The activation service: what awaiting [activateByEvent] and
    [whenInstalledExtensionsRegistered] does to the service, whose
    controllers the activated extensions register meanwhile. *)
Variable activateByEvent : string -> t -> t.
Variable whenInstalledExtensionsRegistered : t -> t.

Definition canResolve (viewType : string) (s : t) : bool * t :=
  let s := activateByEvent "onNotebook:*" s in
  if negb (JsMap.has (_notebookProviders s) viewType)
  then
    let s := whenInstalledExtensionsRegistered s in
    let s := activateByEvent ("onNotebook:" ++ viewType) s in
    if JsMap.has (_notebookProviders s) viewType
    then (true, s)
    else
      let s := activateByEvent "*" s in
      (JsMap.has (_notebookProviders s) viewType, s)
  else (JsMap.has (_notebookProviders s) viewType, s).
End Delegation.

End NotebookService.

(* ================================================================== *)
(** ** Notions the statements use *)

Section Notions.
Context `{NotebookCommon}.
Import NotebookService.

(** The entries [setupHandler] builds, one per declaration, in the order
    it processes them. *)
Definition declarations
    (extensions : list (IExtensionPointUser (list INotebookEditorContribution)))
  : list NotebookProviderInfo :=
  flat_map (fun extension => map (NotebookProviderInfoStore.contributedInfo extension) (value extension))
           extensions.

(** What one mime type contributes, from the renderer store and the
    document's trust alone. *)
Definition resolved (store : NotebookOutputRendererInfoStore.t)
    (documentTrusted : bool) (m : string) : list IOrderedMimeType :=
  let entry id trust := {| mimeType := m; rendererId := id; isTrusted := trust |} in
  let builtin := entry BUILTIN_RENDERER_ID (mimeTypeIsAlwaysSecure m || documentTrusted) in
  match NotebookOutputRendererInfoStore.getContributedRenderer store m with
  | [] =>
      if mimeTypeSupportedByCore m then [builtin]
      else [entry RENDERER_NOT_AVAILABLE documentTrusted]
  | handlers =>
      map (fun h => entry (renderer_id h) documentTrusted) handlers ++
      (if mimeTypeSupportedByCore m then [builtin] else [])
  end.

(** The three kinds of entry and the trust flag each carries. *)
Definition entryOfRenderer (s : t) (textModel : NotebookTextModel)
    (e : IOrderedMimeType) : Prop :=
  exists handler,
    In handler (NotebookOutputRendererInfoStore.getContributedRenderer
                  (_notebookRenderersInfoStore s) (mimeType e)) /\
    rendererId e = renderer_id handler /\
    isTrusted e = trusted (nb_metadata textModel).

Definition entryOfBuiltin (textModel : NotebookTextModel)
    (e : IOrderedMimeType) : Prop :=
  rendererId e = BUILTIN_RENDERER_ID /\
  mimeTypeSupportedByCore (mimeType e) = true /\
  isTrusted e = mimeTypeIsAlwaysSecure (mimeType e) || trusted (nb_metadata textModel).

Definition entryOfNoRenderer (s : t) (textModel : NotebookTextModel)
    (e : IOrderedMimeType) : Prop :=
  rendererId e = RENDERER_NOT_AVAILABLE /\
  NotebookOutputRendererInfoStore.getContributedRenderer
    (_notebookRenderersInfoStore s) (mimeType e) = [] /\
  mimeTypeSupportedByCore (mimeType e) = false /\
  isTrusted e = trusted (nb_metadata textModel).

(** A model is registered when the index files it under its own URI and
    the listener of its [ModelData] is attached: what
    [createNotebookTextModel] establishes. *)
Definition registered (s : t) (model : NotebookTextModel) : Prop :=
  JsMap.get (_models s) (toKey (nb_uri model)) = Some {| md_model := model |} /\
  listening s model = true.

(** The URIs of the removal events of a trace, oldest first. *)
Definition removals (tr : list Effect) : list URI :=
  flat_map (fun e => match e with
                     | DidRemoveNotebookDocument uri => [uri]
                     | _ => []
                     end) tr.

(** How the enumeration of the provider at [index] settles under a
    schedule: by its first entry there, if any. *)
Definition settlementOf (schedule : list (nat * Settlement (list INotebookKernel))) (index : nat)
  : option (Settlement (list INotebookKernel)) :=
  match find (fun ev => Nat.eqb (fst ev) index) schedule with
  | Some ev => Some (snd ev)
  | None => None
  end.

Definition runSchedule (schedule : list (nat * Settlement (list INotebookKernel))) (j : KernelJoin)
  : KernelJoin :=
  fold_left (fun j ev => settle (fst ev) (snd ev) j) schedule j.

(** What holds of a join after the settlements of [schedule], for [n]
    matching providers. *)
Record JoinInvariant (n : nat) (schedule : list (nat * Settlement (list INotebookKernel)))
    (j : KernelJoin) : Prop := {
  inv_length : length (promises j) = n;
  inv_promises :
    forall i, i < n -> nth_error (promises j) i = Some (settlementOf schedule i);
  inv_pending :
    joined j = None ->
    (forall reason, ~ In (Some (Rejected reason)) (promises j)) /\
    forallb isFulfilled (promises j) = false;
  inv_fulfilled :
    forall ks, joined j = Some (Fulfilled ks) ->
    forallb isFulfilled (promises j) = true /\
    ks = flatten (map resultSlot (promises j));
  inv_rejected :
    forall reason, joined j = Some (Rejected reason) ->
    In (Some (Rejected reason)) (promises j)
}.
End Notions.

Section StoreNotions.
Context `{NotebookCommon}.

(** A provider-info store is well formed when no id is filed twice and
    every entry is filed under its own id. *)
Definition storeWellFormed (s : NotebookProviderInfoStore.t) : Prop :=
  NoDup (JsMap.keys (NotebookProviderInfoStore._contributedEditors s)) /\
  forall k info,
    In (k, info) (NotebookProviderInfoStore._contributedEditors s) -> k = id info.

(** A renderer contribution the handler does not skip. *)
Definition rendererAccepted (c : NotebookService.INotebookRendererContribution)
  : bool :=
  truthy (NotebookService.rc_entrypoint c) &&
  truthy (NotebookService.rendererContributionId c).

(** The renderer the handler builds from a contribution it accepts. *)
Definition contributedRenderer
    (extension : IExtensionPointUser (list NotebookService.INotebookRendererContribution))
    (c : NotebookService.INotebookRendererContribution)
  : NotebookOutputRendererInfo :=
  {| renderer_id := or_else (NotebookService.rendererContributionId c) EmptyString;
     renderer_extension := identifier (ext_description extension);
     entrypoint := or_else (NotebookService.rc_entrypoint c) EmptyString;
     renderer_displayName := NotebookService.rc_displayName c;
     mimeTypes := match NotebookService.rc_mimeTypes c with
                  | Some l => l
                  | None => []
                  end |}.

(** The renderers of the accepted contributions of a batch, in the order
    the handler meets them. *)
Definition acceptedRenderers
    (renderers : list (IExtensionPointUser
                         (list NotebookService.INotebookRendererContribution)))
  : list NotebookOutputRendererInfo :=
  flat_map
    (fun extension =>
       flat_map
         (fun c => if rendererAccepted c then [contributedRenderer extension c] else [])
         (value extension))
    renderers.

(** One step of the deduplication loop of [getMimeTypeInfo]. *)
Definition collectStep
  : list string * list string -> IOutputItemDto -> list string * list string :=
  fun '(mimeTypeSet, mimeTypes) op =>
    if existsb (String.eqb (mime op)) mimeTypeSet
    then (mimeTypeSet, mimeTypes)
    else (mime op :: mimeTypeSet, mimeTypes ++ [mime op]).

(** An extension the markdown handler lets pass. *)
Definition markdownAllowed {A : Type} (extension : IExtensionPointUser A) : bool :=
  enableProposedApi (ext_description extension) ||
  isBuiltin (ext_description extension).
End StoreNotions.

(* ================================================================== *)
(** ** A concrete workbench to run the definitions on *)

(** Selectors are file paths matched literally, document filters are view
    types, and a resource is filed under its scheme and path. *)
Definition sampleCommon : NotebookCommon :=
  {| BUILTIN_RENDERER_ID := "_builtin"%string;
     RENDERER_NOT_AVAILABLE := "_notAvailable"%string;
     mimeTypeSupportedByCore :=
       fun m => existsb (String.eqb m)
                  ["text/plain"; "image/png"; "application/json"; "text/html"]%string;
     mimeTypeIsAlwaysSecure :=
       fun m => existsb (String.eqb m) ["text/plain"; "image/png"]%string;
     ACCESSIBLE_NOTEBOOK_DISPLAY_ORDER := ["text/plain"]%string;
     NotebookSelector := string;
     selectorMatches := fun sel resource => String.eqb sel (path resource);
     INotebookDocumentFilter := string;
     notebookDocumentFilterMatch := fun f viewType _ => String.eqb f viewType;
     INotebookDocumentOptions := bool;
     toKey := fun u => (scheme u ++ ":" ++ path u)%string |}.

#[local] Existing Instance sampleCommon.

Definition fileUri (p : string) : URI :=
  {| scheme := "file"%string; authority := EmptyString; path := p;
     query := EmptyString; fragment := EmptyString |}.

Definition untitledUri (p : string) : URI :=
  {| scheme := "untitled"%string; authority := EmptyString; path := p;
     query := EmptyString; fragment := EmptyString |}.

Definition sampleExtension : IExtensionDescription :=
  {| identifier := "ms.jupyter"%string;
     description := None;
     extDisplayName := Some "Jupyter"%string;
     isBuiltin := false;
     enableProposedApi := false;
     extensionLocation := fileUri "/ext/jupyter" |}.

Definition sampleContribution (vt : string) (p : option string)
  : @INotebookEditorContribution sampleCommon :=
  {| viewType := vt;
     contribDisplayName := "Jupyter Notebook"%string;
     selector := Some ["/a.ipynb"%string];
     contribPriority := p |}.

Definition sampleInfo (i name sel : string) : @NotebookProviderInfo sampleCommon :=
  {| id := i;
     displayName := name;
     selectors := [sel];
     priority := NotebookEditorPriority.default;
     providerExtensionId := Some "ms.jupyter"%string;
     providerDescription := None;
     providerDisplayName := "Jupyter"%string;
     providerExtensionLocation := fileUri "/ext/jupyter";
     dynamicContribution := false;
     exclusive := false;
     options := None |}.

Definition sampleRenderer (i : string) (mimes : list string)
  : NotebookOutputRendererInfo :=
  {| renderer_id := i;
     renderer_extension := "ms.renderers"%string;
     entrypoint := "./out/index.js"%string;
     renderer_displayName := i;
     mimeTypes := mimes |}.

Definition emptyProviderInfoStore : @NotebookProviderInfoStore.t sampleCommon :=
  @NotebookService._notebookProviderInfoStore sampleCommon
    (@NotebookService.initial sampleCommon).

Definition sampleData (isTrusted : bool) : NotebookDataDto :=
  {| dto_cells := [];
     dto_metadata := {| trusted := isTrusted; editable := true |} |}.

Definition sampleModel (isTrusted : bool) : NotebookTextModel :=
  {| nb_handle := 0;
     nb_viewType := "jupyter"%string;
     nb_uri := fileUri "/a.ipynb";
     nb_cells := [];
     nb_metadata := {| trusted := isTrusted; editable := true |};
     nb_transientOptions := {| transientOutputs := false |} |}.

Definition sampleOutput (mimes : list string) : IOutputDto :=
  {| outputId := "o1"%string;
     outputs := map (fun m => {| mime := m; item_value := EmptyString |}) mimes |}.

(** A service whose renderer store holds the given renderers, added in
    order. *)
Definition withRenderers (rs : list NotebookOutputRendererInfo)
  : @NotebookService.t sampleCommon :=
  let s := @NotebookService.initial sampleCommon in
  {| NotebookService._notebookProviders := NotebookService._notebookProviders s;
     NotebookService._notebookProviderInfoStore :=
       NotebookService._notebookProviderInfoStore s;
     NotebookService._notebookRenderersInfoStore :=
       fold_left (fun st r => NotebookOutputRendererInfoStore.add r st) rs
                 NotebookOutputRendererInfoStore.empty;
     NotebookService._notebookKernelProviderInfoStore :=
       NotebookService._notebookKernelProviderInfoStore s;
     NotebookService._models := NotebookService._models s;
     NotebookService._displayOrder := NotebookService._displayOrder s;
     NotebookService.listeners := NotebookService.listeners s;
     NotebookService.nextHandle := NotebookService.nextHandle s;
     NotebookService.trace := NotebookService.trace s |}.

Definition sampleDeclarations
  : list (IExtensionPointUser (list INotebookEditorContribution)) :=
  [ {| ext_description := sampleExtension;
       value := [ sampleContribution "jupyter" None;
                  sampleContribution "interactive" (Some EmptyString);
                  sampleContribution "markdown" (Some "default"%string);
                  sampleContribution "custom" (Some "option"%string) ] |} ].

Definition sampleProviderStore : NotebookProviderInfoStore.t :=
  NotebookProviderInfoStore.add (sampleInfo "plain" "Plain" "/b.txt")
    (NotebookProviderInfoStore.add (sampleInfo "jupyter" "Jupyter" "/a.ipynb")
       emptyProviderInfoStore).

Section SampleServices.
Import NotebookService.

Definition jsonRenderers : list NotebookOutputRendererInfo :=
  [ sampleRenderer "r1" ["application/json"%string];
    sampleRenderer "r2" ["application/json"; "foo/bar"]%string ].

Definition sampleTransient : TransientOptions := {| transientOutputs := false |}.

(** The sample service after a model was created for [/b.ipynb]. *)
Definition jsonServiceWithModel : t :=
  snd (createNotebookTextModel "other" (fileUri "/b.ipynb") (sampleData true)
         sampleTransient (withRenderers jsonRenderers)).

Definition otherOutput (mimes : list string) : IOutputDto :=
  {| outputId := "o2"%string;
     outputs := map (fun m => {| mime := m; item_value := "payload"%string |}) mimes |}.

Definition otherModel : NotebookTextModel :=
  {| nb_handle := 7;
     nb_viewType := "other"%string;
     nb_uri := fileUri "/c.ipynb";
     nb_cells := [ {| source := "1+1"%string; language := "python"%string |} ];
     nb_metadata := {| trusted := false; editable := false |};
     nb_transientOptions := sampleTransient |}.

(** The sample service after a model was created for [/a.ipynb]. *)
Definition serviceWithModel : t :=
  snd (createNotebookTextModel "jupyter" (fileUri "/a.ipynb") (sampleData true)
         sampleTransient initial).

Definition sampleController : IMainNotebookController :=
  {| viewOptions :=
       Some {| vo_displayName := "Jupyter"%string;
               filenamePattern := ["/a.ipynb"%string];
               vo_exclusive := false |};
     controller_options := true |}.

Definition sampleExtensionData : NotebookExtensionDescription :=
  {| ext_id := "ms.jupyter"%string;
     ext_location := fileUri "/ext/jupyter";
     ext_description_text := None |}.

Definition sampleKernelProvider (name : string) : INotebookKernelProvider :=
  {| kp_providerExtensionId := name;
     kp_providerDescription := None;
     kp_selector := "jupyter"%string |}.

Definition serviceWithKernelProviders : t :=
  registerNotebookKernelProvider (sampleKernelProvider "second")
    (registerNotebookKernelProvider (sampleKernelProvider "first") initial).

Definition kernel (name : string) : INotebookKernel :=
  {| friendlyId := name; label := name |}.
End SampleServices.

Section MoreSamples.
Import NotebookService.

(** The model [createNotebookTextModel] makes second, for [/b.ipynb]. *)
Definition secondModel : NotebookTextModel :=
  {| nb_handle := 1;
     nb_viewType := "jupyter"%string;
     nb_uri := fileUri "/b.ipynb";
     nb_cells := [];
     nb_metadata := {| trusted := false; editable := true |};
     nb_transientOptions := sampleTransient |}.

(** The sample service after models were created for [/a.ipynb] and
    [/b.ipynb]. *)
Definition serviceWithTwoModels : t :=
  snd (createNotebookTextModel "jupyter" (fileUri "/b.ipynb") (sampleData false)
         sampleTransient serviceWithModel).

Definition markdownContribution (i : string)
  : INotebookMarkdownRendererContribution :=
  {| mc_id := Some i;
     mc_displayName := i;
     mc_entrypoint := Some "./markdown.js"%string |}.

Definition markdownExtension (name : string) (builtin : bool)
    (contributions : list INotebookMarkdownRendererContribution)
  : IExtensionPointUser (list INotebookMarkdownRendererContribution) :=
  {| ext_description :=
       {| identifier := name;
          description := None;
          extDisplayName := None;
          isBuiltin := builtin;
          enableProposedApi := false;
          extensionLocation := fileUri "/ext" |};
     value := contributions |}.
End MoreSamples.

(* ================================================================== *)
(** * Properties *)

(** ** Maps *)

Section JsMapFacts.
Context {V : Type}.
Implicit Types (m : JsMap.t V) (k : string) (v : V).

Lemma JsMap_has_get m k :
  JsMap.has m k = true <-> exists v, JsMap.get m k = Some v.
Proof.
  unfold JsMap.has. destruct (JsMap.get m k) as [v|].
  - split; [eauto | reflexivity].
  - split; [discriminate | intros [v Hv]; discriminate].
Qed.

Lemma JsMap_has_false m k :
  JsMap.has m k = false <-> JsMap.get m k = None.
Proof.
  unfold JsMap.has. destruct (JsMap.get m k); split; congruence.
Qed.

Lemma JsMap_get_set m k v k' :
  JsMap.get (JsMap.set m k v) k' =
  if String.eqb k k' then Some v else JsMap.get m k'.
Proof.
  induction m as [|[k0 v0] rest IH]; simpl.
  - reflexivity.
  - destruct (String.eqb_spec k0 k) as [->|Hne]; simpl.
    + destruct (String.eqb k k'); reflexivity.
    + rewrite IH. destruct (String.eqb_spec k0 k') as [->|Hne'].
      * destruct (String.eqb_spec k k'); [congruence | reflexivity].
      * reflexivity.
Qed.

Lemma JsMap_get_delete m k k' :
  JsMap.get (JsMap.delete m k) k' =
  if String.eqb k k' then None else JsMap.get m k'.
Proof.
  unfold JsMap.delete.
  induction m as [|[k0 v0] rest IH]; simpl.
  - destruct (String.eqb k k'); reflexivity.
  - destruct (String.eqb_spec k0 k) as [->|Hne]; simpl.
    + rewrite IH. destruct (String.eqb k k'); reflexivity.
    + rewrite IH. destruct (String.eqb_spec k0 k') as [->|Hne'].
      * destruct (String.eqb_spec k k'); [congruence | reflexivity].
      * reflexivity.
Qed.

Lemma JsMap_delete_idem m k :
  JsMap.delete (JsMap.delete m k) k = JsMap.delete m k.
Proof.
  unfold JsMap.delete.
  induction m as [|[k0 v0] rest IH]; simpl; [reflexivity|].
  destruct (String.eqb k0 k) eqn:Hk; simpl; [assumption|].
  now rewrite Hk, IH.
Qed.

Lemma JsMap_values_set_fresh m k v :
  JsMap.get m k = None ->
  JsMap.values (JsMap.set m k v) = JsMap.values m ++ [v].
Proof.
  unfold JsMap.values.
  induction m as [|[k0 v0] rest IH]; simpl; intros Hget.
  - reflexivity.
  - destruct (String.eqb k0 k); [discriminate|].
    simpl. now rewrite IH.
Qed.

Lemma JsMap_get_in_values m k v :
  JsMap.get m k = Some v -> In v (JsMap.values m).
Proof.
  unfold JsMap.values.
  induction m as [|[k0 v0] rest IH]; simpl; [discriminate|].
  destruct (String.eqb k0 k); intros Hget.
  - left. congruence.
  - right. auto.
Qed.
End JsMapFacts.

Lemma fold_left_preserves {A B : Type} (P : A -> Prop) (f : A -> B -> A)
    (l : list B) :
  (forall a b, In b l -> P a -> P (f a b)) ->
  forall a, P a -> P (fold_left f l a).
Proof.
  induction l as [|b l IH]; simpl; intros Hstep a Ha; [assumption|].
  apply IH; [intros; apply Hstep; auto | apply Hstep; auto].
Qed.

(** ** The provider-info store *)

Section ProviderStoreFacts.
Context `{NotebookCommon}.
Import NotebookProviderInfoStore.

Lemma add_present (info : NotebookProviderInfo) (s : t) :
  JsMap.has (_contributedEditors s) (id info) = true -> add info s = s.
Proof. unfold add. now intros ->. Qed.

Lemma add_values (info : NotebookProviderInfo) (s : t) :
  JsMap.values (_contributedEditors (add info s)) =
  if JsMap.has (_contributedEditors s) (id info)
  then JsMap.values (_contributedEditors s)
  else JsMap.values (_contributedEditors s) ++ [info].
Proof.
  unfold add.
  destruct (JsMap.has (_contributedEditors s) (id info)) eqn:Hhas.
  - reflexivity.
  - simpl. apply JsMap_values_set_fresh. now apply JsMap_has_false.
Qed.

Lemma add_get (info : NotebookProviderInfo) (s : t) (k : string) :
  get (add info s) k =
  match get s k with
  | Some v => Some v
  | None => if String.eqb (id info) k then Some info else None
  end.
Proof.
  unfold add, get.
  destruct (JsMap.has (_contributedEditors s) (id info)) eqn:Hhas.
  - destruct (JsMap.get (_contributedEditors s) k) eqn:Hk; [reflexivity|].
    destruct (String.eqb_spec (id info) k) as [<-|]; [|reflexivity].
    apply JsMap_has_get in Hhas. destruct Hhas. congruence.
  - simpl. rewrite JsMap_get_set.
    apply JsMap_has_false in Hhas.
    destruct (String.eqb_spec (id info) k) as [<-|].
    + now rewrite Hhas.
    + now destruct (JsMap.get (_contributedEditors s) k).
Qed.

(** Every entry [setupHandler] leaves in the store was built from one of
    the declarations it was given. *)
Lemma setupHandler_entries
    (extensions : list (IExtensionPointUser (list INotebookEditorContribution)))
    (s : t) (info : NotebookProviderInfo) :
  In info (iterator (setupHandler extensions s)) ->
  exists extension notebookContribution,
    In extension extensions /\
    In notebookContribution (value extension) /\
    info = contributedInfo extension notebookContribution.
Proof.
  unfold setupHandler, iterator. simpl.
  set (P := fun st : t =>
    forall i, In i (JsMap.values (_contributedEditors st)) ->
      exists extension notebookContribution,
        In extension extensions /\
        In notebookContribution (value extension) /\
        i = contributedInfo extension notebookContribution).
  intros Hin. revert info Hin. change (P
    (fold_left
       (fun acc extension =>
          fold_left
            (fun acc' notebookContribution =>
               add (contributedInfo extension notebookContribution) acc')
            (value extension) acc)
       extensions (clear (with_handled s true)))).
  apply fold_left_preserves.
  - intros acc extension Hext Hacc.
    apply fold_left_preserves; [|assumption].
    intros acc' c Hc Hacc' i Hi.
    rewrite add_values in Hi.
    destruct (JsMap.has (_contributedEditors acc') _).
    + now apply Hacc'.
    + apply in_app_or in Hi. destruct Hi as [Hi|[<-|[]]].
      * now apply Hacc'.
      * now exists extension, c.
  - intros i [].
Qed.
End ProviderStoreFacts.

Section ProviderStoreClaims.
Context `{NotebookCommon}.
Import NotebookProviderInfoStore.

Lemma convertPriority_default (p : option string) :
  _convertPriority p = NotebookEditorPriority.default <->
  p = None \/ p = Some EmptyString \/ p = Some "default"%string.
Proof.
  unfold _convertPriority.
  destruct p as [[|c p]|]; cbn [truthy negb NotebookEditorPriority.token].
  - split; [intros _; right; left; reflexivity | reflexivity].
  - destruct (String.eqb_spec (String c p) "default") as [Heq|Hne].
    + rewrite Heq. split; [intros _; right; right; reflexivity | reflexivity].
    + split; [discriminate|].
      intros [Hp|[Hp|Hp]]; try discriminate. congruence.
  - split; [intros _; left; reflexivity | reflexivity].
Qed.

Lemma convertPriority_option (p : option string) :
  _convertPriority p = NotebookEditorPriority.option <->
  exists token, p = Some token /\ token <> EmptyString /\ token <> "default"%string.
Proof.
  split.
  - intros Hp. destruct p as [token|].
    + exists token. split; [reflexivity|].
      split; intros ->; discriminate.
    + discriminate.
  - intros [token [-> [Hne Hnd]]].
    destruct (_convertPriority (Some token)) eqn:Hc; [|reflexivity].
    apply convertPriority_default in Hc.
    destruct Hc as [Hc|[Hc|Hc]]; congruence.
Qed.

Lemma setupHandler_editors
    (extensions : list (IExtensionPointUser (list INotebookEditorContribution)))
    (s : t) :
  _contributedEditors (setupHandler extensions s) =
  _contributedEditors
    (fold_left (fun acc info => add info acc) (declarations extensions)
               (clear (with_handled s true))).
Proof.
  unfold setupHandler, declarations. simpl. f_equal.
  generalize (clear (with_handled s true)) as acc.
  induction extensions as [|extension rest IH]; intros acc; simpl.
  - reflexivity.
  - rewrite fold_left_app, <- IH. f_equal.
    generalize acc. clear.
    induction (value extension) as [|c cs IHc]; intros acc; simpl; auto.
Qed.

Lemma fold_add_keeps (infos : list NotebookProviderInfo) (s : t) (k : string)
    (v : NotebookProviderInfo) :
  get s k = Some v ->
  get (fold_left (fun acc info => add info acc) infos s) k = Some v.
Proof.
  revert s. induction infos as [|info rest IH]; intros s Hget; simpl.
  - assumption.
  - apply IH. rewrite add_get. now rewrite Hget.
Qed.

Lemma fold_add_stores (infos : list NotebookProviderInfo) (s : t)
    (info : NotebookProviderInfo) :
  In info infos ->
  exists stored,
    get (fold_left (fun acc i => add i acc) infos s) (id info) = Some stored.
Proof.
  revert s. induction infos as [|i rest IH]; intros s Hin; simpl.
  - destruct Hin.
  - destruct Hin as [->|Hin]; [|now apply IH].
    destruct (get (add info s) (id info)) as [stored|] eqn:Hget.
    + exists stored. now apply fold_add_keeps.
    + rewrite add_get, String.eqb_refl in Hget.
      destruct (get s (id info)); discriminate.
Qed.

(** C7 (as amended): for every declaration processed by [setupHandler] the
    store holds an entry under its view type, and every entry the store
    holds was built from a declaration whose priority string was converted
    as [_convertPriority] does: to [default] exactly when the string is
    absent, empty or the token [default], and to [option] exactly when it
    is any other (non-empty) string. *)
Theorem setupHandler_converts_priority
    (extensions : list (IExtensionPointUser (list INotebookEditorContribution)))
    (s : t) (extension : IExtensionPointUser (list INotebookEditorContribution))
    (notebookContribution : INotebookEditorContribution) :
  In extension extensions ->
  In notebookContribution (value extension) ->
  (exists stored,
     get (setupHandler extensions s) (viewType notebookContribution) = Some stored) /\
  (forall info,
     In info (iterator (setupHandler extensions s)) ->
     exists e c,
       In e extensions /\ In c (value e) /\
       id info = viewType c /\
       priority info = _convertPriority (contribPriority c) /\
       (priority info = NotebookEditorPriority.default <->
        contribPriority c = None \/
        contribPriority c = Some EmptyString \/
        contribPriority c = Some "default"%string) /\
       (priority info = NotebookEditorPriority.option <->
        exists token,
          contribPriority c = Some token /\
          token <> EmptyString /\ token <> "default"%string)).
Proof.
  intros Hext Hc. split.
  - unfold get. rewrite setupHandler_editors.
    apply (fold_add_stores (declarations extensions) _
             (contributedInfo extension notebookContribution)).
    unfold declarations. apply in_flat_map. exists extension.
    split; [assumption|]. now apply in_map.
  - intros info Hin.
    destruct (setupHandler_entries extensions s info Hin)
      as [e [c [He [Hce ->]]]].
    exists e, c. repeat split; try assumption; simpl.
    + apply convertPriority_default.
    + apply convertPriority_default.
    + apply convertPriority_option.
    + apply convertPriority_option.
Qed.

(** C8: for a resource of scheme [untitled], [getContributedNotebook]
    returns every provider of the store, in the store's order, whatever
    the selectors; for any other resource it returns exactly the providers
    one of whose selectors matches, in the store's order. *)
Theorem getContributedNotebook_untitled_or_matching (s : t) (resource : URI) :
  (scheme resource = "untitled"%string ->
   getContributedNotebook s resource = JsMap.values (_contributedEditors s)) /\
  (scheme resource <> "untitled"%string ->
   getContributedNotebook s resource =
   filter (fun info => matches info resource)
          (JsMap.values (_contributedEditors s)) /\
   forall info,
     In info (getContributedNotebook s resource) <->
     In info (JsMap.values (_contributedEditors s)) /\
     exists sel, In sel (selectors info) /\ selectorMatches sel resource = true).
Proof.
  unfold getContributedNotebook. split.
  - intros ->. simpl.
    induction (JsMap.values (_contributedEditors s)) as [|i l IH]; simpl;
      [reflexivity | now rewrite IH].
  - intros Hne.
    assert (Heq : filter
              (fun customEditor =>
                 String.eqb (scheme resource) "untitled" || matches customEditor resource)
              (JsMap.values (_contributedEditors s)) =
            filter (fun info => matches info resource)
              (JsMap.values (_contributedEditors s))).
    { apply filter_ext. intros a.
      destruct (String.eqb_spec (scheme resource) "untitled"); [contradiction|].
      reflexivity. }
    split; [exact Heq|].
    intros info. rewrite Heq, filter_In. unfold matches.
    now rewrite existsb_exists.
Qed.
End ProviderStoreClaims.

(** C9: in the provider-info store and in the output-renderer store alike,
    [add] with an info whose id is already present leaves the store as it
    was, and [get] of that id still returns the entry registered first. *)
Theorem add_existing_id_is_noop `{NotebookCommon} :
  (forall (s : NotebookProviderInfoStore.t) (info original : NotebookProviderInfo),
     NotebookProviderInfoStore.get s (id info) = Some original ->
     NotebookProviderInfoStore.add info s = s /\
     NotebookProviderInfoStore.get (NotebookProviderInfoStore.add info s) (id info)
       = Some original) /\
  (forall (s : NotebookOutputRendererInfoStore.t)
          (info original : NotebookOutputRendererInfo),
     NotebookOutputRendererInfoStore.get s (renderer_id info) = Some original ->
     NotebookOutputRendererInfoStore.add info s = s /\
     NotebookOutputRendererInfoStore.get
       (NotebookOutputRendererInfoStore.add info s) (renderer_id info)
       = Some original).
Proof.
  split.
  - intros s info original Hget.
    assert (Hadd : NotebookProviderInfoStore.add info s = s).
    { apply add_present. apply JsMap_has_get. now exists original. }
    now rewrite Hadd.
  - intros s info original Hget.
    assert (Hadd : NotebookOutputRendererInfoStore.add info s = s).
    { unfold NotebookOutputRendererInfoStore.add.
      replace (JsMap.has (NotebookOutputRendererInfoStore.contributedRenderers s)
                         (renderer_id info)) with true; [reflexivity|].
      symmetry. apply JsMap_has_get. now exists original. }
    now rewrite Hadd.
Qed.

(** *** The stores on the sample workbench *)

(** C7 as stated fails: a declaration with no priority, and one whose
    priority is the empty string, both carry a value other than the token
    [default], and [setupHandler] stores both with the [default] priority,
    not the [option] one. *)
Lemma setupHandler_absent_priority_is_default :
  let store :=
    NotebookProviderInfoStore.setupHandler sampleDeclarations
      emptyProviderInfoStore in
  (None <> Some "default"%string /\
   option_map priority (NotebookProviderInfoStore.get store "jupyter")
     = Some NotebookEditorPriority.default) /\
  (Some EmptyString <> Some "default"%string /\
   option_map priority (NotebookProviderInfoStore.get store "interactive")
     = Some NotebookEditorPriority.default) /\
  ~ (forall p : option string,
       p <> Some "default"%string ->
       NotebookProviderInfoStore._convertPriority p = NotebookEditorPriority.option).
Proof.
  cbv zeta. split; [|split].
  - split; [discriminate | reflexivity].
  - split; [discriminate | reflexivity].
  - intros Hall. specialize (Hall None). discriminate Hall. discriminate.
Qed.

(** The declaration of priority [option] among the sample declarations. *)
Lemma setupHandler_converts_priority_witness :
  (exists stored,
     NotebookProviderInfoStore.get
       (NotebookProviderInfoStore.setupHandler sampleDeclarations
          emptyProviderInfoStore) "custom" = Some stored) /\
  option_map priority
    (NotebookProviderInfoStore.get
       (NotebookProviderInfoStore.setupHandler sampleDeclarations
          emptyProviderInfoStore) "custom")
    = Some NotebookEditorPriority.option.
Proof.
  split.
  - apply (setupHandler_converts_priority sampleDeclarations
             emptyProviderInfoStore
             {| ext_description := sampleExtension;
                value := [ sampleContribution "jupyter" None;
                           sampleContribution "interactive" (Some EmptyString);
                           sampleContribution "markdown" (Some "default"%string);
                           sampleContribution "custom" (Some "option"%string) ] |}
             (sampleContribution "custom" (Some "option"%string))).
    + simpl. left. reflexivity.
    + simpl. right. right. right. left. reflexivity.
  - reflexivity.
Defined.

(** An untitled resource gets both sample providers, [/a.ipynb] only the
    one whose selector matches it. *)
Lemma getContributedNotebook_witness :
  NotebookProviderInfoStore.getContributedNotebook sampleProviderStore
    (untitledUri "Untitled-1")
    = [sampleInfo "jupyter" "Jupyter" "/a.ipynb"; sampleInfo "plain" "Plain" "/b.txt"] /\
  NotebookProviderInfoStore.getContributedNotebook sampleProviderStore
    (fileUri "/a.ipynb")
    = [sampleInfo "jupyter" "Jupyter" "/a.ipynb"].
Proof.
  split.
  - rewrite (proj1 (getContributedNotebook_untitled_or_matching
                      sampleProviderStore (untitledUri "Untitled-1")));
      reflexivity.
  - rewrite (proj1 (proj2 (getContributedNotebook_untitled_or_matching
                             sampleProviderStore (fileUri "/a.ipynb"))
                          ltac:(discriminate)));
      reflexivity.
Defined.

(** A second registration under [jupyter], and under [r1], changes
    nothing. *)
Lemma add_existing_id_witness :
  NotebookProviderInfoStore.add (sampleInfo "jupyter" "Other" "/c.nb")
    sampleProviderStore = sampleProviderStore /\
  NotebookOutputRendererInfoStore.get
    (NotebookOutputRendererInfoStore.add
       (sampleRenderer "r1" ["text/html"%string])
       (NotebookOutputRendererInfoStore.add
          (sampleRenderer "r1" ["image/png"%string])
          NotebookOutputRendererInfoStore.empty))
    "r1" = Some (sampleRenderer "r1" ["image/png"%string]).
Proof.
  split.
  - apply (proj1 add_existing_id_is_noop sampleProviderStore
             (sampleInfo "jupyter" "Other" "/c.nb")
             (sampleInfo "jupyter" "Jupyter" "/a.ipynb")).
    reflexivity.
  - apply (proj2 add_existing_id_is_noop
             (NotebookOutputRendererInfoStore.add
                (sampleRenderer "r1" ["image/png"%string])
                NotebookOutputRendererInfoStore.empty)
             (sampleRenderer "r1" ["text/html"%string])
             (sampleRenderer "r1" ["image/png"%string])).
    reflexivity.
Defined.

(** ** Mime-type resolution *)

Lemma insertByOrder_perm (order : string -> nat) (x : string) (l : list string) :
  Permutation (insertByOrder order x l) (x :: l).
Proof.
  induction l as [|y rest IH]; simpl.
  - apply Permutation_refl.
  - destruct (order x <=? order y).
    + apply Permutation_refl.
    + eapply perm_trans; [apply perm_skip, IH | apply perm_swap].
Qed.

Lemma sortMimeTypes_perm (mimeTypes userDisplayOrder defaultOrder : list string) :
  Permutation (sortMimeTypes mimeTypes userDisplayOrder defaultOrder) mimeTypes.
Proof.
  unfold sortMimeTypes.
  induction mimeTypes as [|m rest IH]; simpl.
  - apply perm_nil.
  - eapply perm_trans; [apply insertByOrder_perm | now apply perm_skip].
Qed.

Lemma fold_left_push {A B : Type} (f : A -> B) (l : list A) (acc : list B) :
  fold_left (fun acc a => acc ++ [f a]) l acc = acc ++ map f l.
Proof.
  revert acc. induction l as [|a l IH]; intros acc; simpl.
  - now rewrite app_nil_r.
  - now rewrite IH, <- app_assoc.
Qed.

Lemma fold_left_append {A B : Type} (f : list B -> A -> list B)
    (block : A -> list B) (l : list A) :
  (forall acc a, f acc a = acc ++ block a) ->
  forall acc, fold_left f l acc = acc ++ flat_map block l.
Proof.
  intros Hf. induction l as [|a l IH]; intros acc; simpl.
  - now rewrite app_nil_r.
  - now rewrite IH, Hf, <- app_assoc.
Qed.

(** Among the blocks of a duplicate-free list of keys, the entries filed
    under one key are that key's block. *)
Lemma filter_flat_map_block {B : Type} (key : B -> string)
    (block : string -> list B) (l : list string) (m : string) :
  (forall x e, In e (block x) -> key e = x) ->
  NoDup l -> In m l ->
  filter (fun e => String.eqb (key e) m) (flat_map block l) = block m.
Proof.
  intros Hkey.
  assert (Hall : forall x, filter (fun e => String.eqb (key e) x) (block x) = block x).
  { intros x. apply forallb_filter_id. apply forallb_forall.
    intros e He. rewrite (Hkey x e He). apply String.eqb_refl. }
  assert (Hnone : forall x, x <> m ->
            filter (fun e => String.eqb (key e) m) (block x) = []).
  { intros x Hx. specialize (Hkey x). revert Hkey.
    generalize (block x) as es.
    induction es as [|e es IHes]; intros Hes; simpl; [reflexivity|].
    rewrite (Hes e (or_introl eq_refl)).
    destruct (String.eqb_spec x m); [contradiction|].
    apply IHes. intros e' He'. apply Hes. now right. }
  induction l as [|x l IH]; intros Hnd Hin; [destruct Hin|].
  simpl. rewrite filter_app.
  inversion Hnd as [|x' l' Hnotin Hnd']; subst.
  destruct Hin as [->|Hin].
  - rewrite Hall.
    assert (Hrest : filter (fun e => String.eqb (key e) m) (flat_map block l) = []).
    { clear IH Hnd Hnd'. induction l as [|y l IHl]; simpl; [reflexivity|].
      rewrite filter_app, Hnone, IHl; [reflexivity| |].
      - intros Hm. apply Hnotin. now right.
      - intros ->. apply Hnotin. now left. }
    now rewrite Hrest, app_nil_r.
  - rewrite Hnone, IH; auto.
    intros ->. contradiction.
Qed.

Section ResolutionFacts.
Context `{NotebookCommon}.
Import NotebookService.

Lemma pushMimeType_resolved (s : t) (textModel : NotebookTextModel)
    (acc : list IOrderedMimeType) (m : string) :
  pushMimeType s textModel acc m =
  acc ++ resolved (_notebookRenderersInfoStore s) (trusted (nb_metadata textModel)) m.
Proof.
  unfold pushMimeType, resolved, _findBestMatchedRenderer.
  destruct (NotebookOutputRendererInfoStore.getContributedRenderer
              (_notebookRenderersInfoStore s) m) as [|handler others].
  - destruct (mimeTypeSupportedByCore m); reflexivity.
  - rewrite fold_left_push. unfold rendererEntry, builtinEntry. simpl.
    destruct (mimeTypeSupportedByCore m).
    + now rewrite <- !app_assoc.
    + now rewrite <- !app_assoc, app_nil_r.
Qed.

Lemma getMimeTypeInfo_resolved (s : t) (textModel : NotebookTextModel)
    (output : IOutputDto) :
  getMimeTypeInfo s textModel output =
  flat_map (resolved (_notebookRenderersInfoStore s) (trusted (nb_metadata textModel)))
    (sortMimeTypes (collectMimeTypes (outputs output))
       (orElseEmpty (userOrder (_displayOrder s)))
       (orElseEmpty (defaultOrder (_displayOrder s)))).
Proof.
  unfold getMimeTypeInfo.
  rewrite (fold_left_append _ _ _ (pushMimeType_resolved s textModel)).
  reflexivity.
Qed.

Lemma resolved_mimeType (store : NotebookOutputRendererInfoStore.t)
    (documentTrusted : bool) (m : string) (e : IOrderedMimeType) :
  In e (resolved store documentTrusted m) -> mimeType e = m.
Proof.
  unfold resolved.
  destruct (NotebookOutputRendererInfoStore.getContributedRenderer store m)
    as [|handler others].
  - destruct (mimeTypeSupportedByCore m); intros [<-|[]]; reflexivity.
  - intros Hin. apply in_app_or in Hin. destruct Hin as [Hin|Hin].
    + apply in_map_iff in Hin. destruct Hin as [h [<- _]]. reflexivity.
    + destruct (mimeTypeSupportedByCore m); [|destruct Hin].
      destruct Hin as [<-|[]]. reflexivity.
Qed.

Lemma resolved_nonempty (store : NotebookOutputRendererInfoStore.t)
    (documentTrusted : bool) (m : string) :
  resolved store documentTrusted m <> [].
Proof.
  unfold resolved.
  destruct (NotebookOutputRendererInfoStore.getContributedRenderer store m).
  - destruct (mimeTypeSupportedByCore m); discriminate.
  - discriminate.
Qed.

(** The deduplication loop keeps the first occurrence of each mime type
    and nothing else. *)
Lemma collectMimeTypes_spec (items : list IOutputItemDto) :
  NoDup (collectMimeTypes items) /\
  forall m, In m (collectMimeTypes items) <-> In m (map mime items).
Proof.
  unfold collectMimeTypes.
  set (step := fun '(mimeTypeSet, mimeTypes) (op : IOutputItemDto) =>
          if existsb (String.eqb (mime op)) mimeTypeSet
          then (mimeTypeSet, mimeTypes)
          else (mime op :: mimeTypeSet, mimeTypes ++ [mime op])).
  assert (Hgen : forall (seen acc : list string),
            (forall x, In x seen <-> In x acc) -> NoDup acc ->
            NoDup (snd (fold_left step items (seen, acc))) /\
            forall m, In m (snd (fold_left step items (seen, acc))) <->
                      In m acc \/ In m (map mime items)).
  { induction items as [|op rest IH]; intros seen acc Hsame Hnd; simpl.
    - split; [assumption | intros m; tauto].
    - destruct (existsb (String.eqb (mime op)) seen) eqn:Hseen.
      + destruct (IH seen acc Hsame Hnd) as [Hn Hi]. split; [assumption|].
        intros m. rewrite Hi.
        apply existsb_exists in Hseen. destruct Hseen as [x [Hx Heq]].
        apply String.eqb_eq in Heq. subst x. apply Hsame in Hx.
        split; [tauto|]. intros [Hm|[<-|Hm]]; auto.
      + assert (Hfresh : ~ In (mime op) acc).
        { intros Hin. apply Hsame in Hin.
          assert (Htrue : existsb (String.eqb (mime op)) seen = true).
          { apply existsb_exists. exists (mime op).
            split; [assumption | apply String.eqb_refl]. }
          congruence. }
        destruct (IH (mime op :: seen) (acc ++ [mime op])) as [Hn Hi].
        * intros x. simpl. rewrite in_app_iff, Hsame. simpl. tauto.
        * apply NoDup_app; [assumption | constructor; [intros [] | constructor] |].
          intros x Hx [<-|[]]. contradiction.
        * split; [assumption|].
          intros m. rewrite Hi, in_app_iff. simpl. tauto. }
  destruct (Hgen [] []) as [Hn Hi].
  - intros x. tauto.
  - constructor.
  - split; [assumption|]. intros m. rewrite Hi. simpl. tauto.
Qed.

Lemma collectMimeTypes_ext (items1 items2 : list IOutputItemDto) :
  map mime items1 = map mime items2 ->
  collectMimeTypes items1 = collectMimeTypes items2.
Proof.
  unfold collectMimeTypes. generalize (@nil string, @nil string) as acc.
  revert items2.
  induction items1 as [|op1 rest1 IH]; intros [|op2 rest2] acc Hmap;
    try discriminate; simpl.
  - reflexivity.
  - simpl in Hmap. injection Hmap as Hop Hrest.
    destruct acc as [seen l]. rewrite Hop. now apply IH.
Qed.
(** The entries filed under a mime type of the payload are what that mime
    type contributes. *)
Lemma getMimeTypeInfo_entries (s : t) (textModel : NotebookTextModel)
    (output : IOutputDto) (m : string) :
  In m (map mime (outputs output)) ->
  filter (fun e => String.eqb (mimeType e) m) (getMimeTypeInfo s textModel output) =
  resolved (_notebookRenderersInfoStore s) (trusted (nb_metadata textModel)) m.
Proof.
  intros Hin.
  destruct (collectMimeTypes_spec (outputs output)) as [Hnd Hmem].
  set (sorted := sortMimeTypes (collectMimeTypes (outputs output))
                   (orElseEmpty (userOrder (_displayOrder s)))
                   (orElseEmpty (defaultOrder (_displayOrder s)))).
  assert (Hperm : Permutation sorted (collectMimeTypes (outputs output)))
    by apply sortMimeTypes_perm.
  rewrite getMimeTypeInfo_resolved.
  apply filter_flat_map_block.
  - intros x e. apply resolved_mimeType.
  - apply (Permutation_NoDup (Permutation_sym Hperm) Hnd).
  - apply (Permutation_in m (Permutation_sym Hperm)). now apply Hmem.
Qed.
End ResolutionFacts.

Section ResolutionClaims.
Context `{NotebookCommon}.
Import NotebookService.

(** C1: every mime type of the payload appears in the result of
    [getMimeTypeInfo], and the entries filed under it are: one per matching
    renderer, in registration order, followed by one built-in entry when
    the mime type is supported natively; or, when no renderer matches, the
    single built-in entry when it is supported natively and the single
    no-renderer entry otherwise. *)
Theorem getMimeTypeInfo_drops_no_mime_type (s : t) (textModel : NotebookTextModel)
    (output : IOutputDto) (m : string) :
  In m (map mime (outputs output)) ->
  In m (map mimeType (getMimeTypeInfo s textModel output)) /\
  filter (fun e => String.eqb (mimeType e) m) (getMimeTypeInfo s textModel output) =
  match NotebookOutputRendererInfoStore.getContributedRenderer
          (_notebookRenderersInfoStore s) m with
  | [] =>
      if mimeTypeSupportedByCore m then [builtinEntry textModel m]
      else [notAvailableEntry textModel m]
  | handlers =>
      map (rendererEntry textModel m) handlers ++
      (if mimeTypeSupportedByCore m then [builtinEntry textModel m] else [])
  end.
Proof.
  intros Hin.
  pose proof (getMimeTypeInfo_entries s textModel output m Hin) as Hblock.
  split.
  - pose proof (resolved_nonempty (_notebookRenderersInfoStore s)
                  (trusted (nb_metadata textModel)) m) as Hne.
    rewrite <- Hblock in Hne.
    destruct (filter (fun e => String.eqb (mimeType e) m)
                (getMimeTypeInfo s textModel output)) as [|e es] eqn:Hf;
      [congruence|].
    assert (He : In e (e :: es)) by now left.
    rewrite <- Hf in He. apply filter_In in He. destruct He as [He Heq].
    apply String.eqb_eq in Heq. rewrite <- Heq. now apply in_map.
  - rewrite Hblock. reflexivity.
Qed.

(** C2: the result of [getMimeTypeInfo] is a function of the sequence of
    the payload's mime types, the two preference lists in effect, the
    renderer registrations and the document's trust flag: calls that agree
    on these return the same ordered sequence of entries, whatever else
    differs in the service, the document or the payload. *)
Theorem getMimeTypeInfo_deterministic (s1 s2 : t)
    (textModel1 textModel2 : NotebookTextModel) (output1 output2 : IOutputDto) :
  map mime (outputs output1) = map mime (outputs output2) ->
  orElseEmpty (userOrder (_displayOrder s1)) =
    orElseEmpty (userOrder (_displayOrder s2)) ->
  orElseEmpty (defaultOrder (_displayOrder s1)) =
    orElseEmpty (defaultOrder (_displayOrder s2)) ->
  _notebookRenderersInfoStore s1 = _notebookRenderersInfoStore s2 ->
  trusted (nb_metadata textModel1) = trusted (nb_metadata textModel2) ->
  getMimeTypeInfo s1 textModel1 output1 = getMimeTypeInfo s2 textModel2 output2.
Proof.
  intros Hmimes Huser Hdefault Hstore Htrusted.
  rewrite !getMimeTypeInfo_resolved.
  rewrite (collectMimeTypes_ext _ _ Hmimes), Huser, Hdefault, Hstore, Htrusted.
  reflexivity.
Qed.

(** C3: every entry of the result is a renderer entry or the no-renderer
    entry, trusted as the document is, or a built-in entry, trusted when
    the mime type is always secure or the document is trusted; so for an
    untrusted document every entry of a mime type outside the always-secure
    set is untrusted, and with two matching renderers and native support
    the entries of such a mime type are the two renderer entries and the
    built-in entry, all three untrusted. *)
Theorem getMimeTypeInfo_trust (s : t) (textModel : NotebookTextModel)
    (output : IOutputDto) :
  (forall e, In e (getMimeTypeInfo s textModel output) ->
     entryOfRenderer s textModel e \/ entryOfBuiltin textModel e \/
     entryOfNoRenderer s textModel e) /\
  (forall m,
     trusted (nb_metadata textModel) = false ->
     mimeTypeIsAlwaysSecure m = false ->
     (forall e, In e (getMimeTypeInfo s textModel output) ->
        mimeType e = m -> isTrusted e = false) /\
     (forall r1 r2,
        In m (map mime (outputs output)) ->
        mimeTypeSupportedByCore m = true ->
        NotebookOutputRendererInfoStore.getContributedRenderer
          (_notebookRenderersInfoStore s) m = [r1; r2] ->
        filter (fun e => String.eqb (mimeType e) m)
               (getMimeTypeInfo s textModel output) =
        [ {| mimeType := m; rendererId := renderer_id r1; isTrusted := false |};
          {| mimeType := m; rendererId := renderer_id r2; isTrusted := false |};
          {| mimeType := m; rendererId := BUILTIN_RENDERER_ID; isTrusted := false |} ])).
Proof.
  assert (Hkinds : forall e, In e (getMimeTypeInfo s textModel output) ->
     entryOfRenderer s textModel e \/ entryOfBuiltin textModel e \/
     entryOfNoRenderer s textModel e).
  { intros e He. rewrite getMimeTypeInfo_resolved in He.
    apply in_flat_map in He. destruct He as [m [_ He]].
    pose proof (resolved_mimeType _ _ _ _ He) as Hm.
    unfold resolved in He.
    destruct (NotebookOutputRendererInfoStore.getContributedRenderer
                (_notebookRenderersInfoStore s) m) as [|h hs] eqn:Hhandlers.
    - destruct (mimeTypeSupportedByCore m) eqn:Hcore;
        destruct He as [<-|[]]; simpl in *.
      + right. left. unfold entryOfBuiltin. simpl. auto.
      + right. right. unfold entryOfNoRenderer. simpl. auto.
    - apply in_app_or in He. destruct He as [He|He].
      + apply in_map_iff in He. destruct He as [handler [<- Hin]].
        left. exists handler. simpl. rewrite Hhandlers. auto.
      + destruct (mimeTypeSupportedByCore m) eqn:Hcore; [|destruct He].
        destruct He as [<-|[]].
        right. left. unfold entryOfBuiltin. simpl. auto. }
  split; [exact Hkinds|].
  intros m Huntrusted Hsecure. split.
  - intros e He Hm.
    destruct (Hkinds e He) as [[h [_ [_ Ht]]]|[[_ [_ Ht]]|[_ [_ [_ Ht]]]]];
      rewrite Ht; try assumption.
    now rewrite Hm, Hsecure, Huntrusted.
  - intros r1 r2 Hin Hcore Hhandlers.
    rewrite (getMimeTypeInfo_entries s textModel output m Hin).
    unfold resolved. rewrite Hhandlers, Hcore. simpl.
    now rewrite Huntrusted, Hsecure.
Qed.
End ResolutionClaims.

(** ** The model index *)

Section ModelIndexFacts.
Context `{NotebookCommon}.
Import NotebookService.

Lemma removals_app (tr1 tr2 : list Effect) :
  removals (tr1 ++ tr2) = removals tr1 ++ removals tr2.
Proof. apply flat_map_app. Qed.

Lemma listening_detached (l : list nat) (h : nat) :
  existsb (Nat.eqb h) (filter (fun h' => negb (Nat.eqb h h')) l) = false.
Proof.
  induction l as [|x l IH]; simpl; [reflexivity|].
  destruct (Nat.eqb h x) eqn:Hx; simpl; [assumption|].
  now rewrite Hx.
Qed.

(** The removal path on a URI the index does not hold: nothing happens
    beyond the (idle) [delete]. *)
Lemma onWillDispose_absent (fuel : nat) (model : NotebookTextModel) (s : t) :
  JsMap.get (_models s) (toKey (nb_uri model)) = None ->
  _onWillDisposeDocument (S fuel) model s =
  (Returned tt,
   with_models s (JsMap.delete (_models s) (toKey (nb_uri model)))).
Proof.
  intros Hget. simpl.
  unfold bind, read, deleteModel, modify, bind, read, ret. simpl.
  unfold JsMap.has. rewrite Hget. reflexivity.
Qed.

(** The removal path on a registered model. *)
Lemma onWillDispose_registered (fuel : nat) (notebook model : NotebookTextModel)
    (s : t) :
  registered s model ->
  nb_uri notebook = nb_uri model ->
  exists s',
    _onWillDisposeDocument (S (S fuel)) notebook s = (Returned tt, s') /\
    trace s' =
      trace s ++ [IndexDeleted (toKey (nb_uri model)); ModelDisposed model;
                  ListenersDisposed model;
                  DidRemoveNotebookDocument (nb_uri model)] /\
    _models s' = JsMap.delete (_models s) (toKey (nb_uri model)) /\
    listening s' model = false.
Proof.
  intros [Hget Hlisten] Huri.
  remember (S fuel) as fuel1 eqn:Hfuel.
  cbn [_onWillDisposeDocument].
  unfold bind at 1. unfold read at 1.
  rewrite Huri, Hget.
  unfold bind at 1. unfold deleteModel, bind, read, modify, fire, modify.
  cbn [fst snd]. unfold JsMap.has. rewrite Hget.
  cbn [md_model NotebookTextModel_dispose].
  unfold NotebookTextModel_dispose, bind, read, fire, modify.
  unfold listening in *. cbn [listeners with_trace with_models ret].
  rewrite Hlisten. subst fuel1.
  rewrite onWillDispose_absent.
  2:{ cbn [_models with_trace with_models]. rewrite JsMap_get_delete.
      now rewrite String.eqb_refl. }
  unfold ModelData_dispose, bind, modify, fire, modify.
  eexists. split; [reflexivity|].
  cbn [trace _models listeners with_trace with_models with_listeners md_model].
  repeat split.
  - now rewrite <- !app_assoc.
  - apply JsMap_delete_idem.
  - apply listening_detached.
Qed.
End ModelIndexFacts.

Section ModelIndexClaims.
Context `{NotebookCommon}.
Import NotebookService.

(** C4: for a registered model, both the explicit
    [destoryNotebookDocument] and the model's own [dispose] return (two
    levels of the re-entrant removal path suffice) and do, in this order:
    remove the URI's key from the index, dispose the model, dispose its
    listener bundle, fire the removal event.  The model's disposal calls
    the removal path again, which finds no entry and does nothing, so the
    trace gains exactly one removal event; afterwards
    [getNotebookTextModel] finds nothing under the URI and the listener is
    detached.  When the owner started the disposal, the model's own
    disposal completes last. *)
Theorem disposal_removes_then_disposes_then_fires (s : t)
    (model notebook : NotebookTextModel) (viewType : string) (fuel : nat) :
  registered s model ->
  nb_uri notebook = nb_uri model ->
  2 <= fuel ->
  let removal :=
    [IndexDeleted (toKey (nb_uri model)); ModelDisposed model;
     ListenersDisposed model; DidRemoveNotebookDocument (nb_uri model)] in
  exists s1 s2,
    destoryNotebookDocument fuel viewType notebook s = (Returned tt, s1) /\
    disposeModel fuel model s = (Returned tt, s2) /\
    trace s1 = trace s ++ removal /\
    trace s2 = trace s ++ removal ++ [ModelDisposed model] /\
    removals (trace s1) = removals (trace s) ++ [nb_uri model] /\
    removals (trace s2) = removals (trace s) ++ [nb_uri model] /\
    getNotebookTextModel s1 (nb_uri model) = None /\
    getNotebookTextModel s2 (nb_uri model) = None /\
    listening s1 model = false /\
    listening s2 model = false.
Proof.
  intros Hreg Huri Hfuel removal.
  destruct fuel as [|[|fuel]]; try lia.
  destruct (onWillDispose_registered fuel notebook model s Hreg Huri)
    as [s1 [Hrun1 [Htrace1 [Hmodels1 Hlisten1]]]].
  destruct (onWillDispose_registered fuel model model s Hreg eq_refl)
    as [s2 [Hrun2 [Htrace2 [Hmodels2 Hlisten2]]]].
  exists s1, (with_trace s2 (trace s2 ++ [ModelDisposed model])).
  assert (Hgone : forall st, _models st = JsMap.delete (_models s) (toKey (nb_uri model)) ->
            getNotebookTextModel st (nb_uri model) = None).
  { intros st Hst. unfold getNotebookTextModel.
    now rewrite Hst, JsMap_get_delete, String.eqb_refl. }
  repeat split.
  - exact Hrun1.
  - unfold disposeModel, NotebookTextModel_dispose, bind, read.
    destruct Hreg as [_ Hlisten]. rewrite Hlisten, Hrun2. reflexivity.
  - exact Htrace1.
  - cbn [trace with_trace]. rewrite Htrace2. now rewrite <- app_assoc.
  - rewrite Htrace1, removals_app. reflexivity.
  - cbn [trace with_trace]. rewrite Htrace2, !removals_app. simpl.
    now rewrite app_nil_r.
  - now apply Hgone.
  - now apply Hgone.
  - exact Hlisten1.
  - exact Hlisten2.
Qed.

(** C5: when the index already holds a model under the URI,
    [createNotebookTextModel] throws the already-exists error and leaves
    the whole service state as it was; otherwise it returns a new model
    built from the arguments, registered under the URI, with the add event
    as the last effect at the time it returns, and [getNotebookTextModel]
    then returns that model while other URIs resolve as before. *)
Theorem createNotebookTextModel_registers_or_throws (s : t)
    (viewType : string) (uri : URI) (data : NotebookDataDto)
    (transientOptions : TransientOptions) :
  (forall existing,
     getNotebookTextModel s uri = Some existing ->
     createNotebookTextModel viewType uri data transientOptions s =
       (Thrown (NotebookAlreadyExists uri), s)) /\
  (getNotebookTextModel s uri = None ->
   exists model s',
     createNotebookTextModel viewType uri data transientOptions s =
       (Returned model, s') /\
     nb_uri model = uri /\
     nb_viewType model = viewType /\
     nb_cells model = dto_cells data /\
     nb_metadata model = dto_metadata data /\
     nb_transientOptions model = transientOptions /\
     trace s' = trace s ++ [DidAddNotebookDocument model] /\
     getNotebookTextModel s' uri = Some model /\
     registered s' model /\
     (forall other, toKey other <> toKey uri ->
        getNotebookTextModel s' other = getNotebookTextModel s other)).
Proof.
  unfold getNotebookTextModel. split.
  - intros existing Hget.
    unfold createNotebookTextModel, bind, read, JsMap.has.
    destruct (JsMap.get (_models s) (toKey uri)); [reflexivity | discriminate].
  - intros Hget.
    assert (Hnone : JsMap.get (_models s) (toKey uri) = None)
      by (destruct (JsMap.get (_models s) (toKey uri)); [discriminate | reflexivity]).
    unfold createNotebookTextModel, bind, read, JsMap.has.
    rewrite Hnone.
    unfold createInstance, newModelData, bind, read, modify, fire, modify, ret.
    eexists. eexists. split; [reflexivity|].
    cbn [nb_uri nb_viewType nb_cells nb_metadata nb_transientOptions nb_handle
         trace _models listeners with_trace with_models with_listeners].
    repeat split.
    + now rewrite JsMap_get_set, String.eqb_refl.
    + cbn [nb_uri _models with_trace with_models]. 
      now rewrite JsMap_get_set, String.eqb_refl.
    + unfold listening. cbn [listeners with_trace with_models with_listeners nb_handle].
      simpl. now rewrite Nat.eqb_refl.
    + intros other Hother. rewrite JsMap_get_set.
      destruct (String.eqb_spec (toKey uri) (toKey other)); [congruence | reflexivity].
Qed.
End ModelIndexClaims.

(** ** Controllers *)

Section ControllerClaims.
Context `{NotebookCommon}.
Import NotebookService.

Lemma updateStored_get (viewType : string) (opts : INotebookDocumentOptions)
    (store : NotebookProviderInfoStore.t) (k : string) :
  NotebookProviderInfoStore.get (updateStored viewType opts store) k =
  match NotebookProviderInfoStore.get store k with
  | Some info =>
      if String.eqb viewType k then Some (update None (Some opts) info)
      else Some info
  | None => None
  end.
Proof.
  unfold updateStored, NotebookProviderInfoStore.get.
  destruct (JsMap.get (NotebookProviderInfoStore._contributedEditors store) viewType)
    as [info|] eqn:Hget.
  - cbn [NotebookProviderInfoStore._contributedEditors
         NotebookProviderInfoStore.with_editors].
    rewrite JsMap_get_set.
    destruct (String.eqb_spec viewType k) as [<-|Hne].
    + now rewrite Hget.
    + now destruct (JsMap.get (NotebookProviderInfoStore._contributedEditors store) k).
  - destruct (String.eqb_spec viewType k) as [<-|Hne].
    + now rewrite Hget.
    + now destruct (JsMap.get (NotebookProviderInfoStore._contributedEditors store) k).
Qed.

(** Running the handle in any state. *)
Lemma unregister_run (viewType : string) (s : t) :
  unregisterNotebookController viewType s =
  (Returned tt,
   with_trace (with_providers s (JsMap.delete (_notebookProviders s) viewType))
              (trace s ++ [DidChangeEditorTypes])).
Proof. reflexivity. Qed.

(** Registering a controller for a free view type. *)
Lemma register_run (viewType : string)
    (extensionData : NotebookExtensionDescription)
    (controller : IMainNotebookController) (s : t) :
  JsMap.has (_notebookProviders s) viewType = false ->
  registerNotebookController viewType extensionData controller s =
  (Returned (unregisterNotebookController viewType),
   with_trace
     (with_infoStore
        (with_providers s
           (JsMap.set (_notebookProviders s) viewType
              {| controller := controller; extensionData := extensionData |}))
        (updateStored viewType (controller_options controller)
           match viewOptions controller,
                 NotebookProviderInfoStore.get (_notebookProviderInfoStore s) viewType
           with
           | Some vo, None =>
               NotebookProviderInfoStore.add
                 (dynamicInfo viewType extensionData controller vo)
                 (_notebookProviderInfoStore s)
           | _, _ => _notebookProviderInfoStore s
           end))
     (trace s ++ [DidChangeEditorTypes])).
Proof.
  intros Hfree.
  unfold registerNotebookController, bind at 1. unfold read at 1.
  rewrite Hfree.
  unfold bind, read, modify, fire, modify, ret.
  cbn [_notebookProviderInfoStore with_providers].
  destruct (viewOptions controller) as [vo|];
    [destruct (NotebookProviderInfoStore.get (_notebookProviderInfoStore s) viewType)|];
    reflexivity.
Qed.

(** C10: registering a controller for a free view type returns a handle;
    disposing the handle, then or in any later state, deletes the
    controller entry of that view type and nothing else from the
    controller map, fires the editor-types-changed event, and leaves the
    provider-info store (like the rest of the service) untouched.  So the
    entry synthesized for a controller that declared view options, or the
    declared entry whose options the registration refreshed, is still
    what [getContributedNotebookProvider] returns once the controller is
    gone. *)
Theorem dispose_controller_keeps_provider_info (s : t) (viewType : string)
    (extensionData : NotebookExtensionDescription)
    (controller : IMainNotebookController) :
  JsMap.has (_notebookProviders s) viewType = false ->
  exists (dispose : M unit) (s1 : t),
    registerNotebookController viewType extensionData controller s =
      (Returned dispose, s1) /\
    JsMap.get (_notebookProviders s1) viewType =
      Some {| controller := controller; extensionData := extensionData |} /\
    (forall vo,
       viewOptions controller = Some vo ->
       getContributedNotebookProvider s viewType = None ->
       getContributedNotebookProvider s1 viewType =
         Some (dynamicInfo viewType extensionData controller vo)) /\
    (forall info,
       getContributedNotebookProvider s viewType = Some info ->
       getContributedNotebookProvider s1 viewType =
         Some (update None (Some (controller_options controller)) info)) /\
    (forall s2 : t,
       exists s3,
         dispose s2 = (Returned tt, s3) /\
         JsMap.get (_notebookProviders s3) viewType = None /\
         (forall other, other <> viewType ->
            JsMap.get (_notebookProviders s3) other =
            JsMap.get (_notebookProviders s2) other) /\
         trace s3 = trace s2 ++ [DidChangeEditorTypes] /\
         _notebookProviderInfoStore s3 = _notebookProviderInfoStore s2 /\
         _notebookRenderersInfoStore s3 = _notebookRenderersInfoStore s2 /\
         _notebookKernelProviderInfoStore s3 = _notebookKernelProviderInfoStore s2 /\
         _models s3 = _models s2 /\
         (forall vt, getContributedNotebookProvider s3 vt =
                     getContributedNotebookProvider s2 vt)).
Proof.
  intros Hfree.
  exists (unregisterNotebookController viewType).
  eexists. split; [now apply register_run|].
  split; [|split; [|split]].
  - cbn [_notebookProviders with_trace with_infoStore with_providers].
    now rewrite JsMap_get_set, String.eqb_refl.
  - intros vo Hvo Hnone. unfold getContributedNotebookProvider in *.
    rewrite Hvo, Hnone.
    cbn [_notebookProviderInfoStore with_trace with_infoStore with_providers].
    rewrite updateStored_get, add_get, Hnone.
    cbn [id dynamicInfo update]. rewrite !String.eqb_refl. reflexivity.
  - intros info Hsome. unfold getContributedNotebookProvider in *.
    rewrite Hsome.
    cbn [_notebookProviderInfoStore with_trace with_infoStore with_providers].
    assert (Hstore :
      match viewOptions controller with
      | Some vo => _notebookProviderInfoStore s
      | None => _notebookProviderInfoStore s
      end = _notebookProviderInfoStore s)
      by now destruct (viewOptions controller).
    rewrite Hstore, updateStored_get, Hsome, String.eqb_refl. reflexivity.
  - intros s2. rewrite unregister_run. eexists. split; [reflexivity|].
    cbn [_notebookProviders _notebookProviderInfoStore
         _notebookRenderersInfoStore _notebookKernelProviderInfoStore _models
         trace with_trace with_providers].
    repeat split.
    + now rewrite JsMap_get_delete, String.eqb_refl.
    + intros other Hother. rewrite JsMap_get_delete.
      destruct (String.eqb_spec viewType other); [congruence | reflexivity].
Qed.
End ControllerClaims.

(** ** The kernel enumeration join *)

Section KernelJoinFacts.
Import NotebookService.

Local Abbreviation Result := (Settlement (list INotebookKernel)).

Lemma settlementOf_snoc (schedule : list (nat * Result)) (index : nat)
    (r : Result) (i : nat) :
  settlementOf (schedule ++ [(index, r)]) i =
  match settlementOf schedule i with
  | Some x => Some x
  | None => if Nat.eqb index i then Some r else None
  end.
Proof.
  unfold settlementOf.
  induction schedule as [|[k x] rest IH]; simpl.
  - destruct (Nat.eqb index i); reflexivity.
  - destruct (Nat.eqb k i); [reflexivity | exact IH].
Qed.

Lemma setNth_length {A : Type} (l : list A) (n : nat) (a : A) :
  length (setNth l n a) = length l.
Proof.
  revert n. induction l as [|x l IH]; intros [|n]; simpl; auto.
Qed.

Lemma setNth_nth_error {A : Type} (l : list A) (n : nat) (a : A) (i : nat) :
  n < length l ->
  nth_error (setNth l n a) i = if Nat.eqb n i then Some a else nth_error l i.
Proof.
  revert n i. induction l as [|x l IH]; intros n i Hn; simpl in Hn; [lia|].
  destruct n as [|n], i as [|i]; simpl; try reflexivity.
  apply IH. lia.
Qed.

Lemma setNth_In {A : Type} (l : list A) (n : nat) (a x old : A) :
  In x l -> nth_error l n = Some old -> x <> old -> In x (setNth l n a).
Proof.
  revert n. induction l as [|y l IH]; intros n Hin Hnth Hne; [destruct Hin|].
  destruct n as [|n]; simpl in *.
  - injection Hnth as ->. destruct Hin as [->|Hin]; [contradiction | now right].
  - destruct Hin as [->|Hin]; [now left | right; eauto].
Qed.

Lemma setNth_In_new {A : Type} (l : list A) (n : nat) (a : A) :
  n < length l -> In a (setNth l n a).
Proof.
  revert n. induction l as [|y l IH]; intros n Hn; simpl in Hn; [lia|].
  destruct n as [|n]; simpl; [now left | right; apply IH; lia].
Qed.

Lemma setNth_In_inv {A : Type} (l : list A) (n : nat) (a x : A) :
  In x (setNth l n a) -> x = a \/ In x l.
Proof.
  revert n. induction l as [|y l IH]; intros n Hin; simpl in Hin; [destruct Hin|].
  destruct n as [|n]; simpl in *.
  - destruct Hin as [<-|Hin]; auto.
  - destruct Hin as [<-|Hin]; [auto|]. destruct (IH n Hin); auto.
Qed.

Lemma JoinInvariant_start `{NotebookCommon}
    (filteredProvider : list INotebookKernelProvider) :
  JoinInvariant (length filteredProvider) [] (startKernelJoin filteredProvider).
Proof.
  unfold startKernelJoin. constructor; simpl.
  - apply length_map.
  - intros i Hi. unfold settlementOf. simpl.
    rewrite nth_error_map.
    destruct (nth_error filteredProvider i) eqn:Hnth; [reflexivity|].
    apply nth_error_None in Hnth. lia.
  - destruct filteredProvider as [|p ps]; [discriminate|].
    intros _. split; [|reflexivity].
    intros reason Hin. apply in_map_iff in Hin.
    destruct Hin as [x [Hx _]]. discriminate.
  - destruct filteredProvider as [|p ps]; [|discriminate].
    intros ks Hks. injection Hks as <-. split; reflexivity.
  - destruct filteredProvider; discriminate.
Qed.

Lemma JoinInvariant_settle (n : nat) (schedule : list (nat * Result))
    (j : KernelJoin) (index : nat) (r : Result) :
  JoinInvariant n schedule j ->
  JoinInvariant n (schedule ++ [(index, r)]) (settle index r j).
Proof.
  intros [Hlen Hprom Hpend Hful Hrej].
  unfold settle.
  destruct (nth_error (promises j) index) as [[settled|]|] eqn:Hnth.
  - (* already settled: the event changes nothing *)
    assert (Hidx : index < n).
    { rewrite <- Hlen. apply nth_error_Some. congruence. }
    constructor; try assumption.
    intros i Hi. rewrite settlementOf_snoc, Hprom by assumption.
    destruct (settlementOf schedule i) eqn:Hs; [reflexivity|].
    destruct (Nat.eqb_spec index i) as [->|]; [|reflexivity].
    rewrite Hprom in Hnth by assumption. congruence.
  - (* pending: the promise settles now *)
    assert (Hidx : index < n).
    { rewrite <- Hlen. apply nth_error_Some. congruence. }
    assert (Hidx' : index < length (promises j)) by lia.
    constructor; cbn [promises joined].
    + now rewrite setNth_length.
    + intros i Hi. rewrite setNth_nth_error, settlementOf_snoc by assumption.
      destruct (Nat.eqb_spec index i) as [->|Hne].
      * rewrite Hprom in Hnth by assumption.
        injection Hnth as Hnth. now rewrite Hnth.
      * rewrite Hprom by assumption.
        now destruct (settlementOf schedule i).
    + destruct (joined j) as [settled|] eqn:Hj; [discriminate|].
      destruct (Hpend eq_refl) as [Hnorej _].
      destruct r as [data|reason]; [|discriminate].
      destruct (forallb isFulfilled (setNth (promises j) index (Some (Fulfilled data))))
        eqn:Hall; [discriminate|].
      intros _. split; [|reflexivity].
      intros reason Hin. apply setNth_In_inv in Hin.
      destruct Hin as [Hin|Hin]; [discriminate | now apply (Hnorej reason)].
    + intros ks Hks.
      destruct (joined j) as [settled|] eqn:Hj.
      * injection Hks as ->.
        destruct (Hful ks eq_refl) as [Hall _].
        rewrite forallb_forall in Hall.
        apply nth_error_In in Hnth. apply Hall in Hnth. discriminate.
      * destruct r as [data|reason]; [|discriminate].
        destruct (forallb isFulfilled (setNth (promises j) index (Some (Fulfilled data))))
          eqn:Hall; [|discriminate].
        injection Hks as <-. split; reflexivity.
    + intros reason Hr.
      destruct (joined j) as [settled|] eqn:Hj.
      * injection Hr as ->.
        apply (setNth_In _ _ _ _ None); [now apply Hrej | assumption | discriminate].
      * destruct r as [data|reason'].
        -- destruct (forallb isFulfilled
                       (setNth (promises j) index (Some (Fulfilled data))));
             discriminate Hr.
        -- injection Hr as ->. now apply setNth_In_new.
  - (* no such promise *)
    assert (Hidx : n <= index).
    { rewrite <- Hlen. now apply nth_error_None. }
    constructor; try assumption.
    intros i Hi. rewrite settlementOf_snoc, Hprom by assumption.
    destruct (settlementOf schedule i); [reflexivity|].
    destruct (Nat.eqb_spec index i); [lia | reflexivity].
Qed.

Lemma JoinInvariant_run (n : nat) (done todo : list (nat * Result))
    (j : KernelJoin) :
  JoinInvariant n done j ->
  JoinInvariant n (done ++ todo) (runSchedule todo j).
Proof.
  revert done j. induction todo as [|[index r] rest IH]; intros done j Hinv.
  - now rewrite app_nil_r.
  - simpl. replace (done ++ (index, r) :: rest) with ((done ++ [(index, r)]) ++ rest)
      by now rewrite <- app_assoc.
    apply IH. now apply JoinInvariant_settle.
Qed.
(** Once the call's promise has settled, later settlements do not change
    it. *)
Lemma settle_settled (index : nat) (r : Result) (j : KernelJoin) (o : Result) :
  joined j = Some o -> joined (settle index r j) = Some o.
Proof.
  intros Hj. unfold settle.
  destruct (nth_error (promises j) index) as [[settled|]|]; try assumption.
  cbn [joined]. now rewrite Hj.
Qed.

Lemma runSchedule_settled (schedule : list (nat * Result)) (j : KernelJoin)
    (o : Result) :
  joined j = Some o -> joined (runSchedule schedule j) = Some o.
Proof.
  revert j. induction schedule as [|[index r] rest IH]; intros j Hj; simpl.
  - assumption.
  - apply IH. now apply settle_settled.
Qed.

Lemma settlementOf_In (schedule : list (nat * Result)) (i : nat) (r : Result) :
  settlementOf schedule i = Some r -> In (i, r) schedule.
Proof.
  unfold settlementOf.
  destruct (find (fun ev => Nat.eqb (fst ev) i) schedule) as [[k x]|] eqn:Hfind;
    [|discriminate].
  intros Hr. injection Hr as <-.
  apply find_some in Hfind. destruct Hfind as [Hin Hk].
  apply Nat.eqb_eq in Hk. simpl in Hk. now subst k.
Qed.

(** The first rejection decides: if the enumerations that settled before
    it all fulfilled and its own provider was still pending, the call
    rejects with its reason, whatever settles later. *)
Lemma first_rejection_wins (n : nat) (before after : list (nat * Result))
    (j : KernelJoin) (i : nat) (reason : string) :
  JoinInvariant n [] j ->
  i < n ->
  settlementOf before i = None ->
  (forall k r, In (k, r) before -> exists data, r = Fulfilled data) ->
  joined (runSchedule (before ++ (i, Rejected reason) :: after) j) =
  Some (Rejected reason).
Proof.
  intros Hstart Hi Hpending Hbefore.
  unfold runSchedule. rewrite fold_left_app. simpl.
  apply runSchedule_settled.
  pose proof (JoinInvariant_run n [] before j Hstart) as Hinv. simpl in Hinv.
  fold (runSchedule before j). set (jb := runSchedule before j) in *.
  assert (Hnth : nth_error (promises jb) i = Some None).
  { rewrite (inv_promises _ _ _ Hinv i Hi). now rewrite Hpending. }
  unfold settle. rewrite Hnth. cbn [joined].
  destruct (joined jb) as [[ks|reason']|] eqn:Hj; [| |reflexivity].
  - destruct (inv_fulfilled _ _ _ Hinv ks Hj) as [Hall _].
    rewrite forallb_forall in Hall.
    apply nth_error_In in Hnth. apply Hall in Hnth. discriminate.
  - pose proof (inv_rejected _ _ _ Hinv reason' Hj) as Hin.
    apply In_nth_error in Hin. destruct Hin as [k Hk].
    assert (Hlt : k < n).
    { rewrite <- (inv_length _ _ _ Hinv). apply nth_error_Some. congruence. }
    rewrite (inv_promises _ _ _ Hinv k Hlt) in Hk. injection Hk as Hk.
    apply settlementOf_In in Hk. destruct (Hbefore _ _ Hk) as [data Hd].
    discriminate.
Qed.
End KernelJoinFacts.

Section KernelJoinClaims.
Context `{NotebookCommon}.
Import NotebookService.

Local Abbreviation Result := (Settlement (list INotebookKernel)).

Lemma promises_of_schedule (n : nat) (schedule : list (nat * Result))
    (j : KernelJoin) (i : nat) (p : option Result) :
  JoinInvariant n schedule j ->
  (In p (promises j) -> exists i, i < n /\ p = settlementOf schedule i) /\
  (i < n -> In (settlementOf schedule i) (promises j)).
Proof.
  intros Hinv. split.
  - intros Hin. apply In_nth_error in Hin. destruct Hin as [k Hk].
    assert (Hlt : k < n).
    { rewrite <- (inv_length _ _ _ Hinv). apply nth_error_Some. congruence. }
    exists k. split; [assumption|].
    rewrite (inv_promises _ _ _ Hinv k Hlt) in Hk. congruence.
  - intros Hi. eapply nth_error_In. now apply (inv_promises _ _ _ Hinv).
Qed.

Lemma promises_as_map (n : nat) (schedule : list (nat * Result)) (j : KernelJoin) :
  JoinInvariant n schedule j ->
  promises j = map (settlementOf schedule) (seq 0 n).
Proof.
  intros Hinv. apply nth_error_ext. intros i.
  destruct (Nat.lt_ge_cases i n) as [Hlt|Hge].
  - rewrite (inv_promises _ _ _ Hinv i Hlt), nth_error_map.
    rewrite nth_error_seq.
    destruct (Nat.ltb_spec i n); [reflexivity | lia].
  - assert (H1 : nth_error (promises j) i = None).
    { apply nth_error_None. now rewrite (inv_length _ _ _ Hinv). }
    assert (H2 : nth_error (map (settlementOf schedule) (seq 0 n)) i = None).
    { apply nth_error_None. now rewrite length_map, length_seq. }
    congruence.
Qed.

(** C6: [getNotebookKernels] asks the providers whose selector matches, in
    registration order.  Its promise fulfils exactly when the enumeration
    of every one of them has fulfilled, and then with the concatenation of
    their results in that order; it rejects exactly when the enumeration
    of one of them has rejected, and then with the reason of such an
    enumeration (the first to reject), never with a partial result;
    otherwise it stays pending.  A rejection settles the call at once:
    [Promise.all] does not wait for the enumerations still running. *)
Theorem getNotebookKernels_all_or_nothing (s : t) (viewType : string)
    (resource : URI) (schedule : list (nat * Result)) :
  let store := _notebookKernelProviderInfoStore s in
  let providers := NotebookKernelProviderInfoStore.get store viewType resource in
  let n := length providers in
  let outcome := getNotebookKernels s viewType resource schedule in
  let dataOf i :=
    match settlementOf schedule i with
    | Some (Fulfilled data) => data
    | _ => []
    end in
  providers =
    filter (fun p => notebookDocumentFilterMatch (kp_selector p) viewType resource)
           (NotebookKernelProviderInfoStore._notebookKernelProviders store) /\
  (forall p,
     NotebookKernelProviderInfoStore._notebookKernelProviders
       (NotebookKernelProviderInfoStore.add p store) =
     NotebookKernelProviderInfoStore._notebookKernelProviders store ++ [p]) /\
  ((exists ks, outcome = Some (Fulfilled ks)) <->
   (forall i, i < n -> exists data, settlementOf schedule i = Some (Fulfilled data))) /\
  (forall ks, outcome = Some (Fulfilled ks) -> ks = concat (map dataOf (seq 0 n))) /\
  ((exists reason, outcome = Some (Rejected reason)) <->
   (exists i reason, i < n /\ settlementOf schedule i = Some (Rejected reason))) /\
  (forall reason,
     outcome = Some (Rejected reason) ->
     exists i, i < n /\ settlementOf schedule i = Some (Rejected reason)) /\
  (outcome = None <->
   (forall i reason, i < n -> settlementOf schedule i <> Some (Rejected reason)) /\
   (exists i, i < n /\ settlementOf schedule i = None)) /\
  (forall before after i reason,
     schedule = before ++ (i, Rejected reason) :: after ->
     i < n ->
     settlementOf before i = None ->
     (forall k r, In (k, r) before -> exists data, r = Fulfilled data) ->
     outcome = Some (Rejected reason)).
Proof.
  intros store providers n outcome dataOf.
  assert (Hfirst : forall before after i reason,
     schedule = before ++ (i, Rejected reason) :: after ->
     i < n ->
     settlementOf before i = None ->
     (forall k r, In (k, r) before -> exists data, r = Fulfilled data) ->
     outcome = Some (Rejected reason)).
  { intros before after i reason -> Hi Hpending Hbefore.
    apply (first_rejection_wins n before after (startKernelJoin providers) i reason);
      try assumption.
    apply JoinInvariant_start. }
  pose proof (JoinInvariant_run n [] schedule (startKernelJoin providers)
                (JoinInvariant_start providers)) as Hinv.
  simpl in Hinv.
  set (j := runSchedule schedule (startKernelJoin providers)) in *.
  assert (Houtcome : outcome = joined j) by reflexivity.
  clearbody j outcome.
  pose proof (promises_as_map n schedule j Hinv) as Hmap.
  assert (Hin : forall p, In p (promises j) <->
                  exists i, i < n /\ p = settlementOf schedule i).
  { intros p. split.
    - apply (promises_of_schedule n schedule j 0 p Hinv).
    - intros [i [Hi ->]]. now apply (promises_of_schedule n schedule j i None Hinv). }
  assert (Hall : forallb isFulfilled (promises j) = true <->
            forall i, i < n -> exists data, settlementOf schedule i = Some (Fulfilled data)).
  { rewrite forallb_forall. split.
    - intros Hf i Hi.
      assert (Hp : In (settlementOf schedule i) (promises j)) by (apply Hin; eauto).
      apply Hf in Hp. destruct (settlementOf schedule i) as [[data|reason]|];
        try discriminate. now exists data.
    - intros Hf p Hp. apply Hin in Hp. destruct Hp as [i [Hi ->]].
      destruct (Hf i Hi) as [data ->]. reflexivity. }
  assert (Hfulfilled : forall ks, outcome = Some (Fulfilled ks) ->
            forallb isFulfilled (promises j) = true /\
            ks = concat (map dataOf (seq 0 n))).
  { intros ks Hks. rewrite Houtcome in Hks.
    destruct (inv_fulfilled _ _ _ Hinv ks Hks) as [Hf ->].
    split; [assumption|].
    unfold flatten. rewrite Hmap, !map_map. f_equal.
    apply map_ext. intros i. unfold dataOf, resultSlot.
    now destruct (settlementOf schedule i) as [[data|reason]|]. }
  assert (Hrejected : forall reason, outcome = Some (Rejected reason) ->
            exists i, i < n /\ settlementOf schedule i = Some (Rejected reason)).
  { intros reason Hr. rewrite Houtcome in Hr.
    apply (inv_rejected _ _ _ Hinv) in Hr. apply Hin in Hr.
    destruct Hr as [i [Hi Heq]]. exists i. split; congruence. }
  assert (Hpending : outcome = None ->
            (forall reason, ~ In (Some (Rejected reason)) (promises j)) /\
            forallb isFulfilled (promises j) = false).
  { intros Hn. rewrite Houtcome in Hn. now apply (inv_pending _ _ _ Hinv). }
  assert (Hexcl : forall i reason, i < n ->
            settlementOf schedule i = Some (Rejected reason) ->
            forallb isFulfilled (promises j) = false).
  { intros i reason Hi Hr.
    apply not_true_is_false. intros Hf.
    destruct (proj1 Hall Hf i Hi) as [data Hd]. congruence. }
  split; [reflexivity|]. split; [reflexivity|].
  split; [|split; [|split; [|split; [|split; [|exact Hfirst]]]]].
  - split.
    + intros [ks Hks]. apply Hall. now apply (Hfulfilled ks).
    + intros Hf. apply (proj2 Hall) in Hf.
      destruct outcome as [[ks|reason]|] eqn:Ho.
      * now exists ks.
      * destruct (Hrejected reason eq_refl) as [i [Hi Hr]].
        rewrite (Hexcl i reason Hi Hr) in Hf. discriminate.
      * destruct (Hpending eq_refl) as [_ Hp]. congruence.
  - intros ks Hks. now apply Hfulfilled.
  - split.
    + intros [reason Hr]. destruct (Hrejected reason Hr) as [i Hi]. eauto.
    + intros [i [reason [Hi Hr]]].
      destruct outcome as [[ks|reason']|] eqn:Ho.
      * destruct (Hfulfilled ks eq_refl) as [Hf _].
        rewrite (Hexcl i reason Hi Hr) in Hf. discriminate.
      * now exists reason'.
      * destruct (Hpending eq_refl) as [Hnone _].
        exfalso. apply (Hnone reason). apply Hin. exists i. split; congruence.
  - exact Hrejected.
  - split.
    + intros Hn. destruct (Hpending Hn) as [Hnone Hf]. split.
      * intros i reason Hi Hr. apply (Hnone reason). apply Hin.
        exists i. split; congruence.
      * destruct (existsb (fun i => match settlementOf schedule i with
                                    | None => true | Some _ => false end)
                          (seq 0 n)) eqn:Hex.
        -- apply existsb_exists in Hex. destruct Hex as [i [Hi Hs]].
           apply in_seq in Hi. exists i. split; [lia|].
           now destruct (settlementOf schedule i).
        -- exfalso.
           assert (Htrue : forallb isFulfilled (promises j) = true).
           { apply Hall. intros i Hi.
             destruct (settlementOf schedule i) as [[data|reason]|] eqn:Hs.
             - now exists data.
             - exfalso. apply (Hnone reason). apply Hin.
               exists i. split; congruence.
             - assert (Hc : existsb (fun i => match settlementOf schedule i with
                                              | None => true | Some _ => false end)
                                    (seq 0 n) = true).
               { apply existsb_exists. exists i. split.
                 - apply in_seq. lia.
                 - now rewrite Hs. }
               congruence. }
           congruence.
    + intros [Hnorej [i [Hi Hs]]].
      destruct outcome as [[ks|reason]|] eqn:Ho; [| |reflexivity].
      * destruct (Hfulfilled ks eq_refl) as [Hf _].
        destruct (proj1 Hall Hf i Hi) as [data Hd]. congruence.
      * destruct (Hrejected reason eq_refl) as [k [Hk Hr]].
        exfalso. exact (Hnorej k reason Hk Hr).
Qed.
End KernelJoinClaims.

(** ** The claims on the sample workbench *)

Section SampleRuns.
Import NotebookService.

(** Two renderers for [application/json] in an untrusted document. *)
Lemma getMimeTypeInfo_drops_no_mime_type_witness :
  let result :=
    getMimeTypeInfo (withRenderers jsonRenderers) (sampleModel false)
      (sampleOutput ["text/plain"; "application/json"; "text/plain"; "x/y"]%string) in
  In "application/json"%string (map mimeType result) /\
  filter (fun e => String.eqb (mimeType e) "application/json") result =
  [ {| mimeType := "application/json"; rendererId := "r1"; isTrusted := false |};
    {| mimeType := "application/json"; rendererId := "r2"; isTrusted := false |};
    {| mimeType := "application/json"; rendererId := "_builtin"; isTrusted := false |} ]%string.
Proof.
  cbv zeta.
  refine (getMimeTypeInfo_drops_no_mime_type (withRenderers jsonRenderers)
            (sampleModel false)
            (sampleOutput ["text/plain"; "application/json"; "text/plain"; "x/y"]%string)
            "application/json"%string _).
  simpl. right. left. reflexivity.
Defined.

(** Two services, documents and payloads that differ in everything but
    the mime sequence, the orders, the renderers and the trust flag. *)
Lemma getMimeTypeInfo_deterministic_witness :
  getMimeTypeInfo (withRenderers jsonRenderers) (sampleModel false)
    (sampleOutput ["x/y"; "application/json"; "text/plain"]%string) =
  getMimeTypeInfo jsonServiceWithModel otherModel
    (otherOutput ["x/y"; "application/json"; "text/plain"]%string).
Proof.
  apply getMimeTypeInfo_deterministic; reflexivity.
Defined.

(** The scenario of two renderers for a mime type that is supported
    natively and not always secure, in an untrusted document. *)
Lemma getMimeTypeInfo_trust_witness :
  filter (fun e => String.eqb (mimeType e) "application/json")
    (getMimeTypeInfo (withRenderers jsonRenderers) (sampleModel false)
       (sampleOutput ["text/plain"; "application/json"]%string)) =
  [ {| mimeType := "application/json"; rendererId := "r1"; isTrusted := false |};
    {| mimeType := "application/json"; rendererId := "r2"; isTrusted := false |};
    {| mimeType := "application/json"; rendererId := "_builtin"; isTrusted := false |} ]%string.
Proof.
  refine (proj2 (proj2 (getMimeTypeInfo_trust (withRenderers jsonRenderers)
                          (sampleModel false)
                          (sampleOutput ["text/plain"; "application/json"]%string))
                       "application/json"%string eq_refl eq_refl)
                (sampleRenderer "r1" ["application/json"%string])
                (sampleRenderer "r2" ["application/json"; "foo/bar"]%string)
                _ eq_refl eq_refl).
  simpl. right. left. reflexivity.
Defined.

(** The model created for [/a.ipynb], destroyed explicitly and disposed
    by its owner. *)
Lemma disposal_witness :
  registered serviceWithModel (sampleModel true) /\
  exists s1 s2,
    destoryNotebookDocument 2 "jupyter" (sampleModel true) serviceWithModel
      = (Returned tt, s1) /\
    disposeModel 2 (sampleModel true) serviceWithModel = (Returned tt, s2) /\
    removals (trace s1) = [fileUri "/a.ipynb"] /\
    removals (trace s2) = [fileUri "/a.ipynb"] /\
    getNotebookTextModel s1 (fileUri "/a.ipynb") = None /\
    getNotebookTextModel s2 (fileUri "/a.ipynb") = None.
Proof.
  assert (Hreg : registered serviceWithModel (sampleModel true))
    by (split; reflexivity).
  split; [exact Hreg|].
  destruct (disposal_removes_then_disposes_then_fires serviceWithModel
              (sampleModel true) (sampleModel true) "jupyter" 2 Hreg eq_refl
              (le_n 2))
    as [s1 [s2 [H1 [H2 [_ [_ [R1 [R2 [G1 [G2 _]]]]]]]]]].
  exists s1, s2. repeat split; assumption.
Defined.

(** Creating a model for [/a.ipynb] twice. *)
Lemma createNotebookTextModel_witness :
  (exists model s',
     createNotebookTextModel "jupyter" (fileUri "/a.ipynb") (sampleData true)
       sampleTransient initial = (Returned model, s') /\
     getNotebookTextModel s' (fileUri "/a.ipynb") = Some model) /\
  createNotebookTextModel "jupyter" (fileUri "/a.ipynb") (sampleData false)
    sampleTransient serviceWithModel =
  (Thrown (NotebookAlreadyExists (fileUri "/a.ipynb")), serviceWithModel).
Proof.
  split.
  - destruct (proj2 (createNotebookTextModel_registers_or_throws initial
                       "jupyter" (fileUri "/a.ipynb") (sampleData true)
                       sampleTransient) eq_refl)
      as [model [s' [Hrun [_ [_ [_ [_ [_ [_ [Hget _]]]]]]]]]].
    exists model, s'. split; assumption.
  - apply (proj1 (createNotebookTextModel_registers_or_throws serviceWithModel
                    "jupyter" (fileUri "/a.ipynb") (sampleData false)
                    sampleTransient) (sampleModel true)).
    reflexivity.
Defined.

(** A controller with view options, registered on the empty service and
    disposed: its synthesized entry stays. *)
Lemma dispose_controller_witness :
  exists dispose s1 s3,
    registerNotebookController "jupyter" sampleExtensionData sampleController
      initial = (Returned dispose, s1) /\
    dispose s1 = (Returned tt, s3) /\
    JsMap.get (_notebookProviders s3) "jupyter" = None /\
    option_map dynamicContribution (getContributedNotebookProvider s3 "jupyter")
      = Some true.
Proof.
  destruct (dispose_controller_keeps_provider_info initial "jupyter"
              sampleExtensionData sampleController eq_refl)
    as [dispose [s1 [Hreg [_ [Hdyn [_ Hdispose]]]]]].
  destruct (Hdispose s1) as [s3 [Hrun [Hgone [_ [_ [_ [_ [_ [_ Hsame]]]]]]]]].
  exists dispose, s1, s3. repeat split; try assumption.
  rewrite Hsame, (Hdyn _ eq_refl eq_refl). reflexivity.
Defined.

(** Two matching providers: both fulfil out of order, one rejects
    first, one never settles. *)
Lemma getNotebookKernels_witness :
  getNotebookKernels serviceWithKernelProviders "jupyter" (fileUri "/a.ipynb")
    [(1, Fulfilled [kernel "k1"]); (0, Fulfilled [kernel "k0"])]
    = Some (Fulfilled [kernel "k0"; kernel "k1"]) /\
  (exists reason,
     getNotebookKernels serviceWithKernelProviders "jupyter" (fileUri "/a.ipynb")
       [(1, Rejected "unreachable"%string); (0, Fulfilled [kernel "k0"])]
       = Some (Rejected reason)) /\
  getNotebookKernels serviceWithKernelProviders "jupyter" (fileUri "/a.ipynb")
    [(0, Fulfilled [kernel "k0"])] = None.
Proof.
  split; [reflexivity|]. split; [|reflexivity].
  apply (proj2 (proj1 (proj2 (proj2 (proj2 (proj2
           (getNotebookKernels_all_or_nothing serviceWithKernelProviders
              "jupyter" (fileUri "/a.ipynb")
              [(1, Rejected "unreachable"%string); (0, Fulfilled [kernel "k0"])]))))))).
  exists 1, "unreachable"%string. split; [vm_compute; lia | reflexivity].
Defined.
End SampleRuns.

(* ================================================================== *)
(** * Further properties of the stores *)

Section JsMapMoreFacts.
Context {V : Type}.
Implicit Types (m : JsMap.t V) (k : string) (v : V).

Lemma JsMap_get_none_keys m k :
  JsMap.get m k = None <-> ~ In k (JsMap.keys m).
Proof.
  unfold JsMap.keys.
  induction m as [|[k0 v0] rest IH]; simpl.
  - split; [intros _ [] | reflexivity].
  - destruct (String.eqb_spec k0 k) as [->|Hne].
    + split; [discriminate | intros Hn; exfalso; apply Hn; now left].
    + rewrite IH. split.
      * intros Hn [Heq|Hin]; [congruence | contradiction].
      * intros Hn Hin. apply Hn. now right.
Qed.

Lemma JsMap_set_fresh m k v :
  JsMap.get m k = None -> JsMap.set m k v = m ++ [(k, v)].
Proof.
  induction m as [|[k0 v0] rest IH]; simpl; intros Hget.
  - reflexivity.
  - destruct (String.eqb k0 k); [discriminate|]. now rewrite IH.
Qed.

Lemma JsMap_delete_absent m k :
  JsMap.get m k = None -> JsMap.delete m k = m.
Proof.
  unfold JsMap.delete.
  induction m as [|[k0 v0] rest IH]; simpl; intros Hget.
  - reflexivity.
  - destruct (String.eqb k0 k); [discriminate|]. simpl. now rewrite IH.
Qed.

Lemma JsMap_delete_set_fresh m k v :
  JsMap.get m k = None -> JsMap.delete (JsMap.set m k v) k = m.
Proof.
  intros Hget. rewrite (JsMap_set_fresh m k v Hget).
  unfold JsMap.delete. rewrite filter_app. simpl.
  rewrite String.eqb_refl. simpl. rewrite app_nil_r.
  now apply JsMap_delete_absent.
Qed.

Lemma JsMap_get_of_In m k v :
  NoDup (JsMap.keys m) -> In (k, v) m -> JsMap.get m k = Some v.
Proof.
  unfold JsMap.keys.
  induction m as [|[k0 v0] rest IH]; simpl; intros Hnd Hin; [destruct Hin|].
  inversion Hnd as [|k' l' Hnotin Hnd']; subst.
  destruct Hin as [Heq|Hin].
  - injection Heq as -> ->. now rewrite String.eqb_refl.
  - destruct (String.eqb_spec k0 k) as [->|Hne].
    + exfalso. apply Hnotin. apply in_map_iff. now exists (k, v).
    + now apply IH.
Qed.
End JsMapMoreFacts.

Section ProviderStoreMoreFacts.
Context `{NotebookCommon}.
Import NotebookProviderInfoStore.

Lemma add_wellFormed (info : NotebookProviderInfo) (s : t) :
  storeWellFormed s -> storeWellFormed (add info s).
Proof.
  intros [Hnd Hkey]. unfold add.
  destruct (JsMap.has (_contributedEditors s) (id info)) eqn:Hhas.
  - now split.
  - apply JsMap_has_false in Hhas.
    unfold storeWellFormed. cbn [_contributedEditors with_memento with_editors].
    rewrite (JsMap_set_fresh _ _ info Hhas). split.
    + unfold JsMap.keys in *. rewrite map_app. simpl.
      apply NoDup_app; [assumption | constructor; [intros [] | constructor] |].
      intros k Hk [<-|[]]. now apply JsMap_get_none_keys in Hhas.
    + intros k i Hin. apply in_app_or in Hin.
      destruct Hin as [Hin|[Heq|[]]]; [now apply Hkey|].
      now injection Heq as <- <-.
Qed.

Lemma fold_add_wellFormed (infos : list NotebookProviderInfo) (s : t) :
  storeWellFormed s ->
  storeWellFormed (fold_left (fun acc info => add info acc) infos s).
Proof.
  apply fold_left_preserves. intros a b _. apply add_wellFormed.
Qed.

Lemma fold_add_get (infos : list NotebookProviderInfo) (s : t) (k : string) :
  get (fold_left (fun acc info => add info acc) infos s) k =
  match get s k with
  | Some v => Some v
  | None => find (fun info => String.eqb (id info) k) infos
  end.
Proof.
  revert s. induction infos as [|info rest IH]; intros s; simpl.
  - now destruct (get s k).
  - rewrite IH, add_get.
    destruct (get s k); [reflexivity|].
    now destruct (String.eqb (id info) k).
Qed.

Lemma fold_add_handled (infos : list NotebookProviderInfo) (s : t) :
  _handled (fold_left (fun acc info => add info acc) infos s) = _handled s.
Proof.
  revert s. induction infos as [|info rest IH]; intros s; simpl.
  - reflexivity.
  - rewrite IH. unfold add.
    now destruct (JsMap.has (_contributedEditors s) (id info)).
Qed.

Lemma fold_add_editors_ext (infos : list NotebookProviderInfo) (s1 s2 : t) :
  _contributedEditors s1 = _contributedEditors s2 ->
  _contributedEditors (fold_left (fun acc info => add info acc) infos s1) =
  _contributedEditors (fold_left (fun acc info => add info acc) infos s2).
Proof.
  revert s1 s2. induction infos as [|info rest IH]; intros s1 s2 Heq; simpl.
  - assumption.
  - apply IH. unfold add. rewrite Heq.
    destruct (JsMap.has (_contributedEditors s2) (id info)); [assumption|].
    reflexivity.
Qed.

Lemma setupHandler_handled
    (extensions : list (IExtensionPointUser (list INotebookEditorContribution)))
    (s : t) :
  _handled (setupHandler extensions s) = true.
Proof.
  unfold setupHandler. cbn [_handled _updateProviderExtensionsInfo with_memento].
  apply (fold_left_preserves (fun st => _handled st = true)).
  - intros acc extension _ Hacc.
    apply (fold_left_preserves (fun st => _handled st = true)); [|assumption].
    intros acc' c _ Hacc'. unfold add.
    now destruct (JsMap.has (_contributedEditors acc') _).
  - reflexivity.
Qed.

(** [setupHandler] in closed form. *)
Lemma setupHandler_closed_form
    (extensions : list (IExtensionPointUser (list INotebookEditorContribution)))
    (s : t) :
  let editors :=
    _contributedEditors
      (fold_left (fun acc info => add info acc) (declarations extensions)
                 (clear (with_handled s true))) in
  let published :=
    filter (fun contribute => truthy (providerExtensionId contribute))
           (JsMap.values editors) in
  setupHandler extensions s =
  {| _handled := true;
     _contributedEditors := editors;
     memento := JsMap.values editors;
     viewTypes := map id published;
     viewTypeDescriptions := map displayName published |}.
Proof.
  intros editors published. subst published editors.
  pose proof (setupHandler_editors extensions s) as He.
  pose proof (setupHandler_handled extensions s) as Hh.
  unfold setupHandler in He, Hh |- *. cbv zeta in He, Hh |- *.
  unfold _updateProviderExtensionsInfo, with_memento in He, Hh |- *.
  cbn [_handled _contributedEditors memento] in He, Hh |- *.
  now rewrite Hh, He.
Qed.

Lemma wellFormed_cleared (s : t) : storeWellFormed (clear s).
Proof.
  split; simpl; [constructor | intros k info []].
Qed.

Lemma setupHandler_wellFormed
    (extensions : list (IExtensionPointUser (list INotebookEditorContribution)))
    (s : t) :
  storeWellFormed (setupHandler extensions s).
Proof.
  unfold storeWellFormed. rewrite setupHandler_editors.
  apply fold_add_wellFormed, wellFormed_cleared.
Qed.

Lemma construct_wellFormed (persisted : list NotebookProviderInfo) :
  storeWellFormed (construct persisted).
Proof.
  unfold construct, storeWellFormed.
  cbn [_contributedEditors _updateProviderExtensionsInfo].
  apply fold_add_wellFormed. split; simpl; [constructor | intros k info []].
Qed.

Lemma wellFormed_ids (s : t) :
  storeWellFormed s ->
  NoDup (map id (iterator s)) /\
  forall info, In info (iterator s) -> get s (id info) = Some info.
Proof.
  intros [Hnd Hkey]. unfold iterator, get, JsMap.values, JsMap.keys in *. split.
  - replace (map id (map snd (_contributedEditors s)))
      with (map fst (_contributedEditors s)); [assumption|].
    rewrite map_map. apply map_ext_in. intros [k v] Hin. simpl.
    now apply Hkey.
  - intros info Hin. apply in_map_iff in Hin.
    destruct Hin as [[k v] [Hv Hin]]. simpl in Hv. subst v.
    rewrite <- (Hkey k info Hin). now apply JsMap_get_of_In.
Qed.


End ProviderStoreMoreFacts.

Section ProviderStoreExtras.
Context `{NotebookCommon}.
Import NotebookProviderInfoStore.

(** X1: the provider-info store keeps its ids unique.  [add] keeps a
    well-formed store well formed; [setupHandler] and the constructor
    produce a well-formed store whatever they start from; and in a
    well-formed store the ids of the entries are pairwise distinct and
    [get] of an entry's id returns that very entry. *)
Theorem provider_ids_stay_unique :
  (forall (info : NotebookProviderInfo) (s : t),
     storeWellFormed s -> storeWellFormed (add info s)) /\
  (forall extensions (s : t), storeWellFormed (setupHandler extensions s)) /\
  (forall persisted, storeWellFormed (construct persisted)) /\
  (forall s : t,
     storeWellFormed s ->
     NoDup (map id (iterator s)) /\
     forall info, In info (iterator s) -> get s (id info) = Some info).
Proof.
  split; [exact add_wellFormed|].
  split; [exact setupHandler_wellFormed|].
  split; [exact construct_wellFormed|].
  exact wellFormed_ids.
Qed.

(** X2: when several declarations carry the same view type, [setupHandler]
    keeps the first one it processes (extensions in order, and within an
    extension its contributions in order): [get] of a view type returns the
    entry built from the first declaration of that view type, and nothing
    when no declaration has it, whatever the store held before. *)
Theorem setupHandler_first_declaration_wins
    (extensions : list (IExtensionPointUser (list INotebookEditorContribution)))
    (s : t) (viewType : string) :
  get (setupHandler extensions s) viewType =
  find (fun info => String.eqb (id info) viewType) (declarations extensions).
Proof.
  unfold get at 1. rewrite setupHandler_editors.
  change (get (fold_left (fun acc info => add info acc) (declarations extensions)
                 (clear (with_handled s true))) viewType =
          find (fun info => String.eqb (id info) viewType) (declarations extensions)).
  rewrite fold_add_get. reflexivity.
Qed.

(** X3: [setupHandler] replaces the whole store: its result does not
    depend on the store it is applied to; the store is marked handled; the
    persisted array is the list of the stored entries; and the two
    published arrays list, index by index, the id and the display name of
    the stored entries that name an extension. *)
Theorem setupHandler_replaces_and_persists
    (extensions : list (IExtensionPointUser (list INotebookEditorContribution)))
    (s1 s2 : t) :
  setupHandler extensions s1 = setupHandler extensions s2 /\
  _handled (setupHandler extensions s1) = true /\
  memento (setupHandler extensions s1) = iterator (setupHandler extensions s1) /\
  combine (viewTypes (setupHandler extensions s1))
          (viewTypeDescriptions (setupHandler extensions s1)) =
  map (fun info => (id info, displayName info))
      (filter (fun info => truthy (providerExtensionId info))
              (iterator (setupHandler extensions s1))).
Proof.
  pose proof (setupHandler_closed_form extensions s1) as H1.
  pose proof (setupHandler_closed_form extensions s2) as H2.
  cbv zeta in H1, H2.
  assert (He : _contributedEditors
                 (fold_left (fun acc info => add info acc) (declarations extensions)
                    (clear (with_handled s1 true))) =
               _contributedEditors
                 (fold_left (fun acc info => add info acc) (declarations extensions)
                    (clear (with_handled s2 true))))
    by (apply fold_add_editors_ext; reflexivity).
  split; [|split; [|split]].
  - rewrite H1, H2, He. reflexivity.
  - rewrite H1. reflexivity.
  - rewrite H1. reflexivity.
  - rewrite H1. unfold iterator. cbn [viewTypes viewTypeDescriptions _contributedEditors].
    generalize (filter (fun info => truthy (providerExtensionId info))
                  (JsMap.values
                     (_contributedEditors
                        (fold_left (fun acc info => add info acc)
                           (declarations extensions)
                           (clear (with_handled s1 true)))))) as l.
    induction l as [|i l IH]; simpl; [reflexivity | now rewrite IH].
Qed.

(** X4: the listener on [onDidRegisterExtensions] changes nothing once
    [setupHandler] has run; on a store that was never handled, such as the
    one the constructor builds from persisted entries, it removes every
    entry, empties the persisted array and the two published arrays. *)
Theorem onDidRegisterExtensions_clears_unless_handled :
  (forall extensions (s : t),
     onDidRegisterExtensions (setupHandler extensions s) =
     setupHandler extensions s) /\
  (forall s : t,
     _handled s = false ->
     iterator (onDidRegisterExtensions s) = [] /\
     memento (onDidRegisterExtensions s) = [] /\
     viewTypes (onDidRegisterExtensions s) = [] /\
     viewTypeDescriptions (onDidRegisterExtensions s) = [] /\
     forall viewType, get (onDidRegisterExtensions s) viewType = None) /\
  (forall persisted,
     iterator (onDidRegisterExtensions (construct persisted)) = []).
Proof.
  assert (Hclears : forall s : t,
     _handled s = false ->
     iterator (onDidRegisterExtensions s) = [] /\
     memento (onDidRegisterExtensions s) = [] /\
     viewTypes (onDidRegisterExtensions s) = [] /\
     viewTypeDescriptions (onDidRegisterExtensions s) = [] /\
     forall viewType, get (onDidRegisterExtensions s) viewType = None).
  { intros s Hs. unfold onDidRegisterExtensions. rewrite Hs. simpl.
    repeat split. }
  split; [|split].
  - intros extensions s. unfold onDidRegisterExtensions.
    now rewrite setupHandler_handled.
  - exact Hclears.
  - intros persisted. apply Hclears.
    unfold construct. cbn [_handled _updateProviderExtensionsInfo].
    now rewrite fold_add_handled.
Qed.

End ProviderStoreExtras.


(** ** The renderer stores and the kernel-provider store *)

Section RendererStoreFacts.
Import NotebookService.

Lemma renderer_add_get (info : NotebookOutputRendererInfo)
    (s : NotebookOutputRendererInfoStore.t) (k : string) :
  NotebookOutputRendererInfoStore.get (NotebookOutputRendererInfoStore.add info s) k =
  match NotebookOutputRendererInfoStore.get s k with
  | Some v => Some v
  | None => if String.eqb (renderer_id info) k then Some info else None
  end.
Proof.
  unfold NotebookOutputRendererInfoStore.add, NotebookOutputRendererInfoStore.get.
  destruct (JsMap.has (NotebookOutputRendererInfoStore.contributedRenderers s)
                      (renderer_id info)) eqn:Hhas.
  - destruct (JsMap.get (NotebookOutputRendererInfoStore.contributedRenderers s) k)
      eqn:Hk; [reflexivity|].
    destruct (String.eqb_spec (renderer_id info) k) as [<-|]; [|reflexivity].
    apply JsMap_has_get in Hhas. destruct Hhas. congruence.
  - cbn [NotebookOutputRendererInfoStore.contributedRenderers].
    rewrite JsMap_get_set. apply JsMap_has_false in Hhas.
    destruct (String.eqb_spec (renderer_id info) k) as [<-|].
    + now rewrite Hhas.
    + now destruct (JsMap.get (NotebookOutputRendererInfoStore.contributedRenderers s) k).
Qed.

Lemma renderer_add_values (info : NotebookOutputRendererInfo)
    (s : NotebookOutputRendererInfoStore.t) :
  JsMap.values (NotebookOutputRendererInfoStore.contributedRenderers
                  (NotebookOutputRendererInfoStore.add info s)) =
  JsMap.values (NotebookOutputRendererInfoStore.contributedRenderers s) ++
  (if JsMap.has (NotebookOutputRendererInfoStore.contributedRenderers s)
                (renderer_id info)
   then [] else [info]).
Proof.
  unfold NotebookOutputRendererInfoStore.add.
  destruct (JsMap.has (NotebookOutputRendererInfoStore.contributedRenderers s)
                      (renderer_id info)) eqn:Hhas.
  - now rewrite app_nil_r.
  - cbn [NotebookOutputRendererInfoStore.contributedRenderers].
    apply JsMap_values_set_fresh. now apply JsMap_has_false.
Qed.

Lemma renderer_fold_add_get (infos : list NotebookOutputRendererInfo)
    (s : NotebookOutputRendererInfoStore.t) (k : string) :
  NotebookOutputRendererInfoStore.get
    (fold_left (fun acc r => NotebookOutputRendererInfoStore.add r acc) infos s) k =
  match NotebookOutputRendererInfoStore.get s k with
  | Some v => Some v
  | None => find (fun r => String.eqb (renderer_id r) k) infos
  end.
Proof.
  revert s. induction infos as [|info rest IH]; intros s; simpl.
  - now destruct (NotebookOutputRendererInfoStore.get s k).
  - rewrite IH, renderer_add_get.
    destruct (NotebookOutputRendererInfoStore.get s k); [reflexivity|].
    now destruct (String.eqb (renderer_id info) k).
Qed.

Lemma addRendererContribution_accepted
    (extension : IExtensionPointUser (list INotebookRendererContribution))
    (store : NotebookOutputRendererInfoStore.t)
    (c : INotebookRendererContribution) :
  addRendererContribution extension store c =
  if rendererAccepted c
  then NotebookOutputRendererInfoStore.add (contributedRenderer extension c) store
  else store.
Proof.
  unfold addRendererContribution, rendererAccepted.
  destruct (truthy (rc_entrypoint c)); simpl; [|reflexivity].
  destruct (truthy (rendererContributionId c)); reflexivity.
Qed.

(** The renderer handler in closed form: the accepted contributions,
    added in order to an empty store. *)
Lemma onRendererExtensionPoint_closed_form
    (renderers : list (IExtensionPointUser (list INotebookRendererContribution)))
    (store : NotebookOutputRendererInfoStore.t) :
  onRendererExtensionPoint renderers store =
  fold_left (fun acc r => NotebookOutputRendererInfoStore.add r acc)
            (acceptedRenderers renderers) NotebookOutputRendererInfoStore.empty.
Proof.
  unfold onRendererExtensionPoint, acceptedRenderers.
  unfold NotebookOutputRendererInfoStore.clear.
  generalize NotebookOutputRendererInfoStore.empty as acc.
  induction renderers as [|extension rest IH]; intros acc; simpl.
  - reflexivity.
  - rewrite fold_left_app, <- IH. f_equal.
    generalize acc. clear.
    induction (value extension) as [|c cs IHc]; intros acc; simpl.
    + reflexivity.
    + rewrite fold_left_app, <- IHc, addRendererContribution_accepted.
      now destruct (rendererAccepted c).
Qed.

Lemma truthy_or_else (o : option string) (d : string) :
  truthy o = true -> or_else o d <> EmptyString.
Proof.
  destruct o as [[|c s]|]; simpl; intros Ho; try discriminate.
Qed.

Lemma acceptedRenderers_In
    (renderers : list (IExtensionPointUser (list INotebookRendererContribution)))
    (r : NotebookOutputRendererInfo) :
  In r (acceptedRenderers renderers) <->
  exists extension c,
    In extension renderers /\ In c (value extension) /\
    rendererAccepted c = true /\ r = contributedRenderer extension c.
Proof.
  unfold acceptedRenderers. rewrite in_flat_map. split.
  - intros [extension [Hext Hin]]. apply in_flat_map in Hin.
    destruct Hin as [c [Hc Hr]].
    destruct (rendererAccepted c) eqn:Hacc; [|destruct Hr].
    destruct Hr as [<-|[]]. now exists extension, c.
  - intros [extension [c [Hext [Hc [Hacc ->]]]]].
    exists extension. split; [assumption|].
    apply in_flat_map. exists c. split; [assumption|].
    rewrite Hacc. now left.
Qed.

Lemma markdownExtensions_allowed
    (before rest : list (IExtensionPointUser (list INotebookMarkdownRendererContribution)))
    (infos : list NotebookMarkdownRendererInfo) :
  forallb markdownAllowed before = true ->
  markdownExtensions (before ++ rest) infos =
  markdownExtensions rest
    (fold_left
       (fun acc extension =>
          fold_left (addMarkdownContribution extension) (value extension) acc)
       before infos).
Proof.
  revert infos. induction before as [|extension more IH]; intros infos Hall; simpl.
  - reflexivity.
  - simpl in Hall. apply andb_true_iff in Hall. destruct Hall as [Hext Hmore].
    unfold markdownAllowed in Hext.
    apply orb_true_iff in Hext.
    replace (negb (enableProposedApi (ext_description extension)) &&
             negb (isBuiltin (ext_description extension))) with false.
    + now apply IH.
    + destruct Hext as [-> | ->]; simpl; [reflexivity|].
      now rewrite andb_false_r.
Qed.
End RendererStoreFacts.

Section RendererStoreExtras.
Context `{NotebookCommon}.
Import NotebookService.

(** X6: the renderer handler replaces the store and isolates malformed
    contributions.  Its result does not depend on the store before; a
    contribution without entry point, or without an id (an absent id falls
    back to the view type, an empty id does not), is skipped and the rest
    of the batch still registers; [get] of an id returns the renderer of
    the first accepted contribution with that id; and every renderer in
    the store has a non-empty id and entry point. *)
Theorem onRendererExtensionPoint_skips_malformed
    (renderers : list (IExtensionPointUser (list INotebookRendererContribution)))
    (store1 store2 : NotebookOutputRendererInfoStore.t) :
  onRendererExtensionPoint renderers store1 =
    onRendererExtensionPoint renderers store2 /\
  (forall k,
     NotebookOutputRendererInfoStore.get
       (onRendererExtensionPoint renderers store1) k =
     find (fun r => String.eqb (renderer_id r) k) (acceptedRenderers renderers)) /\
  (forall r,
     In r (JsMap.values (NotebookOutputRendererInfoStore.contributedRenderers
                           (onRendererExtensionPoint renderers store1))) ->
     renderer_id r <> EmptyString /\
     entrypoint r <> EmptyString /\
     exists extension c,
       In extension renderers /\ In c (value extension) /\
       truthy (rc_entrypoint c) = true /\
       truthy (rendererContributionId c) = true /\
       r = contributedRenderer extension c).
Proof.
  split; [|split].
  - now rewrite !onRendererExtensionPoint_closed_form.
  - intros k. rewrite onRendererExtensionPoint_closed_form.
    now rewrite renderer_fold_add_get.
  - intros r Hin. rewrite onRendererExtensionPoint_closed_form in Hin.
    assert (Hacc : In r (acceptedRenderers renderers)).
    { revert r Hin.
      apply (fold_left_preserves
               (fun st => forall r,
                  In r (JsMap.values
                          (NotebookOutputRendererInfoStore.contributedRenderers st)) ->
                  In r (acceptedRenderers renderers))).
      - intros acc info Hinfo Hacc r Hr.
        rewrite renderer_add_values in Hr. apply in_app_or in Hr.
        destruct Hr as [Hr|Hr]; [now apply Hacc|].
        destruct (JsMap.has _ _); [destruct Hr|].
        destruct Hr as [<-|[]]. assumption.
      - intros r []. }
    apply acceptedRenderers_In in Hacc.
    destruct Hacc as [extension [c [Hext [Hc [Hok ->]]]]].
    unfold rendererAccepted in Hok. apply andb_true_iff in Hok.
    destruct Hok as [Hentry Hid].
    split; [now apply truthy_or_else|].
    split; [now apply truthy_or_else|].
    now exists extension, c.
Qed.

(** X7: adding a renderer under a new id puts it last among the renderers
    [getContributedRenderer] returns for each mime type it supports, and
    changes the answer for no other mime type; adding under an id already
    present changes no answer. *)
Theorem getContributedRenderer_after_add (info : NotebookOutputRendererInfo)
    (s : NotebookOutputRendererInfoStore.t) (mimeType : string) :
  NotebookOutputRendererInfoStore.getContributedRenderer
    (NotebookOutputRendererInfoStore.add info s) mimeType =
  NotebookOutputRendererInfoStore.getContributedRenderer s mimeType ++
  (if JsMap.has (NotebookOutputRendererInfoStore.contributedRenderers s)
                (renderer_id info)
   then []
   else if renderer_matches info mimeType then [info] else []).
Proof.
  unfold NotebookOutputRendererInfoStore.getContributedRenderer.
  rewrite renderer_add_values, filter_app.
  destruct (JsMap.has _ _); [reflexivity|].
  simpl. now destruct (renderer_matches info mimeType).
Qed.

Lemma addMarkdownContribution_In
    (extension : IExtensionPointUser (list INotebookMarkdownRendererContribution))
    (cs : list INotebookMarkdownRendererContribution)
    (infos : list NotebookMarkdownRendererInfo) (info : NotebookMarkdownRendererInfo) :
  In info (fold_left (addMarkdownContribution extension) cs infos) ->
  In info infos \/
  (mdr_extension info = identifier (ext_description extension) /\
   mdr_id info <> EmptyString /\ mdr_entrypoint info <> EmptyString).
Proof.
  revert infos. induction cs as [|c cs IH]; intros infos Hin; simpl in Hin.
  - now left.
  - apply IH in Hin. destruct Hin as [Hin|Hin]; [|now right].
    unfold addMarkdownContribution in Hin.
    destruct (truthy (mc_entrypoint c)) eqn:Hentry; simpl in Hin; [|now left].
    destruct (truthy (mc_id c)) eqn:Hid; simpl in Hin; [|now left].
    apply in_app_or in Hin. destruct Hin as [Hin|[<-|[]]]; [now left|].
    right. simpl. repeat split; now apply truthy_or_else.
Qed.

Lemma markdownExtensions_In
    (renderers : list (IExtensionPointUser (list INotebookMarkdownRendererContribution)))
    (infos : list NotebookMarkdownRendererInfo) (info : NotebookMarkdownRendererInfo) :
  In info (markdownExtensions renderers infos) ->
  In info infos \/
  exists extension,
    In extension renderers /\ markdownAllowed extension = true /\
    mdr_extension info = identifier (ext_description extension) /\
    mdr_id info <> EmptyString /\ mdr_entrypoint info <> EmptyString.
Proof.
  revert infos. induction renderers as [|extension rest IH]; intros infos Hin;
    simpl in Hin.
  - now left.
  - destruct (negb (enableProposedApi (ext_description extension)) &&
              negb (isBuiltin (ext_description extension))) eqn:Hstop.
    + now left.
    + apply IH in Hin. destruct Hin as [Hin|[e [He Hrest]]].
      * apply addMarkdownContribution_In in Hin.
        destruct Hin as [Hin|Hin]; [now left|].
        right. exists extension. split; [now left|]. split; [|assumption].
        unfold markdownAllowed.
        destruct (enableProposedApi (ext_description extension));
          destruct (isBuiltin (ext_description extension)); simpl in *;
          congruence.
      * right. exists e. split; [now right | assumption].
Qed.

(** X8: the markdown handler stops at the first extension that neither
    enables the proposed API nor is built in: that extension and every
    extension after it, allowed or not, registers nothing.  Every renderer
    it registers comes from an allowed extension and has a non-empty id
    and entry point. *)
Theorem onMarkdownRendererExtensionPoint_stops_at_first_disallowed :
  (forall before bad after,
     forallb markdownAllowed before = true ->
     markdownAllowed bad = false ->
     onMarkdownRendererExtensionPoint (before ++ bad :: after) =
     onMarkdownRendererExtensionPoint before) /\
  (forall renderers info,
     In info (onMarkdownRendererExtensionPoint renderers) ->
     exists extension,
       In extension renderers /\ markdownAllowed extension = true /\
       mdr_extension info = identifier (ext_description extension) /\
       mdr_id info <> EmptyString /\ mdr_entrypoint info <> EmptyString).
Proof.
  split.
  - intros before bad after Hall Hbad.
    unfold onMarkdownRendererExtensionPoint.
    rewrite (markdownExtensions_allowed before (bad :: after) [] Hall).
    rewrite <- (app_nil_r before) at 2.
    rewrite (markdownExtensions_allowed before [] [] Hall).
    simpl. unfold markdownAllowed in Hbad. apply orb_false_iff in Hbad.
    destruct Hbad as [-> ->]. reflexivity.
  - intros renderers info Hin.
    apply markdownExtensions_In in Hin. destruct Hin as [[]|Hin]. exact Hin.
Qed.

(** X9: registering a kernel provider appends it: the providers [get]
    returns for a document are those it returned before, followed by the
    new one when its selector matches; the snapshot of all providers gains
    it at the end; and the two published arrays list, index by index, the
    extension id and the description (empty when there is none) of every
    provider in registration order. *)
Theorem kernelProvider_add_appends (provider : INotebookKernelProvider)
    (s : NotebookKernelProviderInfoStore.t) (viewType : string) (resource : URI) :
  NotebookKernelProviderInfoStore.get
    (NotebookKernelProviderInfoStore.add provider s) viewType resource =
  NotebookKernelProviderInfoStore.get s viewType resource ++
  (if notebookDocumentFilterMatch (kp_selector provider) viewType resource
   then [provider] else []) /\
  NotebookKernelProviderInfoStore.getContributedKernelProviders
    (NotebookKernelProviderInfoStore.add provider s) =
  NotebookKernelProviderInfoStore.getContributedKernelProviders s ++ [provider] /\
  combine
    (NotebookKernelProviderInfoStore.extensionIds
       (NotebookKernelProviderInfoStore.add provider s))
    (NotebookKernelProviderInfoStore.extensionDescriptions
       (NotebookKernelProviderInfoStore.add provider s)) =
  map (fun p => (kp_providerExtensionId p,
                 or_else (kp_providerDescription p) EmptyString))
      (NotebookKernelProviderInfoStore.getContributedKernelProviders
         (NotebookKernelProviderInfoStore.add provider s)).
Proof.
  unfold NotebookKernelProviderInfoStore.get,
    NotebookKernelProviderInfoStore.getContributedKernelProviders,
    NotebookKernelProviderInfoStore.add,
    NotebookKernelProviderInfoStore._updateProviderExtensionsInfo.
  cbn [NotebookKernelProviderInfoStore._notebookKernelProviders
       NotebookKernelProviderInfoStore.extensionIds
       NotebookKernelProviderInfoStore.extensionDescriptions].
  split; [|split].
  - rewrite filter_app. simpl.
    now destruct (notebookDocumentFilterMatch (kp_selector provider) viewType resource).
  - reflexivity.
  - generalize (NotebookKernelProviderInfoStore._notebookKernelProviders s ++ [provider]) as l.
    induction l as [|p l IH]; simpl; [reflexivity|].
    rewrite IH. now destruct (kp_providerDescription p) as [[|c d]|].
Qed.
End RendererStoreExtras.

(* ================================================================== *)
(** * Further properties of the service *)

Section ServiceRuns.
Context `{NotebookCommon}.
Import NotebookService.

(** What a successful [createNotebookTextModel] does to each part of the
    service. *)
Lemma createNotebookTextModel_run (s : t) (viewType : string) (uri : URI)
    (data : NotebookDataDto) (transientOptions : TransientOptions) :
  JsMap.get (_models s) (toKey uri) = None ->
  let model :=
    {| nb_handle := nextHandle s;
       nb_viewType := viewType;
       nb_uri := uri;
       nb_cells := dto_cells data;
       nb_metadata := dto_metadata data;
       nb_transientOptions := transientOptions |} in
  exists s',
    createNotebookTextModel viewType uri data transientOptions s =
      (Returned model, s') /\
    _models s' = _models s ++ [(toKey uri, {| md_model := model |})] /\
    listeners s' = nextHandle s :: listeners s /\
    nextHandle s' = S (nextHandle s) /\
    trace s' = trace s ++ [DidAddNotebookDocument model] /\
    _notebookProviders s' = _notebookProviders s /\
    _notebookProviderInfoStore s' = _notebookProviderInfoStore s.
Proof.
  intros Hnone model.
  unfold createNotebookTextModel, bind, read, JsMap.has. rewrite Hnone.
  unfold createInstance, newModelData, bind, read, modify, fire, modify, ret.
  eexists. split; [reflexivity|].
  cbn [_models listeners nextHandle trace _notebookProviders
       _notebookProviderInfoStore with_trace with_models with_listeners nb_handle].
  repeat split. now apply JsMap_set_fresh.
Qed.

(** What the removal path does to each part of the service when the index
    holds the URI. *)
Lemma onWillDispose_run (fuel : nat) (notebook model : NotebookTextModel) (s : t) :
  registered s model ->
  nb_uri notebook = nb_uri model ->
  exists s',
    _onWillDisposeDocument (S (S fuel)) notebook s = (Returned tt, s') /\
    _models s' = JsMap.delete (_models s) (toKey (nb_uri model)) /\
    listeners s' =
      filter (fun h => negb (Nat.eqb (nb_handle model) h)) (listeners s) /\
    nextHandle s' = nextHandle s /\
    trace s' =
      trace s ++ [IndexDeleted (toKey (nb_uri model)); ModelDisposed model;
                  ListenersDisposed model;
                  DidRemoveNotebookDocument (nb_uri model)] /\
    _notebookProviders s' = _notebookProviders s /\
    _notebookProviderInfoStore s' = _notebookProviderInfoStore s.
Proof.
  intros [Hget Hlisten] Huri.
  remember (S fuel) as fuel1 eqn:Hfuel.
  cbn [_onWillDisposeDocument].
  unfold bind at 1. unfold read at 1.
  rewrite Huri, Hget.
  unfold bind at 1. unfold deleteModel, bind, read, modify, fire, modify.
  cbn [fst snd]. unfold JsMap.has. rewrite Hget.
  cbn [md_model NotebookTextModel_dispose].
  unfold NotebookTextModel_dispose, bind, read, fire, modify.
  unfold listening in *. cbn [listeners with_trace with_models ret].
  rewrite Hlisten. subst fuel1.
  rewrite onWillDispose_absent.
  2:{ cbn [_models with_trace with_models]. rewrite JsMap_get_delete.
      now rewrite String.eqb_refl. }
  unfold ModelData_dispose, bind, modify, fire, modify.
  eexists. split; [reflexivity|].
  cbn [trace _models listeners nextHandle _notebookProviders
       _notebookProviderInfoStore with_trace with_models with_listeners md_model].
  repeat split.
  - apply JsMap_delete_idem.
  - now rewrite <- !app_assoc.
Qed.

(** Disposing a model whose listener is not attached reaches nothing in
    the service. *)
Lemma disposeModel_detached (fuel : nat) (model : NotebookTextModel) (s : t) :
  listening s model = false ->
  disposeModel fuel model s =
  (Returned tt, with_trace s (trace s ++ [ModelDisposed model])).
Proof.
  intros Hl. unfold disposeModel, NotebookTextModel_dispose, bind, read.
  now rewrite Hl.
Qed.

Lemma listNotebookDocuments_models (s : t) :
  listNotebookDocuments s = map md_model (JsMap.values (_models s)).
Proof.
  unfold listNotebookDocuments, JsMap.values. now rewrite map_map.
Qed.
End ServiceRuns.

Section ModelIndexExtras.
Context `{NotebookCommon}.
Import NotebookService.

Lemma created_is_registered (s s' : t) (model : NotebookTextModel) :
  JsMap.get (_models s) (toKey (nb_uri model)) = None ->
  _models s' = _models s ++ [(toKey (nb_uri model), {| md_model := model |})] ->
  listeners s' = nb_handle model :: listeners s ->
  registered s' model.
Proof.
  intros Hnone Hm Hl. split.
  - rewrite Hm, <- (JsMap_set_fresh _ _ _ Hnone), JsMap_get_set.
    now rewrite String.eqb_refl.
  - unfold listening. rewrite Hl. simpl. now rewrite Nat.eqb_refl.
Qed.

Lemma getNotebookTextModel_none (s : t) (uri : URI) :
  getNotebookTextModel s uri = None <-> JsMap.get (_models s) (toKey uri) = None.
Proof.
  unfold getNotebookTextModel.
  destruct (JsMap.get (_models s) (toKey uri)); split; congruence.
Qed.

(** X10: removing what is not there is idle.  [destoryNotebookDocument]
    for a URI the index does not hold returns (one level of the removal
    path suffices) without any effect: no event, the index, the listeners
    and the list of documents as before.  And [dispose] of a model whose
    listener is detached (a model the service has already removed) only
    disposes that model: no removal event, the index untouched. *)
Theorem removal_of_unregistered_is_idle :
  (forall (fuel : nat) (viewType : string) (notebook : NotebookTextModel) (s : t),
     getNotebookTextModel s (nb_uri notebook) = None ->
     exists s',
       destoryNotebookDocument (S fuel) viewType notebook s = (Returned tt, s') /\
       trace s' = trace s /\
       _models s' = _models s /\
       listeners s' = listeners s /\
       listNotebookDocuments s' = listNotebookDocuments s) /\
  (forall (fuel : nat) (model : NotebookTextModel) (s : t),
     listening s model = false ->
     exists s',
       disposeModel fuel model s = (Returned tt, s') /\
       trace s' = trace s ++ [ModelDisposed model] /\
       removals (trace s') = removals (trace s) /\
       _models s' = _models s).
Proof.
  split.
  - intros fuel viewType notebook s Hnone.
    apply getNotebookTextModel_none in Hnone.
    unfold destoryNotebookDocument. rewrite (onWillDispose_absent _ _ _ Hnone).
    eexists. split; [reflexivity|].
    unfold listNotebookDocuments. cbn [trace _models listeners with_models].
    rewrite (JsMap_delete_absent _ _ Hnone). repeat split.
  - intros fuel model s Hl. rewrite (disposeModel_detached _ _ _ Hl).
    eexists. split; [reflexivity|].
    cbn [trace _models with_trace]. repeat split.
    rewrite removals_app. simpl. now rewrite app_nil_r.
Qed.

(** X11: removing one model leaves the others alone.  After
    [destoryNotebookDocument] of a registered model, another registered
    model (another key, another object) is still registered, every URI
    with another key resolves as before, and the controllers and the
    provider-info store are untouched. *)
Theorem removal_leaves_other_models (s : t) (model other : NotebookTextModel)
    (viewType : string) (fuel : nat) :
  registered s model ->
  registered s other ->
  toKey (nb_uri other) <> toKey (nb_uri model) ->
  nb_handle other <> nb_handle model ->
  2 <= fuel ->
  exists s',
    destoryNotebookDocument fuel viewType model s = (Returned tt, s') /\
    registered s' other /\
    (forall uri, toKey uri <> toKey (nb_uri model) ->
       getNotebookTextModel s' uri = getNotebookTextModel s uri) /\
    _notebookProviders s' = _notebookProviders s /\
    _notebookProviderInfoStore s' = _notebookProviderInfoStore s.
Proof.
  intros Hreg [Hoget Holisten] Hkey Hhandle Hfuel.
  destruct fuel as [|[|fuel]]; try lia.
  destruct (onWillDispose_run fuel model model s Hreg eq_refl)
    as [s' [Hrun [Hm [Hl [_ [_ [Hp Hi]]]]]]].
  exists s'. split; [exact Hrun|]. split; [|split; [|split; assumption]].
  - split.
    + rewrite Hm, JsMap_get_delete.
      destruct (String.eqb_spec (toKey (nb_uri model)) (toKey (nb_uri other)));
        [congruence | assumption].
    + unfold listening in *. rewrite Hl.
      apply existsb_exists in Holisten. destruct Holisten as [h [Hin Hh]].
      apply existsb_exists. exists h. split; [|assumption].
      apply filter_In. split; [assumption|].
      apply Nat.eqb_eq in Hh. subst h.
      apply negb_true_iff. apply Nat.eqb_neq. congruence.
  - intros uri Huri. unfold getNotebookTextModel. rewrite Hm, JsMap_get_delete.
    destruct (String.eqb_spec (toKey (nb_uri model)) (toKey uri)); [congruence|].
    reflexivity.
Qed.

(** X12: creating a model and destroying it again restores the index.
    For a URI the index does not hold, [createNotebookTextModel] puts the
    new model last in [listNotebookDocuments]; destroying it then returns,
    leaves the index and the list of documents exactly as they were before
    the creation, and the trace has gained the add event followed by the
    removal sequence. *)
Theorem create_then_destroy_restores_index (s : t) (viewType : string)
    (uri : URI) (data : NotebookDataDto) (transientOptions : TransientOptions) :
  getNotebookTextModel s uri = None ->
  exists model s1 s2,
    createNotebookTextModel viewType uri data transientOptions s =
      (Returned model, s1) /\
    listNotebookDocuments s1 = listNotebookDocuments s ++ [model] /\
    destoryNotebookDocument 2 viewType model s1 = (Returned tt, s2) /\
    _models s2 = _models s /\
    listNotebookDocuments s2 = listNotebookDocuments s /\
    trace s2 =
      trace s ++ [DidAddNotebookDocument model; IndexDeleted (toKey uri);
                  ModelDisposed model; ListenersDisposed model;
                  DidRemoveNotebookDocument uri].
Proof.
  intros Hnone. apply getNotebookTextModel_none in Hnone.
  destruct (createNotebookTextModel_run s viewType uri data transientOptions Hnone)
    as [s1 [Hrun1 [Hm1 [Hl1 [_ [Ht1 _]]]]]].
  set (model := {| nb_handle := nextHandle s; nb_viewType := viewType;
                   nb_uri := uri; nb_cells := dto_cells data;
                   nb_metadata := dto_metadata data;
                   nb_transientOptions := transientOptions |}) in *.
  assert (Hreg : registered s1 model)
    by (apply (created_is_registered s); assumption).
  destruct (onWillDispose_run 0 model model s1 Hreg eq_refl)
    as [s2 [Hrun2 [Hm2 [_ [_ [Ht2 _]]]]]].
  assert (Hback : _models s2 = _models s).
  { rewrite Hm2, Hm1. cbn [nb_uri model].
    rewrite <- (JsMap_set_fresh _ _ _ Hnone).
    now apply JsMap_delete_set_fresh. }
  exists model, s1, s2. repeat split.
  - exact Hrun1.
  - rewrite !listNotebookDocuments_models, Hm1.
    unfold JsMap.values. now rewrite !map_app.
  - exact Hrun2.
  - exact Hback.
  - unfold listNotebookDocuments. now rewrite Hback.
  - rewrite Ht2, Ht1, <- app_assoc. reflexivity.
Qed.

(** X13: a model created again for a URI is a new object, and the old one
    is out of the loop.  After create, destroy and create for the same
    URI, the second model differs from the first, it is the registered
    one, and the first model's listener is detached: disposing the first
    model again fires no removal event and leaves the second registered. *)
Theorem recreated_model_is_a_new_object (s : t) (viewType : string) (uri : URI)
    (data data' : NotebookDataDto) (transientOptions : TransientOptions)
    (fuel : nat) :
  getNotebookTextModel s uri = None ->
  exists first s1 s2 second s3 s4,
    createNotebookTextModel viewType uri data transientOptions s =
      (Returned first, s1) /\
    destoryNotebookDocument 2 viewType first s1 = (Returned tt, s2) /\
    createNotebookTextModel viewType uri data' transientOptions s2 =
      (Returned second, s3) /\
    nb_handle second <> nb_handle first /\
    registered s3 second /\
    listening s3 first = false /\
    disposeModel fuel first s3 = (Returned tt, s4) /\
    removals (trace s4) = removals (trace s3) /\
    registered s4 second.
Proof.
  intros Hnone. apply getNotebookTextModel_none in Hnone.
  destruct (createNotebookTextModel_run s viewType uri data transientOptions Hnone)
    as [s1 [Hrun1 [Hm1 [Hl1 [Hn1 _]]]]].
  set (first := {| nb_handle := nextHandle s; nb_viewType := viewType;
                   nb_uri := uri; nb_cells := dto_cells data;
                   nb_metadata := dto_metadata data;
                   nb_transientOptions := transientOptions |}) in *.
  assert (Hreg1 : registered s1 first)
    by (apply (created_is_registered s); assumption).
  destruct (onWillDispose_run 0 first first s1 Hreg1 eq_refl)
    as [s2 [Hrun2 [Hm2 [Hl2 [Hn2 _]]]]].
  assert (Hnone2 : JsMap.get (_models s2) (toKey uri) = None).
  { rewrite Hm2, JsMap_get_delete. cbn [nb_uri first].
    now rewrite String.eqb_refl. }
  destruct (createNotebookTextModel_run s2 viewType uri data' transientOptions Hnone2)
    as [s3 [Hrun3 [Hm3 [Hl3 _]]]].
  set (second := {| nb_handle := nextHandle s2; nb_viewType := viewType;
                    nb_uri := uri; nb_cells := dto_cells data';
                    nb_metadata := dto_metadata data';
                    nb_transientOptions := transientOptions |}) in *.
  assert (Hreg3 : registered s3 second)
    by (apply (created_is_registered s2); assumption).
  assert (Hfresh : nb_handle second <> nb_handle first).
  { cbn [nb_handle second first]. rewrite Hn2, Hn1. lia. }
  assert (Hdetached : listening s3 first = false).
  { unfold listening. rewrite Hl3, Hl2. simpl.
    rewrite listening_detached.
    apply orb_false_iff. split; [|reflexivity].
    apply Nat.eqb_neq. cbn [nb_handle first]. rewrite Hn2, Hn1. lia. }
  exists first, s1, s2, second, s3,
    (with_trace s3 (trace s3 ++ [ModelDisposed first])).
  split; [exact Hrun1|]. split; [exact Hrun2|]. split; [exact Hrun3|].
  split; [exact Hfresh|]. split; [exact Hreg3|]. split; [exact Hdetached|].
  split; [now apply disposeModel_detached|]. split.
  - cbn [trace with_trace]. rewrite removals_app. simpl. now rewrite app_nil_r.
  - exact Hreg3.
Qed.
End ModelIndexExtras.

Section ControllerExtras.
Context `{NotebookCommon}.
Import NotebookService.

Lemma JsMap_set_present_keys {V : Type} (m : JsMap.t V) (k : string) (v : V) :
  JsMap.get m k <> None -> JsMap.keys (JsMap.set m k v) = JsMap.keys m.
Proof.
  unfold JsMap.keys.
  induction m as [|[k0 v0] rest IH]; simpl; intros Hget; [congruence|].
  destruct (String.eqb_spec k0 k) as [->|Hne]; simpl; [reflexivity|].
  now rewrite IH.
Qed.

Lemma JsMap_set_In {V : Type} (m : JsMap.t V) (k : string) (v : V)
    (k' : string) (v' : V) :
  In (k', v') (JsMap.set m k v) -> (k', v') = (k, v) \/ In (k', v') m.
Proof.
  induction m as [|[k0 v0] rest IH]; simpl.
  - intros [Heq|[]]. now left.
  - destruct (String.eqb k0 k); simpl.
    + intros [Heq|Hin]; [now left | right; now right].
    + intros [Heq|Hin]; [right; now left|].
      destruct (IH Hin); [now left | right; now right].
Qed.

Lemma updateStored_wellFormed (viewType : string)
    (opts : INotebookDocumentOptions) (store : NotebookProviderInfoStore.t) :
  storeWellFormed store -> storeWellFormed (updateStored viewType opts store).
Proof.
  intros [Hnd Hkey]. unfold updateStored, NotebookProviderInfoStore.get.
  destruct (JsMap.get (NotebookProviderInfoStore._contributedEditors store) viewType)
    as [info|] eqn:Hget; [|now split].
  split; cbn [NotebookProviderInfoStore._contributedEditors
              NotebookProviderInfoStore.with_editors].
  - rewrite JsMap_set_present_keys; [assumption | congruence].
  - intros k i Hin. apply JsMap_set_In in Hin.
    destruct Hin as [Heq|Hin]; [|now apply Hkey].
    injection Heq as -> ->. cbn [id update].
    apply Hkey.
    assert (Hin : exists v, In (viewType, v)
                    (NotebookProviderInfoStore._contributedEditors store) /\ v = info).
    { clear Hnd Hkey. revert Hget.
      induction (NotebookProviderInfoStore._contributedEditors store)
        as [|[k0 v0] rest IH]; simpl; [discriminate|].
      destruct (String.eqb_spec k0 viewType) as [->|Hne].
      - intros Heq. injection Heq as ->. exists info. split; [now left | reflexivity].
      - intros Hget. destruct (IH Hget) as [v [Hv ->]].
        exists info. split; [now right | reflexivity]. }
    destruct Hin as [v [Hv ->]]. exact Hv.
Qed.

(** X14: one controller per view type.  After a controller is registered
    for a free view type, [_withProvider] returns it with its extension
    data, and any further registration for that view type throws the
    already-exists error and leaves the service as it was. *)
Theorem second_registration_throws (s : t) (viewType : string)
    (extensionData : NotebookExtensionDescription)
    (controller : IMainNotebookController) :
  JsMap.has (_notebookProviders s) viewType = false ->
  exists dispose s1,
    registerNotebookController viewType extensionData controller s =
      (Returned dispose, s1) /\
    _withProvider viewType s1 =
      (Returned {| controller := controller; extensionData := extensionData |}, s1) /\
    forall extensionData' controller',
      registerNotebookController viewType extensionData' controller' s1 =
        (Thrown (ControllerAlreadyExists viewType), s1).
Proof.
  intros Hfree. eexists. eexists.
  split; [now apply register_run|].
  assert (Hget :
    JsMap.get (JsMap.set (_notebookProviders s) viewType
                 {| controller := controller; extensionData := extensionData |})
              viewType =
    Some {| controller := controller; extensionData := extensionData |})
    by now rewrite JsMap_get_set, String.eqb_refl.
  split.
  - unfold _withProvider, bind, read.
    cbn [_notebookProviders with_trace with_infoStore with_providers].
    now rewrite Hget.
  - intros extensionData' controller'.
    unfold registerNotebookController, bind at 1. unfold read at 1.
    cbn [_notebookProviders with_trace with_infoStore with_providers].
    unfold JsMap.has. now rewrite Hget.
Qed.

(** X15: registering a controller and disposing the handle restores the
    controller map.  While the controller is registered its extension's
    location is the last resource root; after disposal the controller map
    and the resource roots are exactly as before the registration,
    [_withProvider] throws the no-provider error, and the view type can be
    registered again. *)
Theorem register_then_dispose_restores_controllers (s : t) (viewType : string)
    (extensionData extensionData' : NotebookExtensionDescription)
    (controller controller' : IMainNotebookController) :
  JsMap.has (_notebookProviders s) viewType = false ->
  exists dispose s1 s2,
    registerNotebookController viewType extensionData controller s =
      (Returned dispose, s1) /\
    getNotebookProviderResourceRoots s1 =
      getNotebookProviderResourceRoots s ++ [ext_location extensionData] /\
    dispose s1 = (Returned tt, s2) /\
    _notebookProviders s2 = _notebookProviders s /\
    getNotebookProviderResourceRoots s2 = getNotebookProviderResourceRoots s /\
    _withProvider viewType s2 = (Thrown (NoProvider viewType), s2) /\
    exists dispose' s3,
      registerNotebookController viewType extensionData' controller' s2 =
        (Returned dispose', s3).
Proof.
  intros Hfree.
  pose proof Hfree as Hnone. apply JsMap_has_false in Hnone.
  eexists. eexists. eexists.
  split; [now apply register_run|].
  split.
  { unfold getNotebookProviderResourceRoots.
    cbn [_notebookProviders with_trace with_infoStore with_providers].
    rewrite (JsMap_values_set_fresh _ _ _ Hnone), map_app. reflexivity. }
  split; [apply unregister_run|].
  cbn [_notebookProviders with_trace with_infoStore with_providers].
  assert (Hback :
    JsMap.delete
      (JsMap.set (_notebookProviders s) viewType
         {| controller := controller; extensionData := extensionData |}) viewType =
    _notebookProviders s) by now apply JsMap_delete_set_fresh.
  split; [exact Hback|]. split; [|split].
  - unfold getNotebookProviderResourceRoots.
    cbn [_notebookProviders with_trace with_infoStore with_providers].
    now rewrite Hback.
  - unfold _withProvider, bind, read.
    cbn [_notebookProviders with_trace with_infoStore with_providers].
    now rewrite Hback, Hnone.
  - eexists. eexists. apply register_run.
    cbn [_notebookProviders with_trace with_infoStore with_providers].
    now rewrite Hback.
Qed.

(** X16: registering a controller touches its own view type only.  The
    controllers and the provider-info entries of every other view type are
    as before, the models, renderers and kernel providers are untouched,
    exactly one editor-types-changed event is fired, and a well-formed
    provider-info store stays well formed. *)
Theorem registration_touches_its_view_type_only (s : t) (viewType : string)
    (extensionData : NotebookExtensionDescription)
    (controller : IMainNotebookController) :
  JsMap.has (_notebookProviders s) viewType = false ->
  exists dispose s1,
    registerNotebookController viewType extensionData controller s =
      (Returned dispose, s1) /\
    (forall other, other <> viewType ->
       JsMap.get (_notebookProviders s1) other = JsMap.get (_notebookProviders s) other /\
       getContributedNotebookProvider s1 other = getContributedNotebookProvider s other) /\
    _models s1 = _models s /\
    _notebookRenderersInfoStore s1 = _notebookRenderersInfoStore s /\
    _notebookKernelProviderInfoStore s1 = _notebookKernelProviderInfoStore s /\
    trace s1 = trace s ++ [DidChangeEditorTypes] /\
    (storeWellFormed (_notebookProviderInfoStore s) ->
     storeWellFormed (_notebookProviderInfoStore s1)).
Proof.
  intros Hfree. eexists. eexists.
  split; [now apply register_run|].
  cbn [_notebookProviders _notebookProviderInfoStore _models
       _notebookRenderersInfoStore _notebookKernelProviderInfoStore trace
       with_trace with_infoStore with_providers].
  split; [|split; [reflexivity|]; split; [reflexivity|]; split; [reflexivity|];
           split; [reflexivity|]].
  - intros other Hother. split.
    + rewrite JsMap_get_set.
      destruct (String.eqb_spec viewType other); [congruence | reflexivity].
    + unfold getContributedNotebookProvider.
      cbn [_notebookProviderInfoStore with_trace with_infoStore with_providers].
      rewrite updateStored_get.
      assert (Hsame :
        NotebookProviderInfoStore.get
          match viewOptions controller,
                NotebookProviderInfoStore.get (_notebookProviderInfoStore s) viewType
          with
          | Some vo, None =>
              NotebookProviderInfoStore.add
                (dynamicInfo viewType extensionData controller vo)
                (_notebookProviderInfoStore s)
          | _, _ => _notebookProviderInfoStore s
          end other =
        NotebookProviderInfoStore.get (_notebookProviderInfoStore s) other).
      { destruct (viewOptions controller) as [vo|]; [|reflexivity].
        destruct (NotebookProviderInfoStore.get (_notebookProviderInfoStore s) viewType);
          [reflexivity|].
        rewrite add_get. cbn [id dynamicInfo update].
        destruct (NotebookProviderInfoStore.get (_notebookProviderInfoStore s) other);
          [reflexivity|].
        destruct (String.eqb_spec viewType other); [congruence | reflexivity]. }
      rewrite Hsame.
      destruct (NotebookProviderInfoStore.get (_notebookProviderInfoStore s) other);
        [|reflexivity].
      destruct (String.eqb_spec viewType other); [congruence | reflexivity].
  - intros Hwf. apply updateStored_wellFormed.
    destruct (viewOptions controller) as [vo|]; [|assumption].
    destruct (NotebookProviderInfoStore.get (_notebookProviderInfoStore s) viewType);
      [assumption|].
    now apply add_wellFormed.
Qed.
End ControllerExtras.

Section ResolutionExtras.
Context `{NotebookCommon}.
Import NotebookService.

Lemma collectMimeTypes_fold (items : list IOutputItemDto) :
  collectMimeTypes items = snd (fold_left collectStep items ([], [])).
Proof. reflexivity. Qed.

Lemma existsb_eqb_In (x : string) (l : list string) :
  existsb (String.eqb x) l = true <-> In x l.
Proof.
  rewrite existsb_exists. split.
  - intros [y [Hy Heq]]. apply String.eqb_eq in Heq. now subst.
  - intros Hin. exists x. split; [assumption | apply String.eqb_refl].
Qed.

Lemma collectStep_absorbs (items : list IOutputItemDto) (seen acc : list string) :
  (forall x, In x seen <-> In x acc) ->
  (forall op, In op items -> In (mime op) acc) ->
  fold_left collectStep items (seen, acc) = (seen, acc).
Proof.
  intros Hsame. induction items as [|op rest IH]; intros Hall; simpl.
  - reflexivity.
  - replace (existsb (String.eqb (mime op)) seen) with true.
    + apply IH. intros op' Hop'. apply Hall. now right.
    + symmetry. apply existsb_eqb_In, Hsame, Hall. now left.
Qed.

Lemma collectStep_distinct (items : list IOutputItemDto) (seen acc : list string) :
  (forall x, In x seen <-> In x acc) ->
  NoDup (map mime items) ->
  (forall op, In op items -> ~ In (mime op) acc) ->
  snd (fold_left collectStep items (seen, acc)) = acc ++ map mime items.
Proof.
  revert seen acc. induction items as [|op rest IH]; intros seen acc Hsame Hnd Hnew;
    simpl.
  - now rewrite app_nil_r.
  - replace (existsb (String.eqb (mime op)) seen) with false.
    + inversion Hnd as [|m l Hnotin Hnd']; subst.
      rewrite IH.
      * now rewrite <- app_assoc.
      * intros x. simpl. rewrite in_app_iff, Hsame. simpl. tauto.
      * assumption.
      * intros op' Hop' Hin. apply in_app_or in Hin.
        destruct Hin as [Hin|[Heq|[]]].
        -- apply (Hnew op'); [now right | assumption].
        -- apply Hnotin. rewrite Heq. now apply in_map.
    + symmetry. apply not_true_is_false. intros Htrue.
      apply existsb_eqb_In, Hsame in Htrue. apply (Hnew op); [now left | assumption].
Qed.

Lemma collectStep_state (items : list IOutputItemDto) (seen acc : list string) :
  (forall x, In x seen <-> In x acc) ->
  let state := fold_left collectStep items (seen, acc) in
  (forall x, In x (fst state) <-> In x (snd state)) /\
  (forall x, In x (snd state) <-> In x acc \/ In x (map mime items)).
Proof.
  revert seen acc. induction items as [|op rest IH]; intros seen acc Hsame; simpl.
  - split; [assumption | intros x; tauto].
  - destruct (existsb (String.eqb (mime op)) seen) eqn:Hseen.
    + destruct (IH seen acc Hsame) as [H1 H2]. split; [assumption|].
      intros x. rewrite H2. apply existsb_eqb_In, Hsame in Hseen.
      split; [tauto|]. intros [Hx|[<-|Hx]]; auto.
    + destruct (IH (mime op :: seen) (acc ++ [mime op])) as [H1 H2].
      * intros x. simpl. rewrite in_app_iff, Hsame. simpl. tauto.
      * split; [assumption|].
        intros x. rewrite H2, in_app_iff. simpl. tauto.
Qed.

(** X17: the result of [getMimeTypeInfo] speaks of the payload's mime
    types only: every entry carries a mime type of the payload; an empty
    payload gives an empty result and a non-empty one a non-empty
    result. *)
Theorem getMimeTypeInfo_only_payload_mime_types (s : t)
    (textModel : NotebookTextModel) (output : IOutputDto) :
  (forall e, In e (getMimeTypeInfo s textModel output) ->
     In (mimeType e) (map mime (outputs output))) /\
  (outputs output = [] -> getMimeTypeInfo s textModel output = []) /\
  (outputs output <> [] -> getMimeTypeInfo s textModel output <> []).
Proof.
  destruct (collectMimeTypes_spec (outputs output)) as [_ Hmem].
  pose proof (sortMimeTypes_perm (collectMimeTypes (outputs output))
                (orElseEmpty (userOrder (_displayOrder s)))
                (orElseEmpty (defaultOrder (_displayOrder s)))) as Hperm.
  rewrite getMimeTypeInfo_resolved.
  split; [|split].
  - intros e He. apply in_flat_map in He. destruct He as [m [Hm He]].
    rewrite (resolved_mimeType _ _ _ _ He).
    apply Hmem. now apply (Permutation_in m Hperm).
  - intros Hempty. rewrite Hempty. reflexivity.
  - intros Hne. destruct (outputs output) as [|op rest] eqn:Hout; [congruence|].
    assert (Hin : In (mime op)
                    (sortMimeTypes (collectMimeTypes (op :: rest))
                       (orElseEmpty (userOrder (_displayOrder s)))
                       (orElseEmpty (defaultOrder (_displayOrder s))))).
    { apply (Permutation_in _ (Permutation_sym Hperm)). apply Hmem. now left. }
    intros Hnil.
    pose proof (resolved_nonempty (_notebookRenderersInfoStore s)
                  (trusted (nb_metadata textModel)) (mime op)) as Hblock.
    destruct (resolved (_notebookRenderersInfoStore s)
                (trusted (nb_metadata textModel)) (mime op)) as [|e es] eqn:Hr;
      [congruence|].
    assert (He : In e (flat_map
                (resolved (_notebookRenderersInfoStore s)
                   (trusted (nb_metadata textModel)))
                (sortMimeTypes (collectMimeTypes (op :: rest))
                   (orElseEmpty (userOrder (_displayOrder s)))
                   (orElseEmpty (defaultOrder (_displayOrder s)))))).
    { apply in_flat_map. exists (mime op). split; [assumption|].
      rewrite Hr. now left. }
    rewrite Hnil in He. destruct He.
Qed.

(** X18: the deduplication keeps first occurrences, in order.  A payload
    whose mime types are distinct is taken as it is; items whose mime type
    occurred earlier in the payload are ignored, so appending such items
    changes neither the collected mime types nor the result of
    [getMimeTypeInfo]. *)
Theorem repeated_mime_types_are_ignored (items : list IOutputItemDto) :
  (NoDup (map mime items) -> collectMimeTypes items = map mime items) /\
  (forall more,
     (forall op, In op more -> In (mime op) (map mime items)) ->
     collectMimeTypes (items ++ more) = collectMimeTypes items /\
     forall (s : t) (textModel : NotebookTextModel) (outputId1 outputId2 : string),
       getMimeTypeInfo s textModel
         {| outputId := outputId1; outputs := items ++ more |} =
       getMimeTypeInfo s textModel {| outputId := outputId2; outputs := items |}).
Proof.
  split.
  - intros Hnd. rewrite collectMimeTypes_fold.
    apply (collectStep_distinct items [] []); [tauto | assumption | auto].
  - intros more Hmore.
    assert (Hcollect : collectMimeTypes (items ++ more) = collectMimeTypes items).
    { rewrite !collectMimeTypes_fold, fold_left_app.
      destruct (collectStep_state items [] []) as [Hsame Hin]; [tauto|].
      destruct (fold_left collectStep items ([], [])) as [seen acc] eqn:Hstate.
      simpl in Hsame, Hin.
      rewrite collectStep_absorbs; [reflexivity | assumption |].
      intros op Hop. apply Hin. right. now apply Hmore. }
    split; [exact Hcollect|].
    intros s textModel outputId1 outputId2.
    rewrite !getMimeTypeInfo_resolved. cbn [outputs]. now rewrite Hcollect.
Qed.

(** X19: who gets trusted.  For a trusted document every entry is
    trusted.  For an untrusted document the only trusted entries are the
    built-in renderer's entries for mime types that are supported natively
    and always secure: no entry of an extension's renderer and no
    no-renderer entry is trusted. *)
Theorem untrusted_document_trusts_only_secure_builtin (s : t)
    (textModel : NotebookTextModel) (output : IOutputDto) :
  (trusted (nb_metadata textModel) = true ->
   forall e, In e (getMimeTypeInfo s textModel output) -> isTrusted e = true) /\
  (trusted (nb_metadata textModel) = false ->
   forall e, In e (getMimeTypeInfo s textModel output) ->
     isTrusted e = true ->
     rendererId e = BUILTIN_RENDERER_ID /\
     mimeTypeIsAlwaysSecure (mimeType e) = true /\
     mimeTypeSupportedByCore (mimeType e) = true).
Proof.
  rewrite getMimeTypeInfo_resolved.
  split; intros Htrust e He; apply in_flat_map in He; destruct He as [m [_ He]];
    unfold resolved in He; rewrite Htrust in He;
    destruct (NotebookOutputRendererInfoStore.getContributedRenderer
                (_notebookRenderersInfoStore s) m) as [|h hs].
  - destruct (mimeTypeSupportedByCore m); destruct He as [<-|[]]; simpl;
      [apply orb_true_r | reflexivity].
  - apply in_app_or in He. destruct He as [He|He].
    + apply in_map_iff in He. destruct He as [r [<- _]]. reflexivity.
    + destruct (mimeTypeSupportedByCore m); [|destruct He].
      destruct He as [<-|[]]. simpl. apply orb_true_r.
  - destruct (mimeTypeSupportedByCore m) eqn:Hcore; destruct He as [<-|[]]; simpl.
    + rewrite orb_false_r. intros Hs. now repeat split.
    + discriminate.
  - apply in_app_or in He. destruct He as [He|He].
    + apply in_map_iff in He. destruct He as [r [<- _]]. simpl. discriminate.
    + destruct (mimeTypeSupportedByCore m) eqn:Hcore; [|destruct He].
      destruct He as [<-|[]]. simpl. rewrite orb_false_r.
      intros Hs. now repeat split.
Qed.
End ResolutionExtras.

Section DelegationExtras.
Context `{NotebookCommon}.
Import NotebookService.

(** X20: [canResolve] answers whether a controller is registered once the
    activations it awaited are over, whatever those activations did to the
    service: on [true] a following [_withProvider] returns the controller,
    on [false] it throws the no-provider error.  When the controller is
    registered from the start and activating extensions does not
    unregister it, the answer is [true] after the first activation alone:
    neither the view type's own event nor [*] is activated. *)
Theorem canResolve_reports_registration
    (activateByEvent : string -> t -> t)
    (whenInstalledExtensionsRegistered : t -> t)
    (viewType : string) (s : t) :
  let result :=
    canResolve activateByEvent whenInstalledExtensionsRegistered viewType s in
  fst result = JsMap.has (_notebookProviders (snd result)) viewType /\
  (fst result = true ->
   exists data, _withProvider viewType (snd result) = (Returned data, snd result)) /\
  (fst result = false ->
   _withProvider viewType (snd result) = (Thrown (NoProvider viewType), snd result)) /\
  ((forall event st,
      JsMap.has (_notebookProviders st) viewType = true ->
      JsMap.has (_notebookProviders (activateByEvent event st)) viewType = true) ->
   JsMap.has (_notebookProviders s) viewType = true ->
   result = (true, activateByEvent "onNotebook:*"%string s)).
Proof.
  intros result.
  assert (Hfst : fst result = JsMap.has (_notebookProviders (snd result)) viewType).
  { subst result. unfold canResolve.
    destruct (JsMap.has (_notebookProviders (activateByEvent "onNotebook:*"%string s))
                        viewType) eqn:H1; cbn [fst snd negb]; [now rewrite H1|].
    destruct (JsMap.has
                (_notebookProviders
                   (activateByEvent ("onNotebook:" ++ viewType)%string
                      (whenInstalledExtensionsRegistered
                         (activateByEvent "onNotebook:*"%string s))))
                viewType) eqn:H2; cbn [fst snd]; [now rewrite H2 | reflexivity]. }
  split; [exact Hfst|]. split; [|split].
  - intros Htrue. rewrite Hfst in Htrue. apply JsMap_has_get in Htrue.
    destruct Htrue as [data Hdata]. exists data.
    unfold _withProvider, bind, read. now rewrite Hdata.
  - intros Hfalse. rewrite Hfst in Hfalse. apply JsMap_has_false in Hfalse.
    unfold _withProvider, bind, read. now rewrite Hfalse.
  - intros Hkeeps Hhas. subst result. unfold canResolve.
    now rewrite (Hkeeps _ _ Hhas).
Qed.

(** X21: the edges of the kernel join.  With no matching provider
    [getNotebookKernels] fulfils at once with no kernel, whatever settles;
    and once the call has settled, enumerations settling later do not
    change what it returned. *)
Theorem getNotebookKernels_settles_once (s : t) (viewType : string)
    (resource : URI) (schedule : list (nat * Settlement (list INotebookKernel))) :
  (NotebookKernelProviderInfoStore.get (_notebookKernelProviderInfoStore s)
     viewType resource = [] ->
   getNotebookKernels s viewType resource schedule = Some (Fulfilled [])) /\
  (forall more outcome,
     getNotebookKernels s viewType resource schedule = Some outcome ->
     getNotebookKernels s viewType resource (schedule ++ more) = Some outcome).
Proof.
  unfold getNotebookKernels. split.
  - intros ->. apply (runSchedule_settled schedule). reflexivity.
  - intros more outcome Hsettled. rewrite fold_left_app.
    now apply (runSchedule_settled more).
Qed.
End DelegationExtras.

(** ** The further properties on the sample workbench *)

Section MoreSampleRuns.
Import NotebookService.

(** Of three markdown extensions, the second is neither built in nor
    proposed: only the first registers. *)
Lemma onMarkdownRendererExtensionPoint_witness :
  onMarkdownRendererExtensionPoint
    [ markdownExtension "a" true [markdownContribution "m1"];
      markdownExtension "b" false [markdownContribution "m2"];
      markdownExtension "c" true [markdownContribution "m3"] ] =
  onMarkdownRendererExtensionPoint
    [ markdownExtension "a" true [markdownContribution "m1"] ].
Proof.
  apply (proj1 onMarkdownRendererExtensionPoint_stops_at_first_disallowed
           [ markdownExtension "a" true [markdownContribution "m1"] ]
           (markdownExtension "b" false [markdownContribution "m2"])
           [ markdownExtension "c" true [markdownContribution "m3"] ]);
    reflexivity.
Defined.

(** Destroying the model of [/a.ipynb] leaves the one of [/b.ipynb]. *)
Lemma removal_leaves_other_models_witness :
  exists s',
    destoryNotebookDocument 2 "jupyter" (sampleModel true) serviceWithTwoModels
      = (Returned tt, s') /\
    getNotebookTextModel s' (fileUri "/b.ipynb") = Some secondModel.
Proof.
  assert (Hkey : toKey (nb_uri secondModel) <> toKey (nb_uri (sampleModel true)))
    by (vm_compute; discriminate).
  destruct (removal_leaves_other_models serviceWithTwoModels (sampleModel true)
              secondModel "jupyter" 2)
    as [s' [Hrun [_ [Hother _]]]].
  - split; reflexivity.
  - split; reflexivity.
  - exact Hkey.
  - simpl. lia.
  - lia.
  - exists s'. split; [exact Hrun|].
    rewrite (Hother (fileUri "/b.ipynb") Hkey). reflexivity.
Defined.

(** A model created on the empty service and destroyed again. *)
Lemma create_then_destroy_witness :
  exists model s1 s2,
    createNotebookTextModel "jupyter" (fileUri "/a.ipynb") (sampleData true)
      sampleTransient initial = (Returned model, s1) /\
    destoryNotebookDocument 2 "jupyter" model s1 = (Returned tt, s2) /\
    listNotebookDocuments s2 = [].
Proof.
  destruct (create_then_destroy_restores_index initial "jupyter"
              (fileUri "/a.ipynb") (sampleData true) sampleTransient eq_refl)
    as [model [s1 [s2 [Hcreate [_ [Hdestroy [_ [Hlist _]]]]]]]].
  exists model, s1, s2. repeat split; assumption.
Defined.

(** Create, destroy and create again on the empty service. *)
Lemma recreated_model_witness :
  exists first second s3,
    nb_handle second <> nb_handle first /\
    registered s3 second /\
    listening s3 first = false.
Proof.
  destruct (recreated_model_is_a_new_object initial "jupyter"
              (fileUri "/a.ipynb") (sampleData true) (sampleData false)
              sampleTransient 2 eq_refl)
    as [first [s1 [s2 [second [s3 [s4 [_ [_ [_ [Hnew [Hreg [Hdet _]]]]]]]]]]]].
  exists first, second, s3. repeat split; try assumption; apply Hreg.
Defined.

(** The sample controller registered twice on the empty service. *)
Lemma second_registration_witness :
  exists dispose s1,
    registerNotebookController "jupyter" sampleExtensionData sampleController
      initial = (Returned dispose, s1) /\
    registerNotebookController "jupyter" sampleExtensionData sampleController
      s1 = (Thrown (ControllerAlreadyExists "jupyter"), s1).
Proof.
  destruct (second_registration_throws initial "jupyter" sampleExtensionData
              sampleController eq_refl)
    as [dispose [s1 [Hrun [_ Hagain]]]].
  exists dispose, s1. split; [exact Hrun | apply Hagain].
Defined.

(** The sample controller registered on the empty service and disposed. *)
Lemma register_then_dispose_witness :
  exists dispose s1 s2,
    registerNotebookController "jupyter" sampleExtensionData sampleController
      initial = (Returned dispose, s1) /\
    dispose s1 = (Returned tt, s2) /\
    _notebookProviders s2 = [] /\
    getNotebookProviderResourceRoots s1 = [fileUri "/ext/jupyter"].
Proof.
  destruct (register_then_dispose_restores_controllers initial "jupyter"
              sampleExtensionData sampleExtensionData sampleController
              sampleController eq_refl)
    as [dispose [s1 [s2 [Hrun [Hroots [Hdispose [Hback _]]]]]]].
  exists dispose, s1, s2. repeat split; assumption.
Defined.

(** The sample controller registered beside the model of [/a.ipynb]. *)
Lemma registration_frame_witness :
  exists dispose s1,
    registerNotebookController "jupyter" sampleExtensionData sampleController
      serviceWithModel = (Returned dispose, s1) /\
    _models s1 = _models serviceWithModel.
Proof.
  destruct (registration_touches_its_view_type_only serviceWithModel "jupyter"
              sampleExtensionData sampleController eq_refl)
    as [dispose [s1 [Hrun [_ [Hmodels _]]]]].
  exists dispose, s1. split; assumption.
Defined.

(** Destroying a document the empty service does not hold. *)
Lemma removal_of_unregistered_witness :
  exists s',
    destoryNotebookDocument 1 "jupyter" (sampleModel true) initial
      = (Returned tt, s') /\
    trace s' = [].
Proof.
  destruct (proj1 removal_of_unregistered_is_idle 0 "jupyter"%string
              (sampleModel true) initial eq_refl)
    as [s' [Hrun [Htrace _]]].
  exists s'. split; assumption.
Defined.

(** A payload that repeats [text/plain]. *)
Lemma repeated_mime_types_witness :
  collectMimeTypes
    (outputs (sampleOutput ["text/plain"; "image/png"; "text/plain"]%string)) =
  ["text/plain"; "image/png"]%string.
Proof.
  refine (eq_trans
            (proj1 (proj2 (repeated_mime_types_are_ignored
                             (outputs (sampleOutput ["text/plain"; "image/png"]%string)))
                          (outputs (sampleOutput ["text/plain"%string])) _))
            _).
  - simpl. intros op [<-|[]]. simpl. now left.
  - apply (proj1 (repeated_mime_types_are_ignored
                    (outputs (sampleOutput ["text/plain"; "image/png"]%string)))).
    simpl. repeat constructor; simpl; intuition discriminate.
Defined.

(** In the trusted sample document every entry is trusted. *)
Lemma trusted_document_witness :
  Forall (fun e => isTrusted e = true)
    (getMimeTypeInfo (withRenderers jsonRenderers) (sampleModel true)
       (sampleOutput ["application/json"; "x/y"]%string)).
Proof.
  apply Forall_forall.
  apply (proj1 (untrusted_document_trusts_only_secure_builtin
                  (withRenderers jsonRenderers) (sampleModel true)
                  (sampleOutput ["application/json"; "x/y"]%string))).
  reflexivity.
Defined.

(** With activations that do nothing, the controller registered on the
    sample service resolves. *)
Lemma canResolve_witness :
  fst (canResolve (fun _ st => st) (fun st => st) "jupyter"
         (snd (registerNotebookController "jupyter" sampleExtensionData
                 sampleController initial))) = true.
Proof.
  rewrite (proj2 (proj2 (proj2
             (canResolve_reports_registration (fun _ st => st) (fun st => st)
                "jupyter"
                (snd (registerNotebookController "jupyter" sampleExtensionData
                        sampleController initial)))))
             (fun _ _ Hhas => Hhas) eq_refl).
  reflexivity.
Defined.

(** No kernel provider on the empty service; and a join that rejected
    stays rejected. *)
Lemma getNotebookKernels_settles_once_witness :
  getNotebookKernels initial "jupyter" (fileUri "/a.ipynb")
    [(0, Fulfilled [kernel "k0"])] = Some (Fulfilled []) /\
  getNotebookKernels serviceWithKernelProviders "jupyter" (fileUri "/a.ipynb")
    ([(1, Rejected "unreachable"%string)] ++ [(0, Fulfilled [kernel "k0"])]) =
  Some (Rejected "unreachable"%string).
Proof.
  split.
  - apply (proj1 (getNotebookKernels_settles_once initial "jupyter"
                    (fileUri "/a.ipynb") [(0, Fulfilled [kernel "k0"])])).
    reflexivity.
  - apply (proj2 (getNotebookKernels_settles_once serviceWithKernelProviders
                    "jupyter" (fileUri "/a.ipynb")
                    [(1, Rejected "unreachable"%string)])).
    reflexivity.
Defined.
End MoreSampleRuns.
